(** * Attendance reconciliation engine: build_attendance and calculate_summary

    A shallow embedding of [backend/attendance_core/compute.py], of [clamp]
    and [combine_date_time] from [backend/attendance_core/utils.py], of the
    places of the two parsers that build the rows of the frames and of the
    records of [backend/models.py], followed by the properties of the
    engine.

    The engine is embedded twice.

    [Compute] reads a punch table as the list of the records that the
    parser collects, a missing punch being [None], and a timestamp as a
    point of one wall-clock time line.
    - A Python [float] is an exact rational ([Q]); [round(x, 2)] is rounding
      to the nearest multiple of 1/100, ties to the even one.
    - A Python [int] is a [Z].
    - A [datetime] is counted in microseconds (the resolution of
      [datetime]); [date()], [time()], comparison and subtraction are plain
      arithmetic on that count, and one day later is the same time of the
      next date.
    - A Python exception is a [Raise] in the [result] monad.
    This is the engine where no cell of the punch frame is [NaT], the
    offset of the zone does not change and nothing is out of range:
    [engine_agrees_with_compute] states it.

    [Engine] reads the frames as pandas builds them: a missing punch is
    [None] or [NaT], a timestamp is an instant read on the wall clock of
    its zone, [+ timedelta(days=1)] is 24 elapsed hours, and the values
    have a limited range.  [calculate_summary] is written over any floats,
    with the binary64 floats as an instance.  The properties that depend
    on [NaT], on a change of the clocks, on the ranges or on the rounding
    of float sums are stated on [Engine]. *)

From Stdlib Require Import ZArith QArith Qround Qabs List Bool String Lia Lqa.
From Stdlib Require Import Permutation.
From Stdlib Require PrimFloat FloatOps SpecFloat Uint63.
Import ListNotations.

Local Open Scope Z_scope.

(** ** Exceptions *)

Inductive exn : Type :=
| ZeroDivisionError
| IndexError.

Inductive result (A : Type) : Type :=
| Ok (a : A)
| Raise (e : exn).

Arguments Ok {A} a.
Arguments Raise {A} e.

Definition bind {A B : Type} (m : result A) (k : A -> result B) : result B :=
  match m with
  | Ok a => k a
  | Raise e => Raise e
  end.

Notation "x <- m ;; k" := (bind m (fun x => k))
  (at level 61, m at next level, right associativity).

(** ** Python numbers *)

Module Py.

Definition float : Type := Q.
Bind Scope Q_scope with float.

(** [a < b] on floats, as a boolean. *)
Definition ltb (a b : float) : bool := negb (Qle_bool b a).

(** [a / b] with a divisor that is not a literal. *)
Definition truediv (a b : float) : result float :=
  if Qeq_bool b 0 then Raise ZeroDivisionError else Ok (a / b)%Q.

(** The builtin [max(a, b)]: [b] replaces [a] only when [b > a]. *)
Definition max (a b : float) : float := if ltb a b then b else a.

(** The builtin [min(a, b)]: [b] replaces [a] only when [b < a]. *)
Definition min (a b : float) : float := if ltb b a then b else a.

(** The builtin [sum] of a sequence of floats, started at [0]. *)
Definition sum (l : list float) : float := fold_left Qplus l 0%Q.

(** [sum(1 for x in l if p(x))]. *)
Definition count {A : Type} (p : A -> bool) (l : list A) : Z :=
  fold_left Z.add (map (fun _ => 1) (filter p l)) 0.

(** [len(l)]. *)
Definition len {A : Type} (l : list A) : Z := Z.of_nat (List.length l).

Definition round_half_even (x : Q) : Z :=
  let f := Qfloor x in
  match Qcompare (x - inject_Z f) (1 # 2) with
  | Lt => f
  | Gt => f + 1
  | Eq => if Z.even f then f else f + 1
  end.

(** [round(x, 2)]. *)
Definition round2 (x : float) : float :=
  Qmake (round_half_even (x * 100)) 100.

(** [seq.iloc[i]] on the rows of a frame. *)
Definition iloc {A : Type} (l : list A) (i : nat) : result A :=
  match nth_error l i with
  | Some a => Ok a
  | None => Raise IndexError
  end.

End Py.

(** ** datetime, date, time, timedelta *)

Module DateTime.

(** Microseconds since the midnight that starts day 0. *)
Definition datetime : Type := Z.
(** Day number. *)
Definition date : Type := Z.
(** Microseconds since midnight, in [0, us_per_day). *)
Definition time : Type := Z.
(** A signed number of microseconds. *)
Definition timedelta : Type := Z.

Definition us_per_second : Z := 1000000.
Definition us_per_minute : Z := 60 * us_per_second.
Definition us_per_day : Z := 86400 * us_per_second.

(** [dt.date()] *)
Definition date_of (dt : datetime) : date := dt / us_per_day.
(** [dt.time()] *)
Definition time_of (dt : datetime) : time := dt mod us_per_day.
(** [datetime.combine(d, t)] *)
Definition combine (d : date) (t : time) : datetime := d * us_per_day + t.
(** [time(h, m, s)] *)
Definition mk_time (h m s : Z) : time := (h * 3600 + m * 60 + s) * us_per_second.
(** [datetime] of day [d] at [h:m:00]. *)
Definition at_hm (d : date) (h m : Z) : datetime := combine d (mk_time h m 0).

(** [timedelta(days=n)] and [timedelta(minutes=n)] *)
Definition days (n : Z) : timedelta := n * us_per_day.
Definition minutes (n : Z) : timedelta := n * us_per_minute.

(** [td.total_seconds()] *)
Definition total_seconds (td : timedelta) : Py.float := Qmake td 1000000.

End DateTime.

(** ** backend/models.py *)

Inductive ShiftType : Type := AM | PM.

Module ShiftConfig.
Record t : Type := mk
  { start : string;
    end_ : string;
    cross_midnight : bool }.
End ShiftConfig.

Module PolicyConfig.
Record t : Type := mk
  { am : ShiftConfig.t;
    pm : ShiftConfig.t;
    tardy_minutes : Z;
    early_minutes : Z;
    timezone : string }.

(** The field defaults of the model. *)
Definition default : t :=
  {| am := ShiftConfig.mk "09:45" "16:30" false;
     pm := ShiftConfig.mk "16:00" "00:15" true;
     tardy_minutes := 5;
     early_minutes := 15;
     timezone := "America/New_York" |}.
End PolicyConfig.

Module DayRecord.
Record t : Type := mk
  { date : DateTime.date;
    shift_type : ShiftType;
    sched_start_dt : DateTime.datetime;
    sched_end_dt : DateTime.datetime;
    actual_in : option DateTime.datetime;
    actual_out : option DateTime.datetime;
    actual_out1 : option DateTime.datetime;
    actual_in2 : option DateTime.datetime;
    sched_minutes : Py.float;
    worked_minutes : Py.float;
    worked_minutes_clipped : Py.float;
    attendance_fraction : Py.float;
    present : bool;
    tardy : bool;
    early_dismissal : bool }.
End DayRecord.

Module Summary.
Record t : Type := mk
  { scheduled_shifts : Z;
    shifts_worked : Z;
    attendance_pct_shifts : Py.float;
    scheduled_hours : Py.float;
    worked_hours : Py.float;
    attendance_pct_hours : Py.float;
    tardy_count : Z;
    early_dismissal_count : Z }.
End Summary.

(** ** The two input frames *)

(** A row of the schedule frame built by [parse_schedule]. *)
Module ScheduleRow.
Record t : Type := mk
  { date : DateTime.date;
    shift_type : ShiftType;
    sched_start_dt : DateTime.datetime;
    sched_end_dt : DateTime.datetime }.
End ScheduleRow.

(** A row of the punch table: the record that [parse_punch_clock] appends
    for a data row (lines 119-127), with [None] for a punch that is
    missing. *)
Module PunchRow.
Record t : Type := mk
  { date : DateTime.date;
    employee_name_raw : string;
    in1 : option DateTime.datetime;
    out1 : option DateTime.datetime;
    in2 : option DateTime.datetime;
    out2 : option DateTime.datetime;
    total_hours_reported : option Py.float }.
End PunchRow.

(** The one warning of [build_attendance]:
    "Multiple punch records found for {shift_date}, using first one". *)
Inductive Warning : Type :=
| MultiplePunchRecords (shift_date : DateTime.date).

(** ** backend/attendance_core/utils.py *)

Definition clamp (value min_val max_val : Py.float) : Py.float :=
  Py.max min_val (Py.min value max_val).

(** ** backend/attendance_core/compute.py *)

Module Compute.
Import DateTime.

(** The locals that the punch block of the loop body assigns. *)
Record Actuals : Type := mk_actuals
  { a_in : option datetime;
    a_out : option datetime;
    a_out1 : option datetime;
    a_in2 : option datetime;
    a_worked : Py.float;
    a_present : bool }.

(** Lines 48-53: the values before any punch is looked at. *)
Definition defaults : Actuals :=
  {| a_in := None; a_out := None; a_out1 := None; a_in2 := None;
     a_worked := 0%Q; a_present := false |}.

(** Lines 89-95. *)
Definition lunch_minutes_of (actual_out1 actual_in2 : option datetime) : Py.float :=
  match actual_out1, actual_in2 with
  | Some o1, Some i2 =>
      let lunch_duration : timedelta := i2 - o1 in
      let lunch_minutes :=
        if Py.ltb 0%Q (total_seconds lunch_duration)
        then (total_seconds lunch_duration / 60)%Q
        else 0%Q in
      Py.max 0%Q lunch_minutes
  | _, _ => 0%Q
  end.

(** Lines 62-102: what the loop body does with the selected punch row.
    A [datetime] is always truthy, so [actual_out1 and actual_in2] tests
    that both are set; [replace] called with the timestamp's own year,
    month and day returns it unchanged; the log lines have no effect. *)
Definition reconcile_punch (sched_start_dt sched_end_dt : datetime)
    (punch_row : PunchRow.t) : Actuals :=
  let actual_in := PunchRow.in1 punch_row in
  let actual_out := PunchRow.out2 punch_row in
  let actual_out1 := PunchRow.out1 punch_row in
  let actual_in2 := PunchRow.in2 punch_row in
  match actual_in, actual_out with
  | Some t_in, Some t_out =>
      let cross_midnight := date_of sched_start_dt <? date_of sched_end_dt in
      let t_out :=
        if cross_midnight && (time_of t_out <? time_of t_in)
        then t_out + days 1
        else t_out in
      let actual_in2 :=
        match actual_out1, actual_in2 with
        | Some o1, Some i2 =>
            if cross_midnight && (time_of i2 <? time_of o1)
            then Some (i2 + days 1)
            else Some i2
        | _, _ => actual_in2
        end in
      let lunch_minutes := lunch_minutes_of actual_out1 actual_in2 in
      let total_duration : timedelta := t_out - t_in in
      let total_minutes := (total_seconds total_duration / 60)%Q in
      {| a_in := actual_in; a_out := Some t_out;
         a_out1 := actual_out1; a_in2 := actual_in2;
         a_worked := Py.max 0%Q (total_minutes - lunch_minutes)%Q;
         a_present := true |}
  | _, _ =>
      {| a_in := actual_in; a_out := actual_out;
         a_out1 := actual_out1; a_in2 := actual_in2;
         a_worked := 0%Q;
         a_present := match actual_in with Some _ => true | None => false end |}
  end.

(** Lines 36-142: one turn of the loop over the schedule rows.  The
    warnings list is the state that the turn may extend. *)
Definition process_shift (punch_df : list PunchRow.t) (config : PolicyConfig.t)
    (sched_row : ScheduleRow.t) (warnings : list Warning)
    : result (DayRecord.t * list Warning) :=
  let tardy_minutes := PolicyConfig.tardy_minutes config in
  let early_minutes := PolicyConfig.early_minutes config in
  let shift_date := ScheduleRow.date sched_row in
  let shift_type := ScheduleRow.shift_type sched_row in
  let sched_start_dt := ScheduleRow.sched_start_dt sched_row in
  let sched_end_dt := ScheduleRow.sched_end_dt sched_row in
  let sched_minutes := (total_seconds (sched_end_dt - sched_start_dt)%Z / 60)%Q in
  let punch_matches :=
    filter (fun p => PunchRow.date p =? shift_date) punch_df in
  st <- match punch_matches with
        | [] => Ok (defaults, warnings)
        | _ :: _ =>
            let warnings :=
              if 1 <? Py.len punch_matches
              then warnings ++ [MultiplePunchRecords shift_date]
              else warnings in
            punch_row <- Py.iloc punch_matches 0 ;;
            Ok (reconcile_punch sched_start_dt sched_end_dt punch_row, warnings)
        end ;;
  let '(act, warnings) := st in
  let tardy :=
    a_present act &&
    match a_in act with
    | Some t_in => sched_start_dt + minutes tardy_minutes <? t_in
    | None => false
    end in
  let early_dismissal :=
    a_present act &&
    match a_out act with
    | Some t_out => t_out <? sched_end_dt - minutes early_minutes
    | None => false
    end in
  let worked_minutes_clipped := clamp (a_worked act) 0%Q sched_minutes in
  attendance_fraction <-
    (if Py.ltb 0%Q sched_minutes
     then Py.truediv worked_minutes_clipped sched_minutes
     else Ok 0%Q) ;;
  Ok ({| DayRecord.date := shift_date;
         DayRecord.shift_type := shift_type;
         DayRecord.sched_start_dt := sched_start_dt;
         DayRecord.sched_end_dt := sched_end_dt;
         DayRecord.actual_in := a_in act;
         DayRecord.actual_out := a_out act;
         DayRecord.actual_out1 := a_out1 act;
         DayRecord.actual_in2 := a_in2 act;
         DayRecord.sched_minutes := sched_minutes;
         DayRecord.worked_minutes := a_worked act;
         DayRecord.worked_minutes_clipped := worked_minutes_clipped;
         DayRecord.attendance_fraction := attendance_fraction;
         DayRecord.present := a_present act;
         DayRecord.tardy := tardy;
         DayRecord.early_dismissal := early_dismissal |},
      warnings).

(** Lines 35-142: the loop, threading [day_records] and [warnings]. *)
Fixpoint process_rows (punch_df : list PunchRow.t) (config : PolicyConfig.t)
    (rows : list ScheduleRow.t)
    (day_records : list DayRecord.t) (warnings : list Warning)
    : result (list DayRecord.t * list Warning) :=
  match rows with
  | [] => Ok (day_records, warnings)
  | sched_row :: rest =>
      step <- process_shift punch_df config sched_row warnings ;;
      let '(day_record, warnings) := step in
      process_rows punch_df config rest (day_records ++ [day_record]) warnings
  end.

(** Lines 153-188. *)
Definition calculate_summary (day_records : list DayRecord.t) : result Summary.t :=
  match day_records with
  | [] =>
      Ok {| Summary.scheduled_shifts := 0;
            Summary.shifts_worked := 0;
            Summary.attendance_pct_shifts := 0%Q;
            Summary.scheduled_hours := 0%Q;
            Summary.worked_hours := 0%Q;
            Summary.attendance_pct_hours := 0%Q;
            Summary.tardy_count := 0;
            Summary.early_dismissal_count := 0 |}
  | _ :: _ =>
      let scheduled_shifts := Py.len day_records in
      let shifts_worked := Py.count DayRecord.present day_records in
      let tardy_count := Py.count DayRecord.tardy day_records in
      let early_dismissal_count := Py.count DayRecord.early_dismissal day_records in
      let scheduled_hours :=
        (Py.sum (map DayRecord.sched_minutes day_records) / 60)%Q in
      let worked_hours :=
        (Py.sum (map DayRecord.worked_minutes_clipped day_records) / 60)%Q in
      attendance_pct_shifts <-
        (if 0 <? scheduled_shifts
         then q <- Py.truediv (inject_Z shifts_worked) (inject_Z scheduled_shifts) ;;
              Ok (q * 100)%Q
         else Ok 0%Q) ;;
      attendance_pct_hours <-
        (if Py.ltb 0%Q scheduled_hours
         then q <- Py.truediv worked_hours scheduled_hours ;;
              Ok (q * 100)%Q
         else Ok 0%Q) ;;
      Ok {| Summary.scheduled_shifts := scheduled_shifts;
            Summary.shifts_worked := shifts_worked;
            Summary.attendance_pct_shifts := Py.round2 attendance_pct_shifts;
            Summary.scheduled_hours := Py.round2 scheduled_hours;
            Summary.worked_hours := Py.round2 worked_hours;
            Summary.attendance_pct_hours := Py.round2 attendance_pct_hours;
            Summary.tardy_count := tardy_count;
            Summary.early_dismissal_count := early_dismissal_count |}
  end.

(** Lines 10-151. *)
Definition build_attendance (punch_df : list PunchRow.t)
    (schedule_df : list ScheduleRow.t) (config : PolicyConfig.t)
    : result (list DayRecord.t * Summary.t * list Warning) :=
  st <- process_rows punch_df config schedule_df [] [] ;;
  let '(day_records, warnings) := st in
  summary <- calculate_summary day_records ;;
  Ok (day_records, summary, warnings).

End Compute.

(** ** Vocabulary of the statements and closed forms of the results

    [first_match], [shift_key], [row_key] and [consistent] are used to
    state the properties.  The other definitions spell out what the code
    above returns; each is proved equal to the code ([process_shift_eq],
    [process_rows_eq], [calculate_summary_eq], [build_attendance_eq]) and is
    used in proofs only. *)

Module Closed.
Import DateTime Compute.

(** The punch rows of a frame that carry the date of a shift. *)
Definition matches (punch_df : list PunchRow.t) (d : date) : list PunchRow.t :=
  filter (fun p => PunchRow.date p =? d) punch_df.

(** [p] is the first row of [punch_df], in row order, dated [d]. *)
Definition first_match (punch_df : list PunchRow.t) (d : date) (p : PunchRow.t) : Prop :=
  exists pre post,
    punch_df = pre ++ p :: post /\
    PunchRow.date p = d /\
    (forall q, In q pre -> PunchRow.date q <> d).

(** Line 121, with the guarded division carried out. *)
Definition fraction_of (clipped sched : Q) : Q :=
  if Py.ltb 0 sched then (clipped / sched)%Q else 0%Q.

(** The record that the loop body assembles from the locals [act]. *)
Definition day_record_of (config : PolicyConfig.t) (row : ScheduleRow.t)
    (act : Actuals) : DayRecord.t :=
  let start_dt := ScheduleRow.sched_start_dt row in
  let end_dt := ScheduleRow.sched_end_dt row in
  let sched := (total_seconds (end_dt - start_dt)%Z / 60)%Q in
  let clipped := clamp (a_worked act) 0%Q sched in
  {| DayRecord.date := ScheduleRow.date row;
     DayRecord.shift_type := ScheduleRow.shift_type row;
     DayRecord.sched_start_dt := start_dt;
     DayRecord.sched_end_dt := end_dt;
     DayRecord.actual_in := a_in act;
     DayRecord.actual_out := a_out act;
     DayRecord.actual_out1 := a_out1 act;
     DayRecord.actual_in2 := a_in2 act;
     DayRecord.sched_minutes := sched;
     DayRecord.worked_minutes := a_worked act;
     DayRecord.worked_minutes_clipped := clipped;
     DayRecord.attendance_fraction := fraction_of clipped sched;
     DayRecord.present := a_present act;
     DayRecord.tardy :=
       a_present act &&
       match a_in act with
       | Some t_in => start_dt + minutes (PolicyConfig.tardy_minutes config) <? t_in
       | None => false
       end;
     DayRecord.early_dismissal :=
       a_present act &&
       match a_out act with
       | Some t_out => t_out <? end_dt - minutes (PolicyConfig.early_minutes config)
       | None => false
       end |}.

(** The locals after the punch block: the defaults, or what the first
    matching row gives. *)
Definition actuals_of (punch_df : list PunchRow.t) (row : ScheduleRow.t) : Actuals :=
  match matches punch_df (ScheduleRow.date row) with
  | [] => defaults
  | p :: _ =>
      reconcile_punch (ScheduleRow.sched_start_dt row) (ScheduleRow.sched_end_dt row) p
  end.

(** The warnings after one turn of the loop. *)
Definition warnings_of (punch_df : list PunchRow.t) (row : ScheduleRow.t)
    (warnings : list Warning) : list Warning :=
  match matches punch_df (ScheduleRow.date row) with
  | _ :: _ :: _ => warnings ++ [MultiplePunchRecords (ScheduleRow.date row)]
  | _ => warnings
  end.

(** Lines 173-177, before rounding. *)
Definition hours_of (f : DayRecord.t -> Py.float) (l : list DayRecord.t) : Q :=
  (Py.sum (map f l) / 60)%Q.

Definition pct_shifts_of (l : list DayRecord.t) : Q :=
  if 0 <? Py.len l
  then (inject_Z (Py.count DayRecord.present l) / inject_Z (Py.len l) * 100)%Q
  else 0%Q.

Definition pct_hours_of (l : list DayRecord.t) : Q :=
  if Py.ltb 0 (hours_of DayRecord.sched_minutes l)
  then (hours_of DayRecord.worked_minutes_clipped l
        / hours_of DayRecord.sched_minutes l * 100)%Q
  else 0%Q.

(** The summary that [calculate_summary] returns. *)
Definition summary_of (l : list DayRecord.t) : Summary.t :=
  match l with
  | [] => Summary.mk 0 0 0%Q 0%Q 0%Q 0%Q 0 0
  | _ :: _ =>
      {| Summary.scheduled_shifts := Py.len l;
         Summary.shifts_worked := Py.count DayRecord.present l;
         Summary.attendance_pct_shifts := Py.round2 (pct_shifts_of l);
         Summary.scheduled_hours := Py.round2 (hours_of DayRecord.sched_minutes l);
         Summary.worked_hours := Py.round2 (hours_of DayRecord.worked_minutes_clipped l);
         Summary.attendance_pct_hours := Py.round2 (pct_hours_of l);
         Summary.tardy_count := Py.count DayRecord.tardy l;
         Summary.early_dismissal_count := Py.count DayRecord.early_dismissal l |}
  end.


(** The four fields that a record copies from its schedule row. *)
Definition shift_key (r : DayRecord.t) : date * ShiftType * datetime * datetime :=
  (DayRecord.date r, DayRecord.shift_type r,
   DayRecord.sched_start_dt r, DayRecord.sched_end_dt r).

Definition row_key (row : ScheduleRow.t) : date * ShiftType * datetime * datetime :=
  (ScheduleRow.date row, ScheduleRow.shift_type row,
   ScheduleRow.sched_start_dt row, ScheduleRow.sched_end_dt row).

End Closed.

(** ** Sample data

    The shifts of the default policy on 2025-01-01 (day 739252) and the two
    records of [tests/test_compute.py]. *)

Module Examples.
Import DateTime.

Definition day : date := 739252.

Definition am_shift : ScheduleRow.t :=
  ScheduleRow.mk day AM (at_hm day 9 45) (at_hm day 16 30).

Definition pm_shift : ScheduleRow.t :=
  ScheduleRow.mk day PM (at_hm day 16 0) (at_hm (day + 1) 0 15).


Definition next_day_shift : ScheduleRow.t :=
  ScheduleRow.mk (day + 1) AM (at_hm (day + 1) 9 45) (at_hm (day + 1) 16 30).

(** In at 09:50, out at 16:30. *)
Definition am_punch : PunchRow.t :=
  PunchRow.mk day "Worker, A" (Some (at_hm day 9 50)) None None
              (Some (at_hm day 16 30)) None.


(** In at 15:58, out at 00:10, both stamped with the report date. *)
Definition pm_punch : PunchRow.t :=
  PunchRow.mk day "Worker, A" (Some (at_hm day 15 58)) None None
              (Some (at_hm day 0 10)) None.



Definition worked_record : DayRecord.t :=
  {| DayRecord.date := day;
     DayRecord.shift_type := AM;
     DayRecord.sched_start_dt := at_hm day 9 45;
     DayRecord.sched_end_dt := at_hm day 16 30;
     DayRecord.actual_in := Some (at_hm day 9 50);
     DayRecord.actual_out := Some (at_hm day 16 30);
     DayRecord.actual_out1 := None;
     DayRecord.actual_in2 := None;
     DayRecord.sched_minutes := 405%Q;
     DayRecord.worked_minutes := 400%Q;
     DayRecord.worked_minutes_clipped := 400%Q;
     DayRecord.attendance_fraction := 0.988%Q;
     DayRecord.present := true;
     DayRecord.tardy := true;
     DayRecord.early_dismissal := false |}.

Definition absent_record : DayRecord.t :=
  {| DayRecord.date := day + 1;
     DayRecord.shift_type := AM;
     DayRecord.sched_start_dt := at_hm (day + 1) 9 45;
     DayRecord.sched_end_dt := at_hm (day + 1) 16 30;
     DayRecord.actual_in := None;
     DayRecord.actual_out := None;
     DayRecord.actual_out1 := None;
     DayRecord.actual_in2 := None;
     DayRecord.sched_minutes := 405%Q;
     DayRecord.worked_minutes := 0%Q;
     DayRecord.worked_minutes_clipped := 0%Q;
     DayRecord.attendance_fraction := 0%Q;
     DayRecord.present := false;
     DayRecord.tardy := false;
     DayRecord.early_dismissal := false |}.

End Examples.

(** ** Building the rows of the two frames

    [combine_date_time] of [backend/attendance_core/utils.py], the two
    branches of [_try_parse_time_str] that build a [time] from the groups
    of a regular-expression match, and the places of [parse_schedule] and
    [parse_punch_clock] that turn the times found in a sheet into a row of
    a frame.  Reading the sheet and matching the patterns are not modelled:
    the matched groups and the parsed times are arguments.  [known_zone]
    tells the zone names that [pytz.timezone] accepts; localizing attaches
    the zone and leaves the wall-clock reading as it is. *)

Module Parse.
Import DateTime.

Inductive error : Type :=
| ValueError
| UnknownTimeZoneError.

Definition bind {A B : Type} (m : error + A) (k : A -> error + B) : error + B :=
  match m with
  | inl e => inl e
  | inr a => k a
  end.

Notation "x <~ m ;; k" := (bind m (fun x => k))
  (at level 61, m at next level, right associativity).

(** [time(hour, minute, second)]: the constructor raises [ValueError]
    outside 0..23, 0..59 and 0..59. *)
Definition time_checked (hour minute second : Z) : error + time :=
  if (0 <=? hour) && (hour <=? 23) && (0 <=? minute) && (minute <=? 59)
     && (0 <=? second) && (second <=? 59)
  then inr (mk_time hour minute second)
  else inl ValueError.

(** The third group of [am_pm_pattern]. *)
Inductive AmPm : Type := MatchAM | MatchPM.

(** [_try_parse_time_str], lines 40-50: the result when [am_pm_pattern]
    matches, from the integers of its first two groups and its third. *)
Definition time_of_am_pm_groups (hour minute : Z) (ampm : AmPm) : error + time :=
  let hour :=
    match ampm with
    | MatchPM => if negb (hour =? 12) then hour + 12 else hour
    | MatchAM => if hour =? 12 then 0 else hour
    end in
  time_checked hour minute 0.

(** [_try_parse_time_str], lines 54-64: the result when [hour_pattern]
    matches, from the integers of its groups; the third group may be
    missing. *)
Definition time_of_hour_groups (hour minute : Z) (second : option Z)
    : error + option time :=
  let second := match second with Some s => s | None => 0 end in
  if (0 <=? hour) && (hour <=? 23) && (0 <=? minute) && (minute <=? 59)
     && (0 <=? second) && (second <=? 59)
  then t <~ time_checked hour minute second ;; inr (Some t)
  else inr None.

Section Zones.

Variable known_zone : string -> bool.

(** [combine_date_time], utils.py lines 112-121.  A [time] is always
    truthy, so [not time_obj] tests that it is unset. *)
Definition combine_date_time (date_obj : datetime) (time_obj : option time)
    (timezone_str : string) : error + option datetime :=
  match time_obj with
  | None => inr None
  | Some t =>
      if known_zone timezone_str
      then inr (Some (combine (date_of date_obj) t))
      else inl UnknownTimeZoneError
  end.

(** [parse_schedule], lines 117-141: the record appended for a cell that is
    not empty.  [time_match] holds the integers of the first two groups of
    [time_pattern] when the cell matches it.  The result is [None] when a
    timestamp is unset, which the times passed here never cause. *)
Definition schedule_record (schedule_date : datetime) (shift_type : ShiftType)
    (time_match : option (Z * Z)) (default_start default_end : time)
    (cross_midnight : bool) (timezone_str : string)
    : error + option ScheduleRow.t :=
  explicit_start <~
    match time_match with
    | Some (hour, minute) => t <~ time_checked hour minute 0 ;; inr (Some t)
    | None => inr None
    end ;;
  let shift_start_time :=
    match explicit_start with Some t => t | None => default_start end in
  let shift_end_time := default_end in
  sched_start_dt <~
    combine_date_time schedule_date (Some shift_start_time) timezone_str ;;
  sched_end_dt <~
    (if cross_midnight
     then let end_date := schedule_date + days 1 in
          combine_date_time end_date (Some shift_end_time) timezone_str
     else combine_date_time schedule_date (Some shift_end_time) timezone_str) ;;
  match sched_start_dt, sched_end_dt with
  | Some s, Some e =>
      inr (Some {| ScheduleRow.date := date_of schedule_date;
                   ScheduleRow.shift_type := shift_type;
                   ScheduleRow.sched_start_dt := s;
                   ScheduleRow.sched_end_dt := e |})
  | _, _ => inr None
  end.

(** [parse_punch_clock], lines 113-127: the record appended for a data row,
    from the times parsed in its four punch cells. *)
Definition punch_record (current_date : datetime) (employee_name : string)
    (in1_time out1_time in2_time out2_time : option time)
    (total_hours : option Py.float) (timezone_str : string)
    : error + PunchRow.t :=
  let stamp (t : option time) : error + option datetime :=
    match t with
    | Some _ => combine_date_time current_date t timezone_str
    | None => inr None
    end in
  in1_dt <~ stamp in1_time ;;
  out1_dt <~ stamp out1_time ;;
  in2_dt <~ stamp in2_time ;;
  out2_dt <~ stamp out2_time ;;
  inr {| PunchRow.date := date_of current_date;
         PunchRow.employee_name_raw := employee_name;
         PunchRow.in1 := in1_dt;
         PunchRow.out1 := out1_dt;
         PunchRow.in2 := in2_dt;
         PunchRow.out2 := out2_dt;
         PunchRow.total_hours_reported := total_hours |}.

End Zones.

(** A [time] as the constructor builds it. *)
Definition valid_time (t : time) : Prop := 0 <= t < us_per_day.

End Parse.

(** ** More vocabulary and sample data *)

Module Reading.
Import DateTime Compute Closed.



(** The zone names of the sample runs. *)
Definition sample_zone (z : string) : bool :=
  String.eqb z "America/New_York" || String.eqb z "UTC".



End Reading.

(** * The engine on the frames that pandas builds

    The definitions above read a cell of a frame as [None] or a [datetime]
    of one time line.  The frames that [parse_punch_clock] and
    [parse_schedule] hand to [build_attendance] come from [pd.DataFrame]:
    - a timestamp column in which some row holds a value is a datetime
      column, whose missing values are [NaT]; [NaT is not None] holds,
      [NaT] is truthy, [NaT.time()] raises [ValueError], arithmetic with
      [NaT] gives [NaT], whose [total_seconds()] is [nan], and every
      comparison with [NaT] is false;
    - a value read from such a column is a zone-aware [Timestamp]: an
      instant.  [date()] and [time()] read it on the wall clock of its
      zone; comparison, subtraction and [+ timedelta] work on instants, so
      that [+ timedelta(days=1)] is 24 elapsed hours;
    - [Timestamp] and [Timedelta] have a limited range, and so has
      [timedelta(minutes=n)].

    [Pandas] models these values and [Engine] the code of [compute.py] on
    them.  An instant is counted in microseconds of UTC; the zone is the
    function [utc_offset], which gives the offset in force at an instant;
    the ranges of [Timestamp] and [Timedelta] are the predicates [ts_ok]
    and [td_ok].  [calculate_summary] is written once over the operations
    on floats that it uses ([Float.ops]), with the exact rationals and the
    binary64 numbers ([B64]) as instances. *)

Module Pandas.
Import DateTime.

(** What a row of the frame holds in a timestamp column. *)
Inductive cell : Type :=
| PyNone
| NaT
| Stamp (t : datetime).

(** The difference of two cells: a [Timedelta], or [NaT]. *)
Inductive delta : Type :=
| NaTDelta
| Delta (d : timedelta).

(** A float that may be [nan]. *)
Inductive number : Type :=
| nan
| num (q : Py.float).

(** The exceptions: [ValueError] is what [NaT.time()] raises,
    [OverflowError] what [timedelta] raises, [OutOfBounds] stands for the
    errors of pandas on a [Timestamp] or [Timedelta] out of range, and
    [AttributeError] and [TypeError] are raised by a method call and by
    arithmetic on [None]. *)
Inductive error : Type :=
| ValueError
| OverflowError
| OutOfBounds
| AttributeError
| TypeError
| ZeroDivisionError
| IndexError.

Inductive outcome (A : Type) : Type :=
| Done (a : A)
| Raised (e : error).

Arguments Done {A} a.
Arguments Raised {A} e.

Definition bind {A B : Type} (m : outcome A) (k : A -> outcome B) : outcome B :=
  match m with
  | Done a => k a
  | Raised e => Raised e
  end.

Notation "x <== m ;; k" := (bind m (fun x => k))
  (at level 61, m at next level, right associativity).

(** What is left of an outcome when a part of the result is forgotten. *)
Definition outcome_map {A B : Type} (f : A -> B) (m : outcome A) : outcome B :=
  match m with
  | Done a => Done (f a)
  | Raised e => Raised e
  end.

(** [x is not None] *)
Definition is_not_none (x : cell) : bool :=
  match x with
  | PyNone => false
  | NaT | Stamp _ => true
  end.

(** The truth value of [x]: [None] is false; [NaT] and every [Timestamp]
    are true. *)
Definition truthy (x : cell) : bool :=
  match x with
  | PyNone => false
  | NaT | Stamp _ => true
  end.

(** [d.total_seconds()] *)
Definition total_seconds (d : delta) : number :=
  match d with
  | Delta d => num (DateTime.total_seconds d)
  | NaTDelta => nan
  end.

(** [x > q]; false when [x] is [nan]. *)
Definition gt (x : number) (q : Py.float) : bool :=
  match x with
  | num a => Py.ltb q a
  | nan => false
  end.

(** [x / q] for a literal [q] that is not zero. *)
Definition div (x : number) (q : Py.float) : number :=
  match x with
  | num a => num (a / q)%Q
  | nan => nan
  end.

(** [x - q] *)
Definition sub (x : number) (q : Py.float) : number :=
  match x with
  | num a => num (a - q)%Q
  | nan => nan
  end.

(** The builtin [max(0.0, x)]: [x] replaces [0.0] only when [x > 0.0],
    which is false of [nan]. *)
Definition max0 (x : number) : Py.float :=
  match x with
  | num a => Py.max 0%Q a
  | nan => 0%Q
  end.

(** [timedelta(minutes=n)]: the constructor raises [OverflowError] when the
    number of whole days is beyond 999999999 in magnitude. *)
Definition timedelta_minutes (n : Z) : outcome timedelta :=
  if (-999999999 <=? n / 1440) && (n / 1440 <=? 999999999)
  then Done (minutes n)
  else Raised OverflowError.

(** [timedelta(minutes=n)] can be built. *)
Definition minutes_in_range (n : Z) : Prop :=
  -999999999 <= n / 1440 <= 999999999.

(** [seq.iloc[i]] on the rows of a frame. *)
Definition iloc {A : Type} (l : list A) (i : nat) : outcome A :=
  match nth_error l i with
  | Some a => Done a
  | None => Raised IndexError
  end.

Section Zone.

(** The zone of the timestamps: the offset from UTC at an instant. *)
Variable utc_offset : datetime -> Z.
(** The instants that a [Timestamp] can hold, and the lengths that a
    [Timedelta] can hold. *)
Variable ts_ok : datetime -> bool.
Variable td_ok : timedelta -> bool.

(** The wall-clock reading of an instant, as a point of the time line of
    [DateTime]. *)
Definition wall (t : datetime) : datetime := t + utc_offset t.

(** [t.date()] and [t.time()] of a [Timestamp]. *)
Definition date_at (t : datetime) : date := date_of (wall t).
Definition time_at (t : datetime) : time := time_of (wall t).

(** [x.time()] *)
Definition cell_time (x : cell) : outcome time :=
  match x with
  | Stamp t => Done (time_at t)
  | NaT => Raised ValueError
  | PyNone => Raised AttributeError
  end.

(** [t + d] and [t - d] for a [Timestamp] and a [timedelta]: pandas raises
    when the [timedelta] or the result is out of range. *)
Definition ts_add (t : datetime) (d : timedelta) : outcome datetime :=
  if td_ok d && ts_ok (t + d) then Done (t + d) else Raised OutOfBounds.

Definition ts_sub (t : datetime) (d : timedelta) : outcome datetime :=
  if td_ok d && ts_ok (t - d) then Done (t - d) else Raised OutOfBounds.

(** [a - b] for two [Timestamp]s. *)
Definition ts_diff (a b : datetime) : outcome timedelta :=
  if td_ok (a - b) then Done (a - b) else Raised OutOfBounds.

(** [x + d] for a cell. *)
Definition cell_add (x : cell) (d : timedelta) : outcome cell :=
  match x with
  | Stamp t => t' <== ts_add t d ;; Done (Stamp t')
  | NaT => Done NaT
  | PyNone => Raised TypeError
  end.

(** [a - b] for two cells. *)
Definition cell_diff (a b : cell) : outcome delta :=
  match a, b with
  | PyNone, _ | _, PyNone => Raised TypeError
  | Stamp x, Stamp y => d <== ts_diff x y ;; Done (Delta d)
  | _, _ => Done NaTDelta
  end.

(** [x > t] and [x < t] for a cell and a [Timestamp]. *)
Definition cell_gt (x : cell) (t : datetime) : outcome bool :=
  match x with
  | Stamp a => Done (t <? a)
  | NaT => Done false
  | PyNone => Raised TypeError
  end.

Definition cell_lt (x : cell) (t : datetime) : outcome bool :=
  match x with
  | Stamp a => Done (a <? t)
  | NaT => Done false
  | PyNone => Raised TypeError
  end.

End Zone.

(** The records that [parse_punch_clock] collects, one per data row. *)
Module PunchDict := PunchRow.

(** A row of the punch frame. *)
Module PunchRow.
Record t : Type := mk
  { date : DateTime.date;
    employee_name_raw : string;
    in1 : cell;
    out1 : cell;
    in2 : cell;
    out2 : cell;
    total_hours_reported : option Py.float }.
End PunchRow.

(** [pd.DataFrame(punch_records)], parse_punch.py line 134, for the
    columns that [build_attendance] reads.  A record holds [None] or a
    [datetime] under each of the four punch keys; the [datetime] is read
    here as the instant that it denotes.  A column in which some
    record holds a [datetime] becomes a datetime column, where [None] is
    stored as [NaT]; a column in which no record holds one keeps its
    [None]s. *)
Definition holds_value (column : PunchDict.t -> option datetime)
    (punch_records : list PunchDict.t) : bool :=
  existsb (fun r => match column r with Some _ => true | None => false end)
          punch_records.

Definition stored (datetime_column : bool) (v : option datetime) : cell :=
  match v with
  | Some t => Stamp t
  | None => if datetime_column then NaT else PyNone
  end.

Definition DataFrame (punch_records : list PunchDict.t) : list PunchRow.t :=
  map (fun r =>
         {| PunchRow.date := PunchDict.date r;
            PunchRow.employee_name_raw := PunchDict.employee_name_raw r;
            PunchRow.in1 :=
              stored (holds_value PunchDict.in1 punch_records) (PunchDict.in1 r);
            PunchRow.out1 :=
              stored (holds_value PunchDict.out1 punch_records) (PunchDict.out1 r);
            PunchRow.in2 :=
              stored (holds_value PunchDict.in2 punch_records) (PunchDict.in2 r);
            PunchRow.out2 :=
              stored (holds_value PunchDict.out2 punch_records) (PunchDict.out2 r);
            PunchRow.total_hours_reported := PunchDict.total_hours_reported r |})
      punch_records.

End Pandas.

(** ** The operations on floats that [calculate_summary] uses *)

Module Float.

Class ops (F : Type) : Type :=
  { (** the float of an [int] *)
    of_int : Z -> F;
    add : F -> F -> F;
    mul : F -> F -> F;
    (** [a / b] for [b] that is not zero *)
    div : F -> F -> F;
    (** how [a] and [b] compare; [nan] compares with nothing *)
    compare : F -> F -> PrimFloat.float_comparison;
    (** [round(a, 2)] *)
    round2 : F -> F }.

(** [a < b] *)
Definition ltb {F : Type} `{ops F} (a b : F) : bool :=
  match compare a b with
  | PrimFloat.FLt => true
  | _ => false
  end.

(** [a == 0], read as [0 == a]. *)
Definition is_zero {F : Type} `{ops F} (a : F) : bool :=
  match compare (of_int 0) a with
  | PrimFloat.FEq => true
  | _ => false
  end.

(** The builtin [sum] of a sequence of floats: it starts from the [int]
    0 and adds the items from left to right.  (From CPython 3.12 on the
    builtin carries a compensation term along; the interpreters before it
    add as written here.) *)
Definition sum {F : Type} `{ops F} (l : list F) : F :=
  fold_left add l (of_int 0).

(** Exact arithmetic: the floats of [Py]. *)
Definition compare_exact (a b : Py.float) : PrimFloat.float_comparison :=
  match Qcompare a b with
  | Eq => PrimFloat.FEq
  | Lt => PrimFloat.FLt
  | Gt => PrimFloat.FGt
  end.

#[global] Instance exact : ops Py.float :=
  {| of_int := inject_Z;
     add := Qplus;
     mul := Qmult;
     div := Qdiv;
     compare := compare_exact;
     round2 := Py.round2 |}.

End Float.

(** ** Binary64 floats

    The floats of the processor.  [of_int] is exact for integers below
    2^53 in magnitude, which covers the literals and the counts of the
    code.  [round2] follows [float.__round__]: the exact value of the
    float is rounded to two decimals, ties to even, and the decimal
    [n / 100] is converted back to the nearest float; a float of 2^53 / 100
    or more is returned as it is, and so are the zeros, the infinities and
    [nan]. *)

Module B64.

Definition float : Type := PrimFloat.float.

Definition of_int (n : Z) : float :=
  match n with
  | Zneg p => PrimFloat.opp (PrimFloat.of_uint63 (Uint63.of_Z (Zpos p)))
  | _ => PrimFloat.of_uint63 (Uint63.of_Z n)
  end.

(** The integer nearest to [n / d], ties to the even one, for [d > 0]. *)
Definition round_half_even_ratio (n d : Z) : Z :=
  let q := n / d in
  let r := n mod d in
  match Z.compare (2 * r) d with
  | Lt => q
  | Gt => q + 1
  | Eq => if Z.even q then q else q + 1
  end.

Definition round2 (x : float) : float :=
  match FloatOps.Prim2SF x with
  | SpecFloat.S754_finite s m e =>
      let n :=
        if 0 <=? e
        then Zpos m * 2 ^ e * 100
        else round_half_even_ratio (Zpos m * 100) (2 ^ (- e)) in
      if n <? 2 ^ 53
      then let r := PrimFloat.div (of_int n) (of_int 100) in
           if s then PrimFloat.opp r else r
      else x
  | _ => x
  end.

#[global] Instance binary64 : Float.ops float :=
  {| Float.of_int := of_int;
     Float.add := PrimFloat.add;
     Float.mul := PrimFloat.mul;
     Float.div := PrimFloat.div;
     Float.compare := PrimFloat.compare;
     Float.round2 := round2 |}.

End B64.

(** ** compute.py on the frames of pandas *)

Module Engine.
Import DateTime Pandas.

Module DayRecord.
Record t (F : Type) : Type := mk
  { date : DateTime.date;
    shift_type : ShiftType;
    sched_start_dt : datetime;
    sched_end_dt : datetime;
    actual_in : cell;
    actual_out : cell;
    actual_out1 : cell;
    actual_in2 : cell;
    sched_minutes : F;
    worked_minutes : F;
    worked_minutes_clipped : F;
    attendance_fraction : F;
    present : bool;
    tardy : bool;
    early_dismissal : bool }.
Arguments mk {F}.
Arguments date {F}.
Arguments shift_type {F}.
Arguments sched_start_dt {F}.
Arguments sched_end_dt {F}.
Arguments actual_in {F}.
Arguments actual_out {F}.
Arguments actual_out1 {F}.
Arguments actual_in2 {F}.
Arguments sched_minutes {F}.
Arguments worked_minutes {F}.
Arguments worked_minutes_clipped {F}.
Arguments attendance_fraction {F}.
Arguments present {F}.
Arguments tardy {F}.
Arguments early_dismissal {F}.
End DayRecord.

Module Summary.
Record t (F : Type) : Type := mk
  { scheduled_shifts : Z;
    shifts_worked : Z;
    attendance_pct_shifts : F;
    scheduled_hours : F;
    worked_hours : F;
    attendance_pct_hours : F;
    tardy_count : Z;
    early_dismissal_count : Z }.
Arguments mk {F}.
Arguments scheduled_shifts {F}.
Arguments shifts_worked {F}.
Arguments attendance_pct_shifts {F}.
Arguments scheduled_hours {F}.
Arguments worked_hours {F}.
Arguments attendance_pct_hours {F}.
Arguments tardy_count {F}.
Arguments early_dismissal_count {F}.
End Summary.

(** The locals that the punch block of the loop body assigns. *)
Record Actuals : Type := mk_actuals
  { a_in : cell;
    a_out : cell;
    a_out1 : cell;
    a_in2 : cell;
    a_worked : Py.float;
    a_present : bool }.

(** Lines 48-53. *)
Definition defaults : Actuals :=
  {| a_in := PyNone; a_out := PyNone; a_out1 := PyNone; a_in2 := PyNone;
     a_worked := 0%Q; a_present := false |}.

(** Lines 153-188, over any floats. *)
Definition calculate_summary {F : Type} `{Float.ops F}
    (day_records : list (DayRecord.t F)) : outcome (Summary.t F) :=
  match day_records with
  | [] =>
      Done {| Summary.scheduled_shifts := 0;
              Summary.shifts_worked := 0;
              Summary.attendance_pct_shifts := Float.of_int 0;
              Summary.scheduled_hours := Float.of_int 0;
              Summary.worked_hours := Float.of_int 0;
              Summary.attendance_pct_hours := Float.of_int 0;
              Summary.tardy_count := 0;
              Summary.early_dismissal_count := 0 |}
  | _ :: _ =>
      let scheduled_shifts := Py.len day_records in
      let shifts_worked := Py.count DayRecord.present day_records in
      let tardy_count := Py.count DayRecord.tardy day_records in
      let early_dismissal_count := Py.count DayRecord.early_dismissal day_records in
      let scheduled_hours :=
        Float.div (Float.sum (map DayRecord.sched_minutes day_records))
                  (Float.of_int 60) in
      let worked_hours :=
        Float.div (Float.sum (map DayRecord.worked_minutes_clipped day_records))
                  (Float.of_int 60) in
      attendance_pct_shifts <==
        (if 0 <? scheduled_shifts
         then if scheduled_shifts =? 0
              then Raised ZeroDivisionError
              else Done (Float.mul (Float.div (Float.of_int shifts_worked)
                                              (Float.of_int scheduled_shifts))
                                   (Float.of_int 100))
         else Done (Float.of_int 0)) ;;
      attendance_pct_hours <==
        (if Float.ltb (Float.of_int 0) scheduled_hours
         then if Float.is_zero scheduled_hours
              then Raised ZeroDivisionError
              else Done (Float.mul (Float.div worked_hours scheduled_hours)
                                   (Float.of_int 100))
         else Done (Float.of_int 0)) ;;
      Done {| Summary.scheduled_shifts := scheduled_shifts;
              Summary.shifts_worked := shifts_worked;
              Summary.attendance_pct_shifts := Float.round2 attendance_pct_shifts;
              Summary.scheduled_hours := Float.round2 scheduled_hours;
              Summary.worked_hours := Float.round2 worked_hours;
              Summary.attendance_pct_hours := Float.round2 attendance_pct_hours;
              Summary.tardy_count := tardy_count;
              Summary.early_dismissal_count := early_dismissal_count |}
  end.

Section Zone.

Variable utc_offset : datetime -> Z.
Variable ts_ok : datetime -> bool.
Variable td_ok : timedelta -> bool.

(** Lines 62-102: what the loop body does with the selected punch row.
    [.time()] is called on the clock-out first and on the lunch clock-in
    first; [replace] with the timestamp's own year, month and day returns
    it unchanged and is reached by a [Timestamp] only, [.time()] having
    returned; the log lines have no effect. *)
Definition reconcile_punch (sched_start_dt sched_end_dt : datetime)
    (punch_row : PunchRow.t) : outcome Actuals :=
  let actual_in := PunchRow.in1 punch_row in
  let actual_out := PunchRow.out2 punch_row in
  let actual_out1 := PunchRow.out1 punch_row in
  let actual_in2 := PunchRow.in2 punch_row in
  let present := is_not_none actual_in in
  if present && is_not_none actual_out
  then
    let cross_midnight :=
      date_at utc_offset sched_start_dt <? date_at utc_offset sched_end_dt in
    actual_out <==
      (if cross_midnight
       then out_time <== cell_time utc_offset actual_out ;;
            in_time <== cell_time utc_offset actual_in ;;
            if out_time <? in_time
            then cell_add ts_ok td_ok actual_out (days 1)
            else Done actual_out
       else Done actual_out) ;;
    actual_in2 <==
      (if cross_midnight && truthy actual_out1 && truthy actual_in2
       then in2_time <== cell_time utc_offset actual_in2 ;;
            out1_time <== cell_time utc_offset actual_out1 ;;
            if in2_time <? out1_time
            then cell_add ts_ok td_ok actual_in2 (days 1)
            else Done actual_in2
       else Done actual_in2) ;;
    lunch_minutes <==
      (if truthy actual_out1 && truthy actual_in2
       then lunch_duration <== cell_diff td_ok actual_in2 actual_out1 ;;
            let lunch_minutes :=
              if gt (total_seconds lunch_duration) 0%Q
              then div (total_seconds lunch_duration) 60%Q
              else num 0%Q in
            Done (max0 lunch_minutes)
       else Done 0%Q) ;;
    total_duration <== cell_diff td_ok actual_out actual_in ;;
    let total_minutes := div (total_seconds total_duration) 60%Q in
    Done {| a_in := actual_in; a_out := actual_out;
            a_out1 := actual_out1; a_in2 := actual_in2;
            a_worked := max0 (sub total_minutes lunch_minutes);
            a_present := present |}
  else
    Done {| a_in := actual_in; a_out := actual_out;
            a_out1 := actual_out1; a_in2 := actual_in2;
            a_worked := 0%Q;
            a_present := present |}.

(** Lines 36-142: one turn of the loop over the schedule rows.  The two
    cells of a schedule row are [Timestamp]s. *)
Definition process_shift (punch_df : list PunchRow.t) (config : PolicyConfig.t)
    (sched_row : ScheduleRow.t) (warnings : list Warning)
    : outcome (DayRecord.t Py.float * list Warning) :=
  let tardy_minutes := PolicyConfig.tardy_minutes config in
  let early_minutes := PolicyConfig.early_minutes config in
  let shift_date := ScheduleRow.date sched_row in
  let shift_type := ScheduleRow.shift_type sched_row in
  let sched_start_dt := ScheduleRow.sched_start_dt sched_row in
  let sched_end_dt := ScheduleRow.sched_end_dt sched_row in
  sched_duration <== ts_diff td_ok sched_end_dt sched_start_dt ;;
  let sched_minutes := (DateTime.total_seconds sched_duration / 60)%Q in
  let punch_matches :=
    filter (fun p => PunchRow.date p =? shift_date) punch_df in
  st <== match punch_matches with
         | [] => Done (defaults, warnings)
         | _ :: _ =>
             let warnings :=
               if 1 <? Py.len punch_matches
               then warnings ++ [MultiplePunchRecords shift_date]
               else warnings in
             punch_row <== iloc punch_matches 0 ;;
             act <== reconcile_punch sched_start_dt sched_end_dt punch_row ;;
             Done (act, warnings)
         end ;;
  let '(act, warnings) := st in
  tardy <==
    (if a_present act && truthy (a_in act)
     then late <== timedelta_minutes tardy_minutes ;;
          limit <== ts_add ts_ok td_ok sched_start_dt late ;;
          cell_gt (a_in act) limit
     else Done false) ;;
  early_dismissal <==
    (if a_present act && truthy (a_out act)
     then early <== timedelta_minutes early_minutes ;;
          limit <== ts_sub ts_ok td_ok sched_end_dt early ;;
          cell_lt (a_out act) limit
     else Done false) ;;
  let worked_minutes_clipped := clamp (a_worked act) 0%Q sched_minutes in
  attendance_fraction <==
    (if Py.ltb 0%Q sched_minutes
     then if Qeq_bool sched_minutes 0
          then Raised ZeroDivisionError
          else Done (worked_minutes_clipped / sched_minutes)%Q
     else Done 0%Q) ;;
  Done ({| DayRecord.date := shift_date;
           DayRecord.shift_type := shift_type;
           DayRecord.sched_start_dt := sched_start_dt;
           DayRecord.sched_end_dt := sched_end_dt;
           DayRecord.actual_in := a_in act;
           DayRecord.actual_out := a_out act;
           DayRecord.actual_out1 := a_out1 act;
           DayRecord.actual_in2 := a_in2 act;
           DayRecord.sched_minutes := sched_minutes;
           DayRecord.worked_minutes := a_worked act;
           DayRecord.worked_minutes_clipped := worked_minutes_clipped;
           DayRecord.attendance_fraction := attendance_fraction;
           DayRecord.present := a_present act;
           DayRecord.tardy := tardy;
           DayRecord.early_dismissal := early_dismissal |},
        warnings).

(** Lines 35-142: the loop, threading [day_records] and [warnings]. *)
Fixpoint process_rows (punch_df : list PunchRow.t) (config : PolicyConfig.t)
    (rows : list ScheduleRow.t)
    (day_records : list (DayRecord.t Py.float)) (warnings : list Warning)
    : outcome (list (DayRecord.t Py.float) * list Warning) :=
  match rows with
  | [] => Done (day_records, warnings)
  | sched_row :: rest =>
      step <== process_shift punch_df config sched_row warnings ;;
      let '(day_record, warnings) := step in
      process_rows punch_df config rest (day_records ++ [day_record]) warnings
  end.

(** Lines 10-151. *)
Definition build_attendance (punch_df : list PunchRow.t)
    (schedule_df : list ScheduleRow.t) (config : PolicyConfig.t)
    : outcome (list (DayRecord.t Py.float) * Summary.t Py.float * list Warning) :=
  st <== process_rows punch_df config schedule_df [] [] ;;
  let '(day_records, warnings) := st in
  summary <== calculate_summary day_records ;;
  Done (day_records, summary, warnings).

End Zone.

End Engine.

(** ** Vocabulary of the statements about [Engine]

    [record_of] spells out the record of a turn of the loop that returns;
    [summary_of] the summary of [calculate_summary]; they are proved equal
    to the code ([process_shift_done], [process_shift_returns],
    [calculate_summary_returns]) and are used in proofs only. *)

Module EngineSpec.
Import DateTime Pandas Engine.

(** The rows of the frame that carry the date of a shift. *)
Definition matches (punch_df : list PunchRow.t) (d : date) : list PunchRow.t :=
  filter (fun p => PunchRow.date p =? d) punch_df.

(** [p] is the first row of [punch_df], in row order, dated [d]. *)
Definition first_match (punch_df : list PunchRow.t) (d : date) (p : PunchRow.t) : Prop :=
  exists pre post,
    punch_df = pre ++ p :: post /\
    PunchRow.date p = d /\
    (forall q, In q pre -> PunchRow.date q <> d).

(** The four fields that a record copies from its schedule row. *)
Definition shift_key {F : Type} (r : DayRecord.t F) : date * ShiftType * datetime * datetime :=
  (DayRecord.date r, DayRecord.shift_type r,
   DayRecord.sched_start_dt r, DayRecord.sched_end_dt r).

(** The warnings after a turn that found the rows [l] of the shift's date. *)
Definition warned (l : list PunchRow.t) (d : date) (ws : list Warning) : list Warning :=
  if 1 <? Py.len l then ws ++ [MultiplePunchRecords d] else ws.

(** The timestamps of a row, and the rows whose timestamps are no further
    apart than a [Timedelta] can hold. *)
Definition stamps (p : PunchRow.t) : list datetime :=
  flat_map (fun x => match x with Stamp t => [t] | NaT | PyNone => [] end)
           [PunchRow.in1 p; PunchRow.out1 p; PunchRow.in2 p; PunchRow.out2 p].

Definition spans_in_range (td_ok : timedelta -> bool) (p : PunchRow.t) : Prop :=
  forall a b, In a (stamps p) -> In b (stamps p) -> td_ok (a - b) = true.

(** Line 176 and lines 173-177, before rounding. *)
Definition pct_shifts_of {F : Type} `{Float.ops F} (shifts_worked scheduled_shifts : Z) : F :=
  if 0 <? scheduled_shifts
  then Float.mul (Float.div (Float.of_int shifts_worked) (Float.of_int scheduled_shifts))
                 (Float.of_int 100)
  else Float.of_int 0.

Definition hours_of {F : Type} `{Float.ops F} (f : DayRecord.t F -> F)
    (l : list (DayRecord.t F)) : F :=
  Float.div (Float.sum (map f l)) (Float.of_int 60).

Definition pct_hours_of {F : Type} `{Float.ops F} (l : list (DayRecord.t F)) : F :=
  if Float.ltb (Float.of_int 0) (hours_of DayRecord.sched_minutes l)
  then Float.mul (Float.div (hours_of DayRecord.worked_minutes_clipped l)
                            (hours_of DayRecord.sched_minutes l))
                 (Float.of_int 100)
  else Float.of_int 0.

(** The summary that [calculate_summary] returns. *)
Definition summary_of {F : Type} `{Float.ops F} (l : list (DayRecord.t F)) : Summary.t F :=
  match l with
  | [] =>
      Summary.mk 0 0 (Float.of_int 0) (Float.of_int 0) (Float.of_int 0) (Float.of_int 0) 0 0
  | _ :: _ =>
      {| Summary.scheduled_shifts := Py.len l;
         Summary.shifts_worked := Py.count DayRecord.present l;
         Summary.attendance_pct_shifts :=
           Float.round2 (pct_shifts_of (Py.count DayRecord.present l) (Py.len l));
         Summary.scheduled_hours := Float.round2 (hours_of DayRecord.sched_minutes l);
         Summary.worked_hours := Float.round2 (hours_of DayRecord.worked_minutes_clipped l);
         Summary.attendance_pct_hours := Float.round2 (pct_hours_of l);
         Summary.tardy_count := Py.count DayRecord.tardy l;
         Summary.early_dismissal_count := Py.count DayRecord.early_dismissal l |}
  end.

(** A row on which the punch block calls [.time()] on [NaT] when the shift
    crosses midnight: the row holds a clock-in and a clock-out cell that
    are not [None], and one of them, or one cell of a lunch pair that is
    not [None] either, is [NaT]. *)
Definition missing_punch (p : PunchRow.t) : Prop :=
  is_not_none (PunchRow.in1 p) = true /\
  is_not_none (PunchRow.out2 p) = true /\
  (PunchRow.in1 p = NaT \/ PunchRow.out2 p = NaT \/
   (truthy (PunchRow.out1 p) = true /\ truthy (PunchRow.in2 p) = true /\
    (PunchRow.out1 p = NaT \/ PunchRow.in2 p = NaT))).

(** Lines 89-95 for the two lunch cells of a record: the minutes of lunch
    that are taken off. *)
Definition lunch_of (actual_out1 actual_in2 : cell) : Py.float :=
  match actual_out1, actual_in2 with
  | Stamp o1, Stamp i2 =>
      Py.max 0%Q (if Py.ltb 0%Q (DateTime.total_seconds (i2 - o1)%Z)
                  then (DateTime.total_seconds (i2 - o1)%Z / 60)%Q
                  else 0%Q)
  | _, _ => 0%Q
  end.

(** The record of an outcome, without the warnings. *)
Definition record_part (m : outcome (DayRecord.t Py.float * list Warning))
    : outcome (DayRecord.t Py.float) :=
  outcome_map fst m.

Section Zone.

Variable utc_offset : datetime -> Z.
Variable ts_ok : datetime -> bool.
Variable td_ok : timedelta -> bool.

(** The wall clock of the zone reads [w] at the instant [t]. *)
Definition reads (t w : datetime) : Prop := wall utc_offset t = w.

(** The scheduled end falls on a later calendar date than the start. *)
Definition crosses_midnight (row : ScheduleRow.t) : Prop :=
  date_at utc_offset (ScheduleRow.sched_start_dt row)
  < date_at utc_offset (ScheduleRow.sched_end_dt row).

(** The length of the scheduled window and the two limits of lines 110
    and 114 can be computed: nothing is out of range. *)
Definition in_range (config : PolicyConfig.t) (row : ScheduleRow.t) : Prop :=
  td_ok (ScheduleRow.sched_end_dt row - ScheduleRow.sched_start_dt row) = true /\
  (exists limit,
      (late <== timedelta_minutes (PolicyConfig.tardy_minutes config) ;;
       ts_add ts_ok td_ok (ScheduleRow.sched_start_dt row) late) = Done limit) /\
  (exists limit,
      (early <== timedelta_minutes (PolicyConfig.early_minutes config) ;;
       ts_sub ts_ok td_ok (ScheduleRow.sched_end_dt row) early) = Done limit).

(** The record that the loop body assembles from the locals [act]. *)
Definition record_of (config : PolicyConfig.t) (row : ScheduleRow.t)
    (act : Actuals) : DayRecord.t Py.float :=
  let start_dt := ScheduleRow.sched_start_dt row in
  let end_dt := ScheduleRow.sched_end_dt row in
  let sched := (DateTime.total_seconds (end_dt - start_dt)%Z / 60)%Q in
  let clipped := clamp (a_worked act) 0%Q sched in
  {| DayRecord.date := ScheduleRow.date row;
     DayRecord.shift_type := ScheduleRow.shift_type row;
     DayRecord.sched_start_dt := start_dt;
     DayRecord.sched_end_dt := end_dt;
     DayRecord.actual_in := a_in act;
     DayRecord.actual_out := a_out act;
     DayRecord.actual_out1 := a_out1 act;
     DayRecord.actual_in2 := a_in2 act;
     DayRecord.sched_minutes := sched;
     DayRecord.worked_minutes := a_worked act;
     DayRecord.worked_minutes_clipped := clipped;
     DayRecord.attendance_fraction := Closed.fraction_of clipped sched;
     DayRecord.present := a_present act;
     DayRecord.tardy :=
       a_present act &&
       match a_in act with
       | Stamp t_in => start_dt + minutes (PolicyConfig.tardy_minutes config) <? t_in
       | NaT | PyNone => false
       end;
     DayRecord.early_dismissal :=
       a_present act &&
       match a_out act with
       | Stamp t_out => t_out <? end_dt - minutes (PolicyConfig.early_minutes config)
       | NaT | PyNone => false
       end |}.

End Zone.

End EngineSpec.

(** ** From [Compute] to [Engine]

    A frame of [Compute] read as a frame of pandas in which no cell is
    [NaT], and a record of [Compute] read as a record of [Engine].  The
    zone of [Compute] is one whose offset is zero throughout, and its
    timestamps and time spans are not limited in range. *)

Module Lift.
Import DateTime Pandas.

Definition cell_of (v : option datetime) : cell :=
  match v with
  | Some t => Stamp t
  | None => PyNone
  end.


Definition actuals_of (a : Compute.Actuals) : Engine.Actuals :=
  {| Engine.a_in := cell_of (Compute.a_in a);
     Engine.a_out := cell_of (Compute.a_out a);
     Engine.a_out1 := cell_of (Compute.a_out1 a);
     Engine.a_in2 := cell_of (Compute.a_in2 a);
     Engine.a_worked := Compute.a_worked a;
     Engine.a_present := Compute.a_present a |}.

Definition record_of (r : DayRecord.t) : Engine.DayRecord.t Py.float :=
  {| Engine.DayRecord.date := DayRecord.date r;
     Engine.DayRecord.shift_type := DayRecord.shift_type r;
     Engine.DayRecord.sched_start_dt := DayRecord.sched_start_dt r;
     Engine.DayRecord.sched_end_dt := DayRecord.sched_end_dt r;
     Engine.DayRecord.actual_in := cell_of (DayRecord.actual_in r);
     Engine.DayRecord.actual_out := cell_of (DayRecord.actual_out r);
     Engine.DayRecord.actual_out1 := cell_of (DayRecord.actual_out1 r);
     Engine.DayRecord.actual_in2 := cell_of (DayRecord.actual_in2 r);
     Engine.DayRecord.sched_minutes := DayRecord.sched_minutes r;
     Engine.DayRecord.worked_minutes := DayRecord.worked_minutes r;
     Engine.DayRecord.worked_minutes_clipped := DayRecord.worked_minutes_clipped r;
     Engine.DayRecord.attendance_fraction := DayRecord.attendance_fraction r;
     Engine.DayRecord.present := DayRecord.present r;
     Engine.DayRecord.tardy := DayRecord.tardy r;
     Engine.DayRecord.early_dismissal := DayRecord.early_dismissal r |}.



End Lift.

(** ** Sample data for the frames of pandas

    The zone of the default policy and the ranges of a [Timestamp] and a
    [Timedelta] that count nanoseconds in 64 bits. *)

Module Samples.
Import DateTime Pandas.

Definition hours (n : Z) : Z := n * 3600 * us_per_second.

(** 2025-03-09 and 2025-11-02, the days on which the clocks of New York
    change in 2025. *)
Definition march_9 : date := 739319.
Definition november_2 : date := 739557.

(** America/New_York in 2025: five hours behind UTC, and four from
    2025-03-09 07:00 UTC until 2025-11-02 06:00 UTC. *)
Definition new_york (t : datetime) : Z :=
  if (at_hm march_9 7 0 <=? t) && (t <? at_hm november_2 6 0)
  then hours (-4)
  else hours (-5).

(** The instant at which the wall clock of New York reads [h:m] on day
    [d], in standard and in daylight time. *)
Definition est (d : date) (h m : Z) : datetime := at_hm d h m + hours 5.
Definition edt (d : date) (h m : Z) : datetime := at_hm d h m + hours 4.

(** 1970-01-01 00:00 UTC. *)
Definition epoch : datetime := at_hm 719163 0 0.

Definition int64_ns (us : Z) : bool :=
  (- 2 ^ 63 <? us * 1000) && (us * 1000 <? 2 ^ 63).

Definition ts_int64 (t : datetime) : bool := int64_ns (t - epoch).
Definition td_int64 (d : timedelta) : bool := int64_ns d.

(** The engine in that zone and with those ranges. *)
Definition process_shift := Engine.process_shift new_york ts_int64 td_int64.
Definition build_attendance := Engine.build_attendance new_york ts_int64 td_int64.

Definition day : date := Examples.day.

Definition am_shift : ScheduleRow.t :=
  ScheduleRow.mk day AM (est day 9 45) (est day 16 30).

Definition pm_shift : ScheduleRow.t :=
  ScheduleRow.mk day PM (est day 16 0) (est (day + 1) 0 15).

(** The PM shift of 2025-11-02, after the clocks went back at 06:00 UTC. *)
Definition pm_shift_november_2 : ScheduleRow.t :=
  ScheduleRow.mk november_2 PM (est november_2 16 0) (est (november_2 + 1) 0 15).

(** In at 15:58, out at 00:10, both stamped with the report date; no
    lunch punches. *)
Definition pm_record : PunchDict.t :=
  PunchDict.mk day "Worker, A" (Some (est day 15 58)) None None
               (Some (est day 0 10)) None.


(** The same on 2025-11-02, where 00:10 is in daylight time. *)
Definition pm_record_november_2 : PunchDict.t :=
  PunchDict.mk november_2 "Worker, A" (Some (est november_2 15 58)) None None
               (Some (edt november_2 0 10)) None.

(** A day shift with a lunch from 12:00 to 12:30, on the next day and on
    the same day. *)
Definition lunch_record : PunchDict.t :=
  PunchDict.mk (day + 1) "Worker, A" (Some (est (day + 1) 9 45))
               (Some (est (day + 1) 12 0)) (Some (est (day + 1) 12 30))
               (Some (est (day + 1) 16 30)) None.

Definition lunch_record_same_day : PunchDict.t :=
  PunchDict.mk day "Worker, A" (Some (est day 9 45))
               (Some (est day 12 0)) (Some (est day 12 30))
               (Some (est day 16 30)) None.

(** In at 09:50 and out at 16:30, without lunch punches; and a second
    record of that day. *)
Definition am_record : PunchDict.t :=
  PunchDict.mk day "Worker, A" (Some (est day 9 50)) None None
               (Some (est day 16 30)) None.

Definition am_record_again : PunchDict.t :=
  PunchDict.mk day "Worker, A" (Some (est day 10 30)) None None
               (Some (est day 12 0)) None.

(** The default policy with a tardy threshold of 10^13 minutes. *)
Definition patient_policy : PolicyConfig.t :=
  {| PolicyConfig.am := PolicyConfig.am PolicyConfig.default;
     PolicyConfig.pm := PolicyConfig.pm PolicyConfig.default;
     PolicyConfig.tardy_minutes := 10 ^ 13;
     PolicyConfig.early_minutes := 15;
     PolicyConfig.timezone := "America/New_York" |}.

Definition next_day_shift : ScheduleRow.t :=
  ScheduleRow.mk (day + 1) AM (est (day + 1) 9 45) (est (day + 1) 16 30).

(** A record of the day before: in at 09:40, out at 16:35. *)
Definition earlier_record : PunchDict.t :=
  PunchDict.mk (day - 1) "Worker, A" (Some (est (day - 1) 9 40)) None None
               (Some (est (day - 1) 16 35)) None.

(** In at 09:50 and out at 16:30 with a lunch clock-out at 12:00 and no
    lunch clock-in; and with a lunch clock-in at 12:00, before the lunch
    clock-out at 12:30. *)
Definition half_lunch_record : PunchDict.t :=
  PunchDict.mk day "Worker, A" (Some (est day 9 50)) (Some (est day 12 0)) None
               (Some (est day 16 30)) None.

Definition backwards_lunch_record : PunchDict.t :=
  PunchDict.mk day "Worker, A" (Some (est day 9 50))
               (Some (est day 12 30)) (Some (est day 12 0))
               (Some (est day 16 30)) None.

(** A record with a clock-in alone, and one with a clock-out alone. *)
Definition in_only_record : PunchDict.t :=
  PunchDict.mk day "Worker, A" (Some (est day 9 52)) None None None None.

Definition out_only_record : PunchDict.t :=
  PunchDict.mk day "Worker, A" None None None (Some (est day 16 30)) None.

(** The two records of [tests/test_compute.py], over exact floats. *)
Definition worked_record : Engine.DayRecord.t Py.float :=
  {| Engine.DayRecord.date := day;
     Engine.DayRecord.shift_type := AM;
     Engine.DayRecord.sched_start_dt := est day 9 45;
     Engine.DayRecord.sched_end_dt := est day 16 30;
     Engine.DayRecord.actual_in := Stamp (est day 9 50);
     Engine.DayRecord.actual_out := Stamp (est day 16 30);
     Engine.DayRecord.actual_out1 := PyNone;
     Engine.DayRecord.actual_in2 := PyNone;
     Engine.DayRecord.sched_minutes := 405%Q;
     Engine.DayRecord.worked_minutes := 400%Q;
     Engine.DayRecord.worked_minutes_clipped := 400%Q;
     Engine.DayRecord.attendance_fraction := 0.988%Q;
     Engine.DayRecord.present := true;
     Engine.DayRecord.tardy := true;
     Engine.DayRecord.early_dismissal := false |}.

Definition absent_record : Engine.DayRecord.t Py.float :=
  {| Engine.DayRecord.date := day + 1;
     Engine.DayRecord.shift_type := AM;
     Engine.DayRecord.sched_start_dt := est (day + 1) 9 45;
     Engine.DayRecord.sched_end_dt := est (day + 1) 16 30;
     Engine.DayRecord.actual_in := PyNone;
     Engine.DayRecord.actual_out := PyNone;
     Engine.DayRecord.actual_out1 := PyNone;
     Engine.DayRecord.actual_in2 := PyNone;
     Engine.DayRecord.sched_minutes := 405%Q;
     Engine.DayRecord.worked_minutes := 0%Q;
     Engine.DayRecord.worked_minutes_clipped := 0%Q;
     Engine.DayRecord.attendance_fraction := 0%Q;
     Engine.DayRecord.present := false;
     Engine.DayRecord.tardy := false;
     Engine.DayRecord.early_dismissal := false |}.

(** Three records of [DayRecord] over binary64 floats, whose clipped
    minutes are 17130, 4623 and 17901 seconds divided by 60. *)
Definition minutes_of_seconds (s : Z) : B64.float :=
  PrimFloat.div (B64.of_int s) (B64.of_int 60).

Definition float_record (d : date) (worked_seconds : Z) : Engine.DayRecord.t B64.float :=
  {| Engine.DayRecord.date := d;
     Engine.DayRecord.shift_type := AM;
     Engine.DayRecord.sched_start_dt := est d 9 45;
     Engine.DayRecord.sched_end_dt := est d 16 30;
     Engine.DayRecord.actual_in := Stamp (est d 9 45);
     Engine.DayRecord.actual_out := Stamp (est d 9 45 + worked_seconds * us_per_second);
     Engine.DayRecord.actual_out1 := PyNone;
     Engine.DayRecord.actual_in2 := PyNone;
     Engine.DayRecord.sched_minutes := B64.of_int 405;
     Engine.DayRecord.worked_minutes := minutes_of_seconds worked_seconds;
     Engine.DayRecord.worked_minutes_clipped := minutes_of_seconds worked_seconds;
     Engine.DayRecord.attendance_fraction :=
       PrimFloat.div (minutes_of_seconds worked_seconds) (B64.of_int 405);
     Engine.DayRecord.present := true;
     Engine.DayRecord.tardy := false;
     Engine.DayRecord.early_dismissal := false |}.

Definition first_day : Engine.DayRecord.t B64.float := float_record day 17130.
Definition second_day : Engine.DayRecord.t B64.float := float_record (day + 1) 4623.
Definition third_day : Engine.DayRecord.t B64.float := float_record (day + 2) 17901.

End Samples.

(** * Facts about the Python operations and about the loop *)

Module PyFacts.

Lemma ltb_lt (a b : Q) : Py.ltb a b = true <-> (a < b)%Q.
Proof.
  unfold Py.ltb. rewrite negb_true_iff. split; intro H.
  - apply Qnot_le_lt. intro Hle. apply Qle_bool_iff in Hle. congruence.
  - destruct (Qle_bool b a) eqn:E; [|reflexivity].
    apply Qle_bool_iff in E. exfalso. apply (Qlt_not_le _ _ H E).
Qed.

Lemma ltb_ge (a b : Q) : Py.ltb a b = false <-> (b <= a)%Q.
Proof.
  unfold Py.ltb. rewrite negb_false_iff. apply Qle_bool_iff.
Qed.

Lemma max_lub (a b : Q) : (a <= Py.max a b /\ b <= Py.max a b)%Q.
Proof.
  unfold Py.max. destruct (Py.ltb a b) eqn:E.
  - apply ltb_lt in E. split; lra.
  - apply ltb_ge in E. split; lra.
Qed.

Lemma max_cases (a b : Q) : Py.max a b = a \/ Py.max a b = b.
Proof. unfold Py.max. destruct (Py.ltb a b); auto. Qed.

Lemma min_glb (a b : Q) : (Py.min a b <= a /\ Py.min a b <= b)%Q.
Proof.
  unfold Py.min. destruct (Py.ltb b a) eqn:E.
  - apply ltb_lt in E. split; lra.
  - apply ltb_ge in E. split; lra.
Qed.

Lemma clamp_bounds (v lo hi : Q) :
  (lo <= hi -> lo <= clamp v lo hi <= hi)%Q.
Proof.
  intro H. unfold clamp.
  destruct (max_lub lo (Py.min v hi)) as [H1 _].
  split; [exact H1|].
  destruct (max_cases lo (Py.min v hi)) as [-> | ->]; [exact H|].
  apply min_glb.
Qed.

Lemma truediv_pos (a b : Q) : (0 < b)%Q -> Py.truediv a b = Ok (a / b)%Q.
Proof.
  intro H. unfold Py.truediv.
  destruct (Qeq_bool b 0) eqn:E; [|reflexivity].
  apply Qeq_bool_iff in E. lra.
Qed.

Lemma sum_acc (l : list Q) (a : Q) :
  (fold_left Qplus l a == a + Py.sum l)%Q.
Proof.
  unfold Py.sum. revert a.
  induction l as [|x l IH]; intro a; simpl.
  - lra.
  - rewrite (IH (a + x)%Q), (IH (0 + x)%Q). lra.
Qed.

Lemma sum_cons (x : Q) (l : list Q) : (Py.sum (x :: l) == x + Py.sum l)%Q.
Proof. unfold Py.sum at 1. simpl. rewrite sum_acc. lra. Qed.

Lemma sum_perm (l l' : list Q) : Permutation l l' -> (Py.sum l == Py.sum l')%Q.
Proof.
  induction 1 as [|x l l' _ IH|x y l|l l' l'' _ IH1 _ IH2].
  - reflexivity.
  - rewrite !sum_cons, IH. reflexivity.
  - rewrite !sum_cons. lra.
  - rewrite IH1. exact IH2.
Qed.

Lemma count_length {A : Type} (p : A -> bool) (l : list A) :
  Py.count p l = Z.of_nat (List.length (filter p l)).
Proof.
  unfold Py.count.
  assert (H : forall (m : list A) (a : Z),
             fold_left Z.add (map (fun _ => 1) m) a = a + Z.of_nat (List.length m)).
  { induction m as [|x m IH]; intro a; simpl List.length; simpl fold_left.
    - lia.
    - rewrite IH. lia. }
  rewrite H. lia.
Qed.

Lemma count_perm {A : Type} (p : A -> bool) (l l' : list A) :
  Permutation l l' -> Py.count p l = Py.count p l'.
Proof.
  intro H. rewrite !count_length. f_equal.
  apply Permutation_length.
  induction H as [|x l l' _ IH|x y l|l l' l'' _ IH1 _ IH2]; simpl.
  - constructor.
  - destruct (p x); [constructor|]; exact IH.
  - destruct (p x), (p y); try reflexivity. constructor.
  - exact (Permutation_trans IH1 IH2).
Qed.

Lemma round_half_even_comp (x y : Q) :
  (x == y)%Q -> Py.round_half_even x = Py.round_half_even y.
Proof.
  intro H. unfold Py.round_half_even.
  rewrite (Qfloor_comp _ _ H).
  assert (E : (x - inject_Z (Qfloor y) == y - inject_Z (Qfloor y))%Q) by (rewrite H; reflexivity).
  rewrite (Qcompare_comp _ _ E (1 # 2) (1 # 2) (Qeq_refl _)).
  reflexivity.
Qed.



Lemma round_half_even_Z (n : Z) : Py.round_half_even (inject_Z n) = n.
Proof.
  unfold Py.round_half_even. rewrite Qfloor_Z.
  destruct (Qcompare_spec (inject_Z n - inject_Z n) (1 # 2)) as [H|H|H];
    [exfalso; lra | reflexivity | exfalso; lra].
Qed.

Lemma round2_comp (x y : Q) : (x == y)%Q -> Py.round2 x = Py.round2 y.
Proof.
  intro H. unfold Py.round2. f_equal.
  apply round_half_even_comp. rewrite H. reflexivity.
Qed.


Lemma round2_Z (n : Z) : (Py.round2 (inject_Z n) == inject_Z n)%Q.
Proof.
  unfold Py.round2.
  rewrite (round_half_even_comp _ (inject_Z (n * 100))).
  - rewrite round_half_even_Z. unfold Qeq. simpl. lia.
  - rewrite inject_Z_mult. reflexivity.
Qed.


End PyFacts.

Module ComputeFacts.
Import DateTime Compute Closed PyFacts.

Lemma fraction_ok (clipped sched : Q) :
  (if Py.ltb 0 sched then Py.truediv clipped sched else Ok 0%Q)
  = Ok (fraction_of clipped sched).
Proof.
  unfold fraction_of. destruct (Py.ltb 0 sched) eqn:E; [|reflexivity].
  apply truediv_pos, ltb_lt, E.
Qed.

(** The loop body never raises; its result in closed form. *)
Lemma process_shift_eq punch_df config row warnings :
  process_shift punch_df config row warnings
  = Ok (day_record_of config row (actuals_of punch_df row),
        warnings_of punch_df row warnings).
Proof.
  unfold process_shift, actuals_of, warnings_of, matches.
  destruct (filter _ punch_df) as [|p [|q l]]; cbn [bind Py.iloc nth_error].
  - rewrite fraction_ok. reflexivity.
  - rewrite fraction_ok. reflexivity.
  - replace (1 <? Py.len (p :: q :: l)) with true.
    + cbn [bind]. rewrite fraction_ok. reflexivity.
    + symmetry. apply Z.ltb_lt. unfold Py.len. cbn [List.length]. lia.
Qed.

Lemma process_rows_eq punch_df config rows : forall day_records warnings,
  process_rows punch_df config rows day_records warnings
  = Ok (day_records
          ++ map (fun row => day_record_of config row (actuals_of punch_df row)) rows,
        fold_left (fun ws row => warnings_of punch_df row ws) rows warnings).
Proof.
  induction rows as [|row rows IH]; intros day_records warnings; simpl.
  - rewrite app_nil_r. reflexivity.
  - rewrite process_shift_eq. cbn [bind]. rewrite IH, <- app_assoc. reflexivity.
Qed.


Lemma matches_none punch_df d :
  (forall q, In q punch_df -> PunchRow.date q <> d) -> matches punch_df d = [].
Proof.
  intro H. unfold matches. induction punch_df as [|q l IH]; [reflexivity|]. simpl.
  destruct (Z.eqb_spec (PunchRow.date q) d) as [E|_].
  - exfalso. apply (H q); [left; reflexivity|exact E].
  - apply IH. intros q' Hq'. apply H. right. exact Hq'.
Qed.






(** [calculate_summary] never raises; its result in closed form. *)
Lemma calculate_summary_eq (l : list DayRecord.t) :
  calculate_summary l = Ok (summary_of l).
Proof.
  destruct l as [|r l]; [reflexivity|].
  unfold calculate_summary, summary_of, pct_shifts_of, pct_hours_of, hours_of.
  set (m := r :: l).
  assert (E1 : (if 0 <? Py.len m
                then q <- Py.truediv (inject_Z (Py.count DayRecord.present m))
                                     (inject_Z (Py.len m)) ;; Ok (q * 100)%Q
                else Ok 0%Q)
               = Ok (if 0 <? Py.len m
                     then (inject_Z (Py.count DayRecord.present m)
                           / inject_Z (Py.len m) * 100)%Q
                     else 0%Q)).
  { destruct (0 <? Py.len m) eqn:E; [|reflexivity].
    apply Z.ltb_lt in E. rewrite truediv_pos; [reflexivity|].
    rewrite <- (Zlt_Qlt 0). exact E. }
  rewrite E1. cbn [bind].
  set (sh := (Py.sum (map DayRecord.sched_minutes m) / 60)%Q).
  set (wh := (Py.sum (map DayRecord.worked_minutes_clipped m) / 60)%Q).
  assert (E2 : (if Py.ltb 0 sh then q <- Py.truediv wh sh ;; Ok (q * 100)%Q else Ok 0%Q)
               = Ok (if Py.ltb 0 sh then (wh / sh * 100)%Q else 0%Q)).
  { destruct (Py.ltb 0 sh) eqn:E; [|reflexivity].
    apply ltb_lt in E. rewrite truediv_pos by exact E. reflexivity. }
  rewrite E2. reflexivity.
Qed.

(** [build_attendance] never raises; its result in closed form. *)
Lemma build_attendance_eq punch_df schedule_df config :
  build_attendance punch_df schedule_df config
  = Ok (map (fun row => day_record_of config row (actuals_of punch_df row)) schedule_df,
        summary_of
          (map (fun row => day_record_of config row (actuals_of punch_df row)) schedule_df),
        fold_left (fun ws row => warnings_of punch_df row ws) schedule_df []).
Proof.
  unfold build_attendance. rewrite process_rows_eq. cbn [bind app].
  rewrite calculate_summary_eq. reflexivity.
Qed.

Lemma ltb_comp (a a' b b' : Q) :
  (a == a')%Q -> (b == b')%Q -> Py.ltb a b = Py.ltb a' b'.
Proof.
  intros Ha Hb. destruct (Py.ltb a' b') eqn:E.
  - apply ltb_lt. apply ltb_lt in E. lra.
  - apply ltb_ge. apply ltb_ge in E. lra.
Qed.

Lemma hours_of_perm f (l l' : list DayRecord.t) :
  Permutation l l' -> (hours_of f l == hours_of f l')%Q.
Proof.
  intro H. unfold hours_of.
  rewrite (sum_perm _ _ (Permutation_map f H)). reflexivity.
Qed.

Lemma len_perm {A : Type} (l l' : list A) :
  Permutation l l' -> Py.len l = Py.len l'.
Proof. intro H. unfold Py.len. rewrite (Permutation_length H). reflexivity. Qed.

Lemma summary_of_perm (l l' : list DayRecord.t) :
  Permutation l l' -> summary_of l = summary_of l'.
Proof.
  intro H. destruct l as [|r l].
  - apply Permutation_nil in H. subst l'. reflexivity.
  - destruct l' as [|r' l'].
    + apply Permutation_sym, Permutation_nil in H. discriminate H.
    + unfold summary_of.
      set (m := r :: l) in *. set (m' := r' :: l') in *.
      pose proof (hours_of_perm DayRecord.sched_minutes _ _ H) as Hs.
      pose proof (hours_of_perm DayRecord.worked_minutes_clipped _ _ H) as Hw.
      assert (Ps : (pct_shifts_of m == pct_shifts_of m')%Q).
      { unfold pct_shifts_of.
        rewrite (len_perm _ _ H), (count_perm DayRecord.present _ _ H). reflexivity. }
      assert (Ph : (pct_hours_of m == pct_hours_of m')%Q).
      { unfold pct_hours_of.
        rewrite (ltb_comp 0 0 _ _ (Qeq_refl 0) Hs).
        destruct (Py.ltb 0 (hours_of DayRecord.sched_minutes m')); [|reflexivity].
        rewrite Hs, Hw. reflexivity. }
      rewrite (len_perm _ _ H), !(count_perm _ _ _ H).
      rewrite (round2_comp _ _ Ps), (round2_comp _ _ Ph),
        (round2_comp _ _ Hs), (round2_comp _ _ Hw).
      reflexivity.
Qed.

Lemma matches_app_first pre p post d :
  (forall q, In q pre -> PunchRow.date q <> d) ->
  PunchRow.date p = d ->
  matches (pre ++ p :: post) d = p :: matches post d.
Proof.
  intros Hpre Hp. unfold matches. rewrite filter_app.
  fold (matches pre d). rewrite (matches_none _ _ Hpre).
  simpl. rewrite (proj2 (Z.eqb_eq _ _) Hp). reflexivity.
Qed.

Lemma matches_In q l d :
  In q l -> PunchRow.date q = d -> In q (matches l d).
Proof.
  intros Hq Hd. unfold matches. apply filter_In. split; [exact Hq|].
  apply Z.eqb_eq, Hd.
Qed.










End ComputeFacts.

(** ** Properties of the engine *)

Import DateTime Compute Closed PyFacts ComputeFacts.

Lemma date_of_combine (d : date) (t : time) :
  0 <= t < us_per_day -> date_of (combine d t) = d.
Proof.
  intro H. unfold date_of, combine.
  rewrite Z.add_comm, Z.div_add by (unfold us_per_day, us_per_second; lia).
  rewrite Z.div_small by exact H. reflexivity.
Qed.

Lemma time_of_combine (d : date) (t : time) :
  0 <= t < us_per_day -> time_of (combine d t) = t.
Proof.
  intro H. unfold time_of, combine.
  rewrite Z.add_comm, Z.mod_add by (unfold us_per_day, us_per_second; lia).
  apply Z.mod_small, H.
Qed.


Lemma hm_range (h m : Z) :
  0 <= h < 24 -> 0 <= m < 60 -> 0 <= mk_time h m 0 < us_per_day.
Proof. unfold mk_time, us_per_day, us_per_second. lia. Qed.


Lemma actuals_of_none punch_df row :
  (forall q, In q punch_df -> PunchRow.date q <> ScheduleRow.date row) ->
  actuals_of punch_df row = defaults.
Proof.
  intro H. unfold actuals_of. rewrite (matches_none _ _ H). reflexivity.
Qed.

Lemma Forall2_map_right {A B : Type} (P : A -> B -> Prop) (f : A -> B) (l : list A) :
  Forall (fun x => P x (f x)) l -> Forall2 P l (map f l).
Proof.
  induction 1 as [|x l Hx _ IH]; simpl; constructor; assumption.
Qed.

(** Every record of [build_attendance] is the record of one turn of the
    loop on the schedule row at the same position, whatever warnings that
    turn starts from. *)
Lemma build_attendance_turns punch_df schedule_df config :
  exists day_records summary warnings,
    build_attendance punch_df schedule_df config = Ok (day_records, summary, warnings) /\
    Forall2 (fun row rec =>
               forall ws, exists ws',
                 process_shift punch_df config row ws = Ok (rec, ws'))
            schedule_df day_records.
Proof.
  rewrite build_attendance_eq. eexists. eexists. eexists.
  split; [reflexivity|].
  apply Forall2_map_right, Forall_forall. intros row _ ws.
  rewrite process_shift_eq. eexists. reflexivity.
Qed.





(** C5.  In a turn of the loop on a shift whose date is the date of no
    punch row, the record has present = false, tardy = false,
    early_dismissal = false, worked_minutes = 0 and none of actual_in,
    actual_out, actual_out1 and actual_in2; the warnings are unchanged. *)
Theorem unmatched_shift_is_absent punch_df config row warnings :
  (forall q, In q punch_df -> PunchRow.date q <> ScheduleRow.date row) ->
  exists rec,
    process_shift punch_df config row warnings = Ok (rec, warnings) /\
    DayRecord.present rec = false /\
    DayRecord.tardy rec = false /\
    DayRecord.early_dismissal rec = false /\
    DayRecord.worked_minutes rec = 0%Q /\
    DayRecord.actual_in rec = None /\
    DayRecord.actual_out rec = None /\
    DayRecord.actual_out1 rec = None /\
    DayRecord.actual_in2 rec = None.
Proof.
  intro H. rewrite process_shift_eq. eexists. split.
  - unfold warnings_of. rewrite (matches_none _ _ H). reflexivity.
  - rewrite (actuals_of_none _ _ H). cbn. repeat split; reflexivity.
Qed.

Lemma unmatched_shift_is_absent_witness :
  (forall q, In q [Examples.am_punch; Examples.pm_punch] ->
             PunchRow.date q <> ScheduleRow.date Examples.next_day_shift) /\
  exists rec,
    process_shift [Examples.am_punch; Examples.pm_punch] PolicyConfig.default
                  Examples.next_day_shift []
    = Ok (rec, []) /\
    DayRecord.present rec = false /\
    DayRecord.tardy rec = false /\
    DayRecord.early_dismissal rec = false /\
    DayRecord.worked_minutes rec = 0%Q /\
    DayRecord.actual_in rec = None /\
    DayRecord.actual_out rec = None /\
    DayRecord.actual_out1 rec = None /\
    DayRecord.actual_in2 rec = None.
Proof.
  assert (H : forall q, In q [Examples.am_punch; Examples.pm_punch] ->
                        PunchRow.date q <> ScheduleRow.date Examples.next_day_shift).
  { intros q [<- | [<- | []]]; vm_compute; discriminate. }
  split; [exact H|].
  apply unmatched_shift_is_absent. exact H.
Defined.



(** C8.  For two records, in either order, one present with
    worked_minutes_clipped = 400 and sched_minutes = 405 and one absent
    with sched_minutes = 405 and no clipped minutes, neither flagged as an
    early dismissal, [calculate_summary] returns scheduled_shifts = 2,
    shifts_worked = 1, attendance_pct_shifts = 50.0, scheduled_hours = 13.5,
    worked_hours = 6.67 (400 / 60 rounded to two places), tardy_count = the
    number of the two records whose tardy flag is set, and
    early_dismissal_count = 0. *)
Theorem summary_of_one_present_one_absent (r1 r2 : DayRecord.t) (l : list DayRecord.t) :
  DayRecord.present r1 = true ->
  (DayRecord.worked_minutes_clipped r1 == 400)%Q ->
  (DayRecord.sched_minutes r1 == 405)%Q ->
  DayRecord.early_dismissal r1 = false ->
  DayRecord.present r2 = false ->
  (DayRecord.worked_minutes_clipped r2 == 0)%Q ->
  (DayRecord.sched_minutes r2 == 405)%Q ->
  DayRecord.early_dismissal r2 = false ->
  l = [r1; r2] \/ l = [r2; r1] ->
  exists s,
    calculate_summary l = Ok s /\
    Summary.scheduled_shifts s = 2 /\
    Summary.shifts_worked s = 1 /\
    (Summary.attendance_pct_shifts s == 50)%Q /\
    (Summary.scheduled_hours s == 13.5)%Q /\
    (Summary.worked_hours s == 6.67)%Q /\
    Summary.tardy_count s = Z.b2z (DayRecord.tardy r1) + Z.b2z (DayRecord.tardy r2) /\
    Summary.early_dismissal_count s = 0.
Proof.
  intros P1 C1 S1 E1 P2 C2 S2 E2 Hl.
  exists (summary_of [r1; r2]). split.
  - rewrite calculate_summary_eq. destruct Hl as [-> | ->]; [reflexivity|].
    rewrite (summary_of_perm [r2; r1] [r1; r2]) by apply perm_swap. reflexivity.
  - unfold summary_of.
    cbn [Summary.shifts_worked Summary.scheduled_shifts Summary.tardy_count
         Summary.early_dismissal_count Summary.worked_hours Summary.scheduled_hours
         Summary.attendance_pct_shifts].
    assert (Cp : Py.count DayRecord.present [r1; r2] = 1).
    { unfold Py.count. simpl filter. rewrite P1, P2. reflexivity. }
    assert (Hs : (hours_of DayRecord.sched_minutes [r1; r2] == 810 / 60)%Q).
    { unfold hours_of. simpl map. rewrite !sum_cons, S1, S2. reflexivity. }
    assert (Hw : (hours_of DayRecord.worked_minutes_clipped [r1; r2] == 400 / 60)%Q).
    { unfold hours_of. simpl map. rewrite !sum_cons, C1, C2. reflexivity. }
    split; [reflexivity|]. split; [exact Cp|].
    split; [|split; [|split; [|split]]].
    + unfold pct_shifts_of. rewrite Cp. reflexivity.
    + rewrite (round2_comp _ _ Hs). reflexivity.
    + rewrite (round2_comp _ _ Hw). reflexivity.
    + unfold Py.count. simpl filter.
      destruct (DayRecord.tardy r1), (DayRecord.tardy r2); reflexivity.
    + unfold Py.count. simpl filter. rewrite E1, E2. reflexivity.
Qed.

Lemma summary_of_one_present_one_absent_witness :
  exists s,
    calculate_summary [Examples.worked_record; Examples.absent_record] = Ok s /\
    Summary.scheduled_shifts s = 2 /\
    Summary.shifts_worked s = 1 /\
    (Summary.attendance_pct_shifts s == 50)%Q /\
    (Summary.scheduled_hours s == 13.5)%Q /\
    (Summary.worked_hours s == 6.67)%Q /\
    Summary.tardy_count s = 1 + 0 /\
    Summary.early_dismissal_count s = 0.
Proof.
  apply (summary_of_one_present_one_absent
           Examples.worked_record Examples.absent_record
           [Examples.worked_record; Examples.absent_record]).
  - reflexivity.
  - reflexivity.
  - reflexivity.
  - reflexivity.
  - reflexivity.
  - reflexivity.
  - reflexivity.
  - reflexivity.
  - left. reflexivity.
Defined.



(** * Further properties *)

(** ** [clamp] *)

Module ClampFacts.
Import PyFacts.

Lemma min_cases (a b : Q) : Py.min a b = a \/ Py.min a b = b.
Proof. unfold Py.min. destruct (Py.ltb b a); auto. Qed.


Lemma max_pos (x : Q) : (0 < x)%Q -> Py.max 0 x = x.
Proof.
  intro H. unfold Py.max. rewrite (proj2 (ltb_lt _ _) H). reflexivity.
Qed.

Lemma min_eq (a b : Q) :
  ((a <= b -> Py.min a b = a) /\ (b < a -> Py.min a b = b))%Q.
Proof.
  unfold Py.min. split; intro H.
  - rewrite (proj2 (ltb_ge _ _) H). reflexivity.
  - rewrite (proj2 (ltb_lt _ _) H). reflexivity.
Qed.


Lemma clamp_in_range (v lo hi : Q) :
  (lo <= v <= hi)%Q -> (clamp v lo hi == v)%Q.
Proof.
  intros [H1 H2]. unfold clamp.
  rewrite (proj1 (min_eq v hi) H2).
  unfold Py.max. destruct (Py.ltb lo v) eqn:E; [reflexivity|].
  apply ltb_ge in E. lra.
Qed.

Lemma clamp_mono (v v' lo hi : Q) :
  (v <= v')%Q -> (clamp v lo hi <= clamp v' lo hi)%Q.
Proof.
  intro H. unfold clamp.
  assert (M : (Py.min v hi <= Py.min v' hi)%Q).
  { unfold Py.min.
    destruct (Py.ltb hi v) eqn:E1, (Py.ltb hi v') eqn:E2;
      try apply ltb_lt in E1; try apply ltb_ge in E1;
      try apply ltb_lt in E2; try apply ltb_ge in E2; lra. }
  revert M. generalize (Py.min v hi), (Py.min v' hi).
  intros a b M. unfold Py.max.
  destruct (Py.ltb lo a) eqn:E1, (Py.ltb lo b) eqn:E2;
    try apply ltb_lt in E1; try apply ltb_ge in E1;
    try apply ltb_lt in E2; try apply ltb_ge in E2; lra.
Qed.


End ClampFacts.

Import ClampFacts.

(** X1.  When min_val <= max_val, [clamp] leaves a value that lies between
    the bounds as it is, and clamping twice is clamping once. *)
Theorem clamp_fixes_values_in_range (value min_val max_val : Q) :
  (min_val <= max_val)%Q ->
  ((min_val <= value <= max_val)%Q -> (clamp value min_val max_val == value)%Q) /\
  (clamp (clamp value min_val max_val) min_val max_val
   == clamp value min_val max_val)%Q.
Proof.
  intro Hb. split.
  - apply clamp_in_range.
  - apply clamp_in_range, clamp_bounds, Hb.
Qed.

Lemma clamp_fixes_values_in_range_witness :
  (0 <= 405)%Q /\
  ((0 <= 400 <= 405)%Q -> (clamp 400 0 405 == 400)%Q) /\
  (clamp (clamp 400 0 405) 0 405 == clamp 400 0 405)%Q.
Proof.
  assert (H : (0 <= 405)%Q) by (unfold Qle; simpl; lia).
  split; [exact H|].
  apply (clamp_fixes_values_in_range 400 0 405 H).
Defined.

(** X2.  When max_val < min_val, [clamp] returns min_val whatever the
    value, so that the result is above max_val. *)
Theorem clamp_with_inverted_bounds (value min_val max_val : Q) :
  (max_val < min_val)%Q -> clamp value min_val max_val = min_val.
Proof.
  intro H. unfold clamp, Py.max.
  destruct (Py.ltb min_val (Py.min value max_val)) eqn:E; [|reflexivity].
  apply ltb_lt in E. pose proof (min_glb value max_val) as [_ G].
  exfalso. lra.
Qed.

Lemma clamp_with_inverted_bounds_witness :
  (-(30) < 0)%Q /\ (clamp 45 0 (-(30)))%Q = 0%Q.
Proof.
  assert (H : (-(30) < 0)%Q) by reflexivity.
  split; [exact H|].
  apply (clamp_with_inverted_bounds 45 0 (-(30)) H).
Defined.

(** X3.  [clamp] is monotone in the value, for any bounds. *)
Theorem clamp_is_monotone (value value' min_val max_val : Q) :
  (value <= value')%Q ->
  (clamp value min_val max_val <= clamp value' min_val max_val)%Q.
Proof. apply clamp_mono. Qed.

Lemma clamp_is_monotone_witness :
  (390 <= 410)%Q /\ (clamp 390 0 405 <= clamp 410 0 405)%Q.
Proof.
  assert (H : (390 <= 410)%Q) by (unfold Qle; simpl; lia).
  split; [exact H|].
  apply (clamp_is_monotone 390 410 0 405 H).
Defined.

(** ** One turn of the loop of [build_attendance] *)

Module TurnFacts.
Import DateTime Compute Closed PyFacts ComputeFacts ClampFacts.

Lemma max_comp (a b : Q) : (a == b)%Q -> (Py.max 0 a == Py.max 0 b)%Q.
Proof.
  intro H. unfold Py.max. rewrite (ltb_comp 0 0 a b (Qeq_refl 0) H).
  destruct (Py.ltb 0 b); [exact H|reflexivity].
Qed.

Lemma max_mono (a b : Q) : (a <= b)%Q -> (Py.max 0 a <= Py.max 0 b)%Q.
Proof.
  intro H. unfold Py.max.
  destruct (Py.ltb 0 a) eqn:E1, (Py.ltb 0 b) eqn:E2;
    try apply ltb_lt in E1; try apply ltb_ge in E1;
    try apply ltb_lt in E2; try apply ltb_ge in E2; lra.
Qed.

Lemma lunch_minutes_nonneg o1 i2 : (0 <= lunch_minutes_of o1 i2)%Q.
Proof.
  unfold lunch_minutes_of. destruct o1, i2; try lra. apply max_lub.
Qed.



End TurnFacts.

Import TurnFacts.






(** ** The run as a whole *)

Module RunFacts.
Import DateTime Compute Closed Reading PyFacts ComputeFacts.





End RunFacts.

Import Reading RunFacts.







(** ** [calculate_summary] *)

Module SummaryFacts.
Import Compute Closed PyFacts ComputeFacts.

Lemma round_half_even_near (y : Q) :
  (y - (1 # 2) <= inject_Z (Py.round_half_even y) <= y + (1 # 2))%Q.
Proof.
  unfold Py.round_half_even.
  pose proof (Qfloor_le y) as F1. pose proof (Qlt_floor y) as F2.
  rewrite inject_Z_plus in F2. change (inject_Z 1) with 1%Q in F2.
  destruct (Qcompare_spec (y - inject_Z (Qfloor y)) (1 # 2)) as [H|H|H].
  - destruct (Z.even (Qfloor y)).
    + lra.
    + rewrite inject_Z_plus. change (inject_Z 1) with 1%Q. lra.
  - lra.
  - rewrite inject_Z_plus. change (inject_Z 1) with 1%Q. lra.
Qed.

Lemma round2_near (x : Q) :
  (x - (1 # 200) <= Py.round2 x <= x + (1 # 200))%Q.
Proof.
  pose proof (round_half_even_near (x * 100)) as H.
  unfold Py.round2.
  rewrite (Qmake_Qdiv (Py.round_half_even (x * 100)) 100).
  change (inject_Z (Z.pos 100)) with 100%Q.
  set (n := inject_Z _) in *.
  split.
  - apply Qle_shift_div_l; lra.
  - apply Qle_shift_div_r; lra.
Qed.

Lemma len_app {A : Type} (l1 l2 : list A) :
  Py.len (l1 ++ l2) = Py.len l1 + Py.len l2.
Proof. unfold Py.len. rewrite length_app. lia. Qed.

Lemma count_app {A : Type} (p : A -> bool) (l1 l2 : list A) :
  Py.count p (l1 ++ l2) = Py.count p l1 + Py.count p l2.
Proof. rewrite !count_length, filter_app, length_app. lia. Qed.

Lemma count_all {A : Type} (p : A -> bool) (l : list A) :
  Forall (fun x => p x = true) l -> Py.count p l = Py.len l.
Proof.
  intro H. rewrite count_length. unfold Py.len. f_equal.
  induction H as [|x l Hx _ IH]; simpl; [reflexivity|].
  rewrite Hx. simpl. rewrite IH. reflexivity.
Qed.

Lemma count_none {A : Type} (p : A -> bool) (l : list A) :
  Forall (fun x => p x = false) l -> Py.count p l = 0.
Proof.
  intro H. rewrite count_length.
  replace (filter p l) with (@nil A); [reflexivity|].
  symmetry. induction H as [|x l Hx _ IH]; simpl; [reflexivity|].
  rewrite Hx. exact IH.
Qed.

Lemma summary_of_counts (l : list DayRecord.t) :
  Summary.scheduled_shifts (summary_of l) = Py.len l /\
  Summary.shifts_worked (summary_of l) = Py.count DayRecord.present l /\
  Summary.tardy_count (summary_of l) = Py.count DayRecord.tardy l /\
  Summary.early_dismissal_count (summary_of l) = Py.count DayRecord.early_dismissal l.
Proof. destruct l; repeat split; reflexivity. Qed.

End SummaryFacts.

Import SummaryFacts.

(** X16.  The four counts of [calculate_summary] add up over a list made of
    two parts: scheduled_shifts, shifts_worked, tardy_count and
    early_dismissal_count of the whole are the sums of those of the parts
    (an empty part counts for nothing). *)
Theorem summary_counts_add_up (l1 l2 : list DayRecord.t) :
  exists s1 s2 s,
    calculate_summary l1 = Ok s1 /\
    calculate_summary l2 = Ok s2 /\
    calculate_summary (l1 ++ l2) = Ok s /\
    Summary.scheduled_shifts s
    = Summary.scheduled_shifts s1 + Summary.scheduled_shifts s2 /\
    Summary.shifts_worked s = Summary.shifts_worked s1 + Summary.shifts_worked s2 /\
    Summary.tardy_count s = Summary.tardy_count s1 + Summary.tardy_count s2 /\
    Summary.early_dismissal_count s
    = Summary.early_dismissal_count s1 + Summary.early_dismissal_count s2.
Proof.
  rewrite !calculate_summary_eq. do 3 eexists.
  split; [reflexivity|]. split; [reflexivity|]. split; [reflexivity|].
  destruct (summary_of_counts l1) as (A1 & B1 & C1 & D1).
  destruct (summary_of_counts l2) as (A2 & B2 & C2 & D2).
  destruct (summary_of_counts (l1 ++ l2)) as (A & B & C & D).
  rewrite A, B, C, D, A1, B1, C1, D1, A2, B2, C2, D2.
  rewrite len_app, !count_app. repeat split; reflexivity.
Qed.

(** X17.  The two hour fields of the summary are within 0.005 of the
    unrounded totals: scheduled_hours of the sum of sched_minutes divided
    by 60 and worked_hours of the sum of worked_minutes_clipped divided by
    60; the records are summed unrounded and rounded once. *)
Theorem summary_hours_are_rounded_once (l : list DayRecord.t) :
  exists s,
    calculate_summary l = Ok s /\
    (Py.sum (map DayRecord.sched_minutes l) / 60 - (1 # 200)
     <= Summary.scheduled_hours s
     <= Py.sum (map DayRecord.sched_minutes l) / 60 + (1 # 200))%Q /\
    (Py.sum (map DayRecord.worked_minutes_clipped l) / 60 - (1 # 200)
     <= Summary.worked_hours s
     <= Py.sum (map DayRecord.worked_minutes_clipped l) / 60 + (1 # 200))%Q.
Proof.
  rewrite calculate_summary_eq. eexists. split; [reflexivity|].
  destruct l as [|r l].
  - cbn. split; split; unfold Qle; simpl; lia.
  - unfold summary_of, hours_of.
    cbn [Summary.scheduled_hours Summary.worked_hours].
    split; apply round2_near.
Qed.

(** X18.  For a list of records that is not empty: when every record is
    present, shifts_worked = scheduled_shifts and attendance_pct_shifts is
    100; when no record is present, shifts_worked = 0 and
    attendance_pct_shifts is 0. *)
Theorem summary_of_all_or_none_present (l : list DayRecord.t) :
  l <> [] ->
  exists s,
    calculate_summary l = Ok s /\
    (Forall (fun r => DayRecord.present r = true) l ->
     Summary.shifts_worked s = Summary.scheduled_shifts s /\
     (Summary.attendance_pct_shifts s == 100)%Q) /\
    (Forall (fun r => DayRecord.present r = false) l ->
     Summary.shifts_worked s = 0 /\
     (Summary.attendance_pct_shifts s == 0)%Q).
Proof.
  intro Hne. rewrite calculate_summary_eq. eexists. split; [reflexivity|].
  destruct l as [|r l]; [contradiction|].
  set (m := r :: l). unfold summary_of. fold m.
  cbn [Summary.shifts_worked Summary.scheduled_shifts Summary.attendance_pct_shifts].
  assert (P : 0 < Py.len m) by (unfold Py.len, m; cbn [List.length]; lia).
  unfold pct_shifts_of. rewrite (proj2 (Z.ltb_lt _ _) P).
  split; intro H.
  - rewrite (count_all _ _ H). split; [reflexivity|].
    rewrite (round2_comp _ (inject_Z 100)).
    + apply round2_Z.
    + assert (N : (0 < inject_Z (Py.len m))%Q) by (rewrite <- (Zlt_Qlt 0); exact P).
      change (inject_Z 100) with 100%Q. field. lra.
  - rewrite (count_none _ _ H). split; [reflexivity|].
    rewrite (round2_comp _ (inject_Z 0)).
    + apply round2_Z.
    + assert (N : (0 < inject_Z (Py.len m))%Q) by (rewrite <- (Zlt_Qlt 0); exact P).
      change (inject_Z 0) with 0%Q. field. lra.
Qed.

Lemma summary_of_all_or_none_present_witness :
  [Examples.absent_record; Examples.absent_record] <> [] /\
  exists s,
    calculate_summary [Examples.absent_record; Examples.absent_record] = Ok s /\
    Summary.shifts_worked s = 0 /\
    (Summary.attendance_pct_shifts s == 0)%Q.
Proof.
  assert (H : [Examples.absent_record; Examples.absent_record] <> [])
    by discriminate.
  split; [exact H|].
  destruct (summary_of_all_or_none_present _ H) as (s & E & _ & N).
  exists s. split; [exact E|]. apply N. repeat constructor.
Defined.

(** ** Building the rows of the frames *)

Module ParseFacts.
Import DateTime Parse.

Lemma in_range_true (h m s : Z) :
  0 <= h <= 23 -> 0 <= m <= 59 -> 0 <= s <= 59 ->
  (0 <=? h) && (h <=? 23) && (0 <=? m) && (m <=? 59) && (0 <=? s) && (s <=? 59) = true.
Proof.
  intros Hh Hm Hs.
  rewrite !andb_true_iff, !Z.leb_le. lia.
Qed.

Lemma in_range_false (h m s : Z) :
  ~ (0 <= h <= 23 /\ 0 <= m <= 59 /\ 0 <= s <= 59) ->
  (0 <=? h) && (h <=? 23) && (0 <=? m) && (m <=? 59) && (0 <=? s) && (s <=? 59) = false.
Proof.
  intro H. apply not_true_is_false. intro T. apply H.
  rewrite !andb_true_iff, !Z.leb_le in T. lia.
Qed.

Lemma time_checked_ok (h m s : Z) :
  0 <= h <= 23 -> 0 <= m <= 59 -> 0 <= s <= 59 ->
  time_checked h m s = inr (mk_time h m s).
Proof.
  intros Hh Hm Hs. unfold time_checked.
  rewrite (in_range_true h m s Hh Hm Hs). reflexivity.
Qed.

Lemma time_checked_bad (h m s : Z) :
  ~ (0 <= h <= 23 /\ 0 <= m <= 59 /\ 0 <= s <= 59) ->
  time_checked h m s = inl ValueError.
Proof.
  intro H. unfold time_checked. rewrite (in_range_false h m s H). reflexivity.
Qed.

Lemma mk_time_valid (h m s : Z) :
  0 <= h <= 23 -> 0 <= m <= 59 -> 0 <= s <= 59 -> valid_time (mk_time h m s).
Proof.
  intros Hh Hm Hs. unfold valid_time, mk_time, us_per_day, us_per_second. lia.
Qed.

Lemma date_of_next_day (dt : datetime) : date_of (dt + days 1) = date_of dt + 1.
Proof.
  unfold date_of, days.
  rewrite Z.div_add by (unfold us_per_day, us_per_second; lia). reflexivity.
Qed.

Lemma combine_lt_next (d : date) (t t' : time) :
  valid_time t -> valid_time t' -> combine d t < combine (d + 1) t'.
Proof. unfold valid_time, combine. intros H H'. lia. Qed.


End ParseFacts.

Import Parse ParseFacts.

(** X19.  [combine_date_time] returns None for an unset time without
    looking at the zone; for a set time it raises when the zone name is
    unknown and otherwise returns the timestamp that has the calendar date
    of date_obj and that time of day. *)
Theorem combine_date_time_keeps_date_and_time known_zone date_obj timezone_str :
  combine_date_time known_zone date_obj None timezone_str = inr None /\
  (forall t, known_zone timezone_str = false ->
             combine_date_time known_zone date_obj (Some t) timezone_str
             = inl UnknownTimeZoneError) /\
  (forall t, known_zone timezone_str = true -> valid_time t ->
             exists dt,
               combine_date_time known_zone date_obj (Some t) timezone_str
               = inr (Some dt) /\
               date_of dt = date_of date_obj /\
               time_of dt = t).
Proof.
  split; [reflexivity|]. split.
  - intros t H. unfold combine_date_time. rewrite H. reflexivity.
  - intros t H V. unfold combine_date_time. rewrite H. eexists.
    split; [reflexivity|]. split.
    + apply date_of_combine, V.
    + apply time_of_combine, V.
Qed.

Lemma combine_date_time_keeps_date_and_time_witness :
  exists dt,
    combine_date_time Reading.sample_zone (at_hm Examples.day 13 7)
                      (Some (mk_time 15 58 0)) "America/New_York"
    = inr (Some dt) /\
    date_of dt = date_of (at_hm Examples.day 13 7) /\
    time_of dt = mk_time 15 58 0.
Proof.
  apply (proj2 (proj2 (combine_date_time_keeps_date_and_time
                         Reading.sample_zone (at_hm Examples.day 13 7)
                         "America/New_York"))).
  - reflexivity.
  - unfold valid_time. vm_compute. split; [discriminate|reflexivity].
Defined.

(** X20.  When [am_pm_pattern] matches with an hour from 1 to 12 and a
    minute from 0 to 59, [_try_parse_time_str] returns the time of the
    24-hour clock: the hour modulo 12, plus 12 for PM, so that 12 AM is
    00 and 12 PM is 12. *)
Theorem am_pm_groups_give_24_hour_time (hour minute : Z) (ampm : AmPm) :
  1 <= hour <= 12 -> 0 <= minute <= 59 ->
  time_of_am_pm_groups hour minute ampm
  = inr (mk_time (hour mod 12 + match ampm with MatchPM => 12 | MatchAM => 0 end)
                 minute 0).
Proof.
  intros Hh Hm. unfold time_of_am_pm_groups.
  destruct (Z.eqb_spec hour 12) as [-> | Hne].
  - destruct ampm; cbn [negb]; rewrite time_checked_ok by lia; reflexivity.
  - rewrite Z.mod_small by lia.
    destruct ampm; cbn [negb]; rewrite time_checked_ok by lia;
      f_equal; f_equal; lia.
Qed.

Lemma am_pm_groups_give_24_hour_time_witness :
  1 <= 12 <= 12 /\ 0 <= 17 <= 59 /\
  time_of_am_pm_groups 12 17 MatchAM = inr (mk_time (12 mod 12 + 0) 17 0).
Proof.
  assert (Hh : 1 <= 12 <= 12) by lia.
  assert (Hm : 0 <= 17 <= 59) by lia.
  split; [exact Hh|]. split; [exact Hm|].
  apply (am_pm_groups_give_24_hour_time 12 17 MatchAM Hh Hm).
Defined.

(** X21.  The two regular-expression branches of [_try_parse_time_str]
    treat a value out of range differently.  When [hour_pattern] matches,
    nothing is raised: the result is a time when hour <= 23, minute <= 59
    and second <= 59 and None otherwise.  When [am_pm_pattern] matches,
    [ValueError] is raised for a PM hour of 13 or more, for an AM hour of
    24 or more and for a minute of 60 or more. *)
Theorem out_of_range_groups :
  (forall hour minute second,
      let s := match second with Some s => s | None => 0 end in
      (0 <= hour <= 23 /\ 0 <= minute <= 59 /\ 0 <= s <= 59 ->
       time_of_hour_groups hour minute second = inr (Some (mk_time hour minute s))) /\
      (~ (0 <= hour <= 23 /\ 0 <= minute <= 59 /\ 0 <= s <= 59) ->
       time_of_hour_groups hour minute second = inr None))
  /\
  (forall hour minute,
      13 <= hour -> time_of_am_pm_groups hour minute MatchPM = inl ValueError)
  /\
  (forall hour minute,
      24 <= hour -> time_of_am_pm_groups hour minute MatchAM = inl ValueError)
  /\
  (forall hour minute ampm,
      60 <= minute -> time_of_am_pm_groups hour minute ampm = inl ValueError).
Proof.
  split; [|split; [|split]].
  - intros hour minute second s. unfold time_of_hour_groups. fold s. split.
    + intros (Hh & Hm & Hs).
      rewrite (in_range_true _ _ _ Hh Hm Hs), time_checked_ok by assumption.
      reflexivity.
    + intro H. rewrite (in_range_false _ _ _ H). reflexivity.
  - intros hour minute H. unfold time_of_am_pm_groups.
    destruct (Z.eqb_spec hour 12) as [E|_]; [lia|]. cbn [negb].
    apply time_checked_bad. lia.
  - intros hour minute H. unfold time_of_am_pm_groups.
    destruct (Z.eqb_spec hour 12) as [E|_]; [lia|].
    apply time_checked_bad. lia.
  - intros hour minute ampm H. unfold time_of_am_pm_groups.
    apply time_checked_bad. lia.
Qed.

Lemma out_of_range_groups_witness :
  time_of_hour_groups 25 0 None = inr None /\
  time_of_hour_groups 16 0 (Some 0) = inr (Some (mk_time 16 0 0)) /\
  time_of_am_pm_groups 13 0 MatchPM = inl ValueError /\
  time_of_am_pm_groups 24 0 MatchAM = inl ValueError /\
  time_of_am_pm_groups 9 75 MatchAM = inl ValueError.
Proof.
  destruct out_of_range_groups as (H & P & A & M).
  split; [|split; [|split; [|split]]].
  - apply (proj2 (H 25 0 None)). cbn. lia.
  - apply (proj1 (H 16 0 (Some 0))). cbn. lia.
  - apply P. lia.
  - apply A. lia.
  - apply M. lia.
Defined.

Module RowFacts.
Import DateTime Parse ParseFacts.

(** The start time that [schedule_record] uses: the time of the cell when
    there is one, else the default. *)
Lemma schedule_record_ok known_zone schedule_date shift_type time_match
    default_start default_end cross_midnight timezone_str :
  known_zone timezone_str = true ->
  match time_match with
  | Some (h, m) => 0 <= h <= 23 /\ 0 <= m <= 59
  | None => True
  end ->
  schedule_record known_zone schedule_date shift_type time_match
                  default_start default_end cross_midnight timezone_str
  = inr (Some
           {| ScheduleRow.date := date_of schedule_date;
              ScheduleRow.shift_type := shift_type;
              ScheduleRow.sched_start_dt :=
                combine (date_of schedule_date)
                        match time_match with
                        | Some (h, m) => mk_time h m 0
                        | None => default_start
                        end;
              ScheduleRow.sched_end_dt :=
                combine (if cross_midnight then date_of schedule_date + 1
                         else date_of schedule_date)
                        default_end |}).
Proof.
  intros K R. unfold schedule_record, combine_date_time. rewrite K.
  destruct time_match as [[h m]|].
  - destruct R as [Hh Hm]. rewrite time_checked_ok by lia. cbn [Parse.bind].
    destruct cross_midnight; [rewrite date_of_next_day|]; reflexivity.
  - cbn [Parse.bind].
    destruct cross_midnight; [rewrite date_of_next_day|]; reflexivity.
Qed.

Lemma punch_record_ok known_zone current_date employee_name
    in1_time out1_time in2_time out2_time total_hours timezone_str :
  known_zone timezone_str = true ->
  punch_record known_zone current_date employee_name
               in1_time out1_time in2_time out2_time total_hours timezone_str
  = inr {| PunchRow.date := date_of current_date;
           PunchRow.employee_name_raw := employee_name;
           PunchRow.in1 := option_map (combine (date_of current_date)) in1_time;
           PunchRow.out1 := option_map (combine (date_of current_date)) out1_time;
           PunchRow.in2 := option_map (combine (date_of current_date)) in2_time;
           PunchRow.out2 := option_map (combine (date_of current_date)) out2_time;
           PunchRow.total_hours_reported := total_hours |}.
Proof.
  intro K. unfold punch_record, combine_date_time. rewrite K.
  destruct in1_time, out1_time, in2_time, out2_time; reflexivity.
Qed.

End RowFacts.

Import RowFacts.

(** X22.  With a known zone, [parse_schedule] builds for a cell of a shift
    that crosses midnight a row dated as the column: its scheduled start is
    on that date at the time found in the cell, or at the default start
    when the cell holds none, its scheduled end is on the next date at the
    default end, and the end is after the start whatever the two times. *)
Theorem schedule_record_across_midnight known_zone schedule_date shift_type
    time_match default_start default_end timezone_str :
  known_zone timezone_str = true ->
  valid_time default_start ->
  valid_time default_end ->
  match time_match with
  | Some (h, m) => 0 <= h <= 23 /\ 0 <= m <= 59
  | None => True
  end ->
  exists row,
    schedule_record known_zone schedule_date shift_type time_match
                    default_start default_end true timezone_str
    = inr (Some row) /\
    ScheduleRow.date row = date_of schedule_date /\
    ScheduleRow.shift_type row = shift_type /\
    date_of (ScheduleRow.sched_start_dt row) = date_of schedule_date /\
    time_of (ScheduleRow.sched_start_dt row)
    = match time_match with
      | Some (h, m) => mk_time h m 0
      | None => default_start
      end /\
    date_of (ScheduleRow.sched_end_dt row) = date_of schedule_date + 1 /\
    time_of (ScheduleRow.sched_end_dt row) = default_end /\
    ScheduleRow.sched_start_dt row < ScheduleRow.sched_end_dt row.
Proof.
  intros K Vs Ve R. rewrite (schedule_record_ok _ _ _ _ _ _ _ _ K R).
  eexists. split; [reflexivity|].
  cbn [ScheduleRow.date ScheduleRow.shift_type ScheduleRow.sched_start_dt
       ScheduleRow.sched_end_dt].
  assert (V : valid_time match time_match with
                         | Some (h, m) => mk_time h m 0
                         | None => default_start
                         end).
  { destruct time_match as [[h m]|]; [|exact Vs].
    destruct R. apply mk_time_valid; lia. }
  split; [reflexivity|]. split; [reflexivity|].
  split; [apply date_of_combine, V|]. split; [apply time_of_combine, V|].
  split; [apply date_of_combine, Ve|]. split; [apply time_of_combine, Ve|].
  apply combine_lt_next; assumption.
Qed.

Lemma schedule_record_across_midnight_witness :
  exists row,
    schedule_record Reading.sample_zone (at_hm Examples.day 0 0) PM None
                    (mk_time 16 0 0) (mk_time 0 15 0) true "America/New_York"
    = inr (Some row) /\
    ScheduleRow.date row = date_of (at_hm Examples.day 0 0) /\
    ScheduleRow.shift_type row = PM /\
    date_of (ScheduleRow.sched_start_dt row) = date_of (at_hm Examples.day 0 0) /\
    time_of (ScheduleRow.sched_start_dt row) = mk_time 16 0 0 /\
    date_of (ScheduleRow.sched_end_dt row) = date_of (at_hm Examples.day 0 0) + 1 /\
    time_of (ScheduleRow.sched_end_dt row) = mk_time 0 15 0 /\
    ScheduleRow.sched_start_dt row < ScheduleRow.sched_end_dt row.
Proof.
  apply (schedule_record_across_midnight
           Reading.sample_zone (at_hm Examples.day 0 0) PM None
           (mk_time 16 0 0) (mk_time 0 15 0) "America/New_York").
  - reflexivity.
  - apply mk_time_valid; lia.
  - apply mk_time_valid; lia.
  - exact I.
Defined.



(** X24.  [parse_schedule] raises on a cell whose time is out of range (an
    hour above 23 or a minute above 59): [ValueError], before the zone is
    looked at; with a cell time in range or none, it raises
    [UnknownTimeZoneError] when the zone name is unknown. *)
Theorem schedule_record_failures known_zone schedule_date shift_type
    default_start default_end cross_midnight timezone_str :
  (forall h m, ~ (0 <= h <= 23 /\ 0 <= m <= 59) ->
     schedule_record known_zone schedule_date shift_type (Some (h, m))
                     default_start default_end cross_midnight timezone_str
     = inl ValueError) /\
  (forall time_match,
     known_zone timezone_str = false ->
     match time_match with
     | Some (h, m) => 0 <= h <= 23 /\ 0 <= m <= 59
     | None => True
     end ->
     schedule_record known_zone schedule_date shift_type time_match
                     default_start default_end cross_midnight timezone_str
     = inl UnknownTimeZoneError).
Proof.
  split.
  - intros h m H. unfold schedule_record.
    rewrite time_checked_bad by lia. reflexivity.
  - intros time_match K R. unfold schedule_record, combine_date_time. rewrite K.
    destruct time_match as [[h m]|].
    + destruct R. rewrite time_checked_ok by lia. reflexivity.
    + reflexivity.
Qed.

Lemma schedule_record_failures_witness :
  schedule_record Reading.sample_zone (at_hm Examples.day 0 0) PM (Some (24, 0))
                  (mk_time 16 0 0) (mk_time 0 15 0) true "America/New_York"
  = inl ValueError /\
  schedule_record Reading.sample_zone (at_hm Examples.day 0 0) PM None
                  (mk_time 16 0 0) (mk_time 0 15 0) true "Mars/Olympus"
  = inl UnknownTimeZoneError.
Proof.
  split.
  - apply (proj1 (schedule_record_failures
                    Reading.sample_zone (at_hm Examples.day 0 0) PM
                    (mk_time 16 0 0) (mk_time 0 15 0) true "America/New_York")).
    lia.
  - apply (proj2 (schedule_record_failures
                    Reading.sample_zone (at_hm Examples.day 0 0) PM
                    (mk_time 16 0 0) (mk_time 0 15 0) true "Mars/Olympus") None).
    + reflexivity.
    + exact I.
Defined.

(** X25.  With a known zone, [parse_punch_clock] stamps every punch of a
    data row with the date of the report: the row is dated as the report,
    each of in1, out1, in2 and out2 is set exactly when its time was parsed,
    and a set one has the date of the row and the parsed time of day, also
    for an out-punch made after midnight. *)
Theorem punch_record_stamps_the_report_date known_zone current_date employee_name
    in1_time out1_time in2_time out2_time total_hours timezone_str :
  known_zone timezone_str = true ->
  (forall t, In (Some t) [in1_time; out1_time; in2_time; out2_time] -> valid_time t) ->
  exists p,
    punch_record known_zone current_date employee_name
                 in1_time out1_time in2_time out2_time total_hours timezone_str
    = inr p /\
    PunchRow.date p = date_of current_date /\
    option_map time_of (PunchRow.in1 p) = in1_time /\
    option_map time_of (PunchRow.out1 p) = out1_time /\
    option_map time_of (PunchRow.in2 p) = in2_time /\
    option_map time_of (PunchRow.out2 p) = out2_time /\
    (forall dt,
        In (Some dt) [PunchRow.in1 p; PunchRow.out1 p; PunchRow.in2 p; PunchRow.out2 p] ->
        date_of dt = PunchRow.date p).
Proof.
  intros K V. rewrite (punch_record_ok _ _ _ _ _ _ _ _ _ K).
  eexists. split; [reflexivity|].
  cbn [PunchRow.date PunchRow.in1 PunchRow.out1 PunchRow.in2 PunchRow.out2].
  assert (T : forall o, In o [in1_time; out1_time; in2_time; out2_time] ->
                option_map time_of (option_map (combine (date_of current_date)) o) = o).
  { intros [t|] Ho; [|reflexivity]. simpl. rewrite time_of_combine; [reflexivity|].
    apply V, Ho. }
  assert (D : forall o dt, In o [in1_time; out1_time; in2_time; out2_time] ->
                option_map (combine (date_of current_date)) o = Some dt ->
                date_of dt = date_of current_date).
  { intros [t|] dt Ho E; [|discriminate]. simpl in E. injection E as <-.
    apply date_of_combine, V, Ho. }
  split; [reflexivity|].
  split; [apply T; simpl; auto|]. split; [apply T; simpl; auto|].
  split; [apply T; simpl; auto|]. split; [apply T; simpl; auto 6|].
  intros dt [E | [E | [E | [E | []]]]].
  - apply (D in1_time); [simpl; auto|exact E].
  - apply (D out1_time); [simpl; auto|exact E].
  - apply (D in2_time); [simpl; auto|exact E].
  - apply (D out2_time); [simpl; auto 6|exact E].
Qed.

Lemma punch_record_stamps_the_report_date_witness :
  exists p,
    punch_record Reading.sample_zone (at_hm Examples.day 8 0) "Worker, A"
                 (Some (mk_time 15 58 0)) None None (Some (mk_time 0 10 0))
                 None "America/New_York"
    = inr p /\
    PunchRow.date p = date_of (at_hm Examples.day 8 0) /\
    option_map time_of (PunchRow.in1 p) = Some (mk_time 15 58 0) /\
    option_map time_of (PunchRow.out1 p) = None /\
    option_map time_of (PunchRow.in2 p) = None /\
    option_map time_of (PunchRow.out2 p) = Some (mk_time 0 10 0) /\
    (forall dt,
        In (Some dt) [PunchRow.in1 p; PunchRow.out1 p; PunchRow.in2 p; PunchRow.out2 p] ->
        date_of dt = PunchRow.date p).
Proof.
  apply (punch_record_stamps_the_report_date
           Reading.sample_zone (at_hm Examples.day 8 0) "Worker, A"
           (Some (mk_time 15 58 0)) None None (Some (mk_time 0 10 0))
           None "America/New_York").
  - reflexivity.
  - intros t [E | [E | [E | [E | []]]]]; try discriminate E;
      injection E as <-; apply mk_time_valid; lia.
Defined.

(** ** From the sheets to the record *)

Module SheetFacts.
Import DateTime Compute Closed PyFacts ComputeFacts ClampFacts.


End SheetFacts.

Import SheetFacts.



(** * Properties of the engine on the frames of pandas *)

(** ** One turn of the loop *)

Module EngineFacts.
Import DateTime Pandas Engine EngineSpec PyFacts.

Lemma bind_done {A B : Type} (m : outcome A) (k : A -> outcome B) (b : B) :
  bind m k = Done b -> exists a, m = Done a /\ k a = Done b.
Proof.
  destruct m as [a|e]; simpl; intro H; [|discriminate].
  exists a. split; [reflexivity|exact H].
Qed.

Lemma frame_matches_first punch_df d p :
  first_match punch_df d p -> exists rest, matches punch_df d = p :: rest.
Proof.
  intros (pre & post & -> & Hp & Hpre). unfold matches.
  rewrite filter_app. simpl. rewrite (proj2 (Z.eqb_eq _ _) Hp).
  replace (filter _ pre) with (@nil PunchRow.t).
  - eexists. reflexivity.
  - symmetry. induction pre as [|q pre IH]; [reflexivity|]. simpl.
    destruct (PunchRow.date q =? d) eqn:E.
    + apply Z.eqb_eq in E. exfalso. apply (Hpre q); [left; reflexivity|exact E].
    + apply IH. intros q' Hq'. apply Hpre. right. exact Hq'.
Qed.

Lemma frame_matches_none punch_df d :
  (forall q, In q punch_df -> PunchRow.date q <> d) -> matches punch_df d = [].
Proof.
  intro H. unfold matches. induction punch_df as [|q l IH]; [reflexivity|]. simpl.
  destruct (PunchRow.date q =? d) eqn:E.
  - apply Z.eqb_eq in E. exfalso. apply (H q); [left; reflexivity|exact E].
  - apply IH. intros q' Hq'. apply H. right. exact Hq'.
Qed.

Lemma frame_first_match_head p post d :
  PunchRow.date p = d -> first_match (p :: post) d p.
Proof.
  intro H. exists [], post. split; [reflexivity|]. split; [exact H|].
  intros q [].
Qed.

Section Zone.

Variable utc_offset : datetime -> Z.
Variable ts_ok : datetime -> bool.
Variable td_ok : timedelta -> bool.



Lemma tardy_done config row act b :
  (if a_present act && truthy (a_in act)
   then late <== timedelta_minutes (PolicyConfig.tardy_minutes config) ;;
        limit <== ts_add ts_ok td_ok (ScheduleRow.sched_start_dt row) late ;;
        cell_gt (a_in act) limit
   else Done false) = Done b ->
  b = DayRecord.tardy (record_of config row act).
Proof.
  cbn [record_of DayRecord.tardy].
  destruct (a_present act); [|intro H; injection H as <-; reflexivity].
  destruct (a_in act) as [| |a]; cbn [truthy andb].
  - intro H; injection H as <-; reflexivity.
  - intro H. apply bind_done in H as (late & _ & H).
    apply bind_done in H as (limit & _ & H). injection H as <-. reflexivity.
  - intro H. apply bind_done in H as (late & E1 & H).
    apply bind_done in H as (limit & E2 & H).
    unfold timedelta_minutes in E1.
    destruct (_ && _) in E1; [|discriminate]. injection E1 as <-.
    unfold ts_add in E2. destruct (_ && _) in E2; [|discriminate]. injection E2 as <-.
    injection H as <-. reflexivity.
Qed.

Lemma early_done config row act b :
  (if a_present act && truthy (a_out act)
   then early <== timedelta_minutes (PolicyConfig.early_minutes config) ;;
        limit <== ts_sub ts_ok td_ok (ScheduleRow.sched_end_dt row) early ;;
        cell_lt (a_out act) limit
   else Done false) = Done b ->
  b = DayRecord.early_dismissal (record_of config row act).
Proof.
  cbn [record_of DayRecord.early_dismissal].
  destruct (a_present act); [|intro H; injection H as <-; reflexivity].
  destruct (a_out act) as [| |a]; cbn [truthy andb].
  - intro H; injection H as <-; reflexivity.
  - intro H. apply bind_done in H as (early & _ & H).
    apply bind_done in H as (limit & _ & H). injection H as <-. reflexivity.
  - intro H. apply bind_done in H as (early & E1 & H).
    apply bind_done in H as (limit & E2 & H).
    unfold timedelta_minutes in E1.
    destruct (_ && _) in E1; [|discriminate]. injection E1 as <-.
    unfold ts_sub in E2. destruct (_ && _) in E2; [|discriminate]. injection E2 as <-.
    injection H as <-. reflexivity.
Qed.

Lemma fraction_done (clipped sched f : Q) :
  (if Py.ltb 0 sched
   then if Qeq_bool sched 0 then Raised ZeroDivisionError else Done (clipped / sched)%Q
   else Done 0%Q) = Done f ->
  f = Closed.fraction_of clipped sched.
Proof.
  unfold Closed.fraction_of. destruct (Py.ltb 0 sched).
  - destruct (Qeq_bool sched 0); [discriminate|]. intro H; injection H as <-; reflexivity.
  - intro H; injection H as <-; reflexivity.
Qed.

Lemma fraction_returns (clipped sched : Q) :
  (if Py.ltb 0 sched
   then if Qeq_bool sched 0 then Raised ZeroDivisionError else Done (clipped / sched)%Q
   else Done 0%Q) = Done (Closed.fraction_of clipped sched).
Proof.
  unfold Closed.fraction_of. destruct (Py.ltb 0 sched) eqn:E; [|reflexivity].
  apply ltb_lt in E. destruct (Qeq_bool sched 0) eqn:E0; [|reflexivity].
  apply Qeq_bool_eq in E0. lra.
Qed.

(** What a turn of the loop that returns has done. *)
Lemma process_shift_done punch_df config row ws rec ws' :
  Engine.process_shift utc_offset ts_ok td_ok punch_df config row ws = Done (rec, ws') ->
  td_ok (ScheduleRow.sched_end_dt row - ScheduleRow.sched_start_dt row) = true /\
  match matches punch_df (ScheduleRow.date row) with
  | [] => rec = record_of config row defaults /\ ws' = ws
  | p :: rest =>
      exists act,
        Engine.reconcile_punch utc_offset ts_ok td_ok (ScheduleRow.sched_start_dt row)
                        (ScheduleRow.sched_end_dt row) p = Done act /\
        rec = record_of config row act /\
        ws' = warned (p :: rest) (ScheduleRow.date row) ws
  end.
Proof.
  unfold Engine.process_shift. intro H.
  apply bind_done in H as (sched & E0 & H).
  unfold ts_diff in E0.
  destruct (td_ok _) eqn:Etd in E0; [|discriminate]. injection E0 as <-.
  split; [exact Etd|].
  apply bind_done in H as ([act ws1] & Est & H).
  apply bind_done in H as (tardy & Et & H).
  apply bind_done in H as (early & Ee & H).
  apply bind_done in H as (fraction & Ef & H).
  apply (tardy_done config row) in Et. apply (early_done config row) in Ee.
  apply fraction_done in Ef. subst tardy early fraction.
  injection H as <- <-.
  fold (matches punch_df (ScheduleRow.date row)) in Est.
  destruct (matches punch_df (ScheduleRow.date row)) as [|p rest].
  - injection Est as <- <-. split; reflexivity.
  - apply bind_done in Est as (p' & Ep & Est). cbn in Ep. injection Ep as <-.
    apply bind_done in Est as (act' & Er & Est). injection Est as <- <-.
    exists act'. split; [exact Er|]. split; reflexivity.
Qed.

(** A turn of the loop returns when nothing is out of range and the punch
    block returns. *)
Lemma process_shift_returns punch_df config row ws :
  in_range ts_ok td_ok config row ->
  match matches punch_df (ScheduleRow.date row) with
  | [] =>
      Engine.process_shift utc_offset ts_ok td_ok punch_df config row ws
      = Done (record_of config row defaults, ws)
  | p :: rest =>
      forall act,
        Engine.reconcile_punch utc_offset ts_ok td_ok (ScheduleRow.sched_start_dt row)
                        (ScheduleRow.sched_end_dt row) p = Done act ->
        Engine.process_shift utc_offset ts_ok td_ok punch_df config row ws
        = Done (record_of config row act, warned (p :: rest) (ScheduleRow.date row) ws)
  end.
Proof.
  intros (Htd & (l1 & H1) & (l2 & H2)).
  assert (T : forall act,
             (if a_present act && truthy (a_in act)
              then late <== timedelta_minutes (PolicyConfig.tardy_minutes config) ;;
                   limit <== ts_add ts_ok td_ok (ScheduleRow.sched_start_dt row) late ;;
                   cell_gt (a_in act) limit
              else Done false) = Done (DayRecord.tardy (record_of config row act))).
  { intro act. cbn [record_of DayRecord.tardy].
    destruct (a_present act); [|reflexivity].
    destruct (a_in act) as [| |a]; cbn [truthy andb]; [reflexivity| |].
    - apply bind_done in H1 as (late & -> & H1). cbn [bind]. rewrite H1. reflexivity.
    - apply bind_done in H1 as (late & E1 & H1). rewrite E1. cbn [bind].
      rewrite H1. cbn [bind cell_gt].
      unfold timedelta_minutes in E1. destruct (_ && _) in E1; [|discriminate].
      injection E1 as <-.
      unfold ts_add in H1. destruct (_ && _) in H1; [|discriminate].
      injection H1 as <-. reflexivity. }
  assert (E : forall act,
             (if a_present act && truthy (a_out act)
              then early <== timedelta_minutes (PolicyConfig.early_minutes config) ;;
                   limit <== ts_sub ts_ok td_ok (ScheduleRow.sched_end_dt row) early ;;
                   cell_lt (a_out act) limit
              else Done false) = Done (DayRecord.early_dismissal (record_of config row act))).
  { intro act. cbn [record_of DayRecord.early_dismissal].
    destruct (a_present act); [|reflexivity].
    destruct (a_out act) as [| |a]; cbn [truthy andb]; [reflexivity| |].
    - apply bind_done in H2 as (early & -> & H2). cbn [bind]. rewrite H2. reflexivity.
    - apply bind_done in H2 as (early & E1 & H2). rewrite E1. cbn [bind].
      rewrite H2. cbn [bind cell_lt].
      unfold timedelta_minutes in E1. destruct (_ && _) in E1; [|discriminate].
      injection E1 as <-.
      unfold ts_sub in H2. destruct (_ && _) in H2; [|discriminate].
      injection H2 as <-. reflexivity. }
  unfold Engine.process_shift, ts_diff. rewrite Htd. cbn [bind].
  fold (matches punch_df (ScheduleRow.date row)).
  destruct (matches punch_df (ScheduleRow.date row)) as [|p rest].
  - cbn [bind]. rewrite T, E. cbn [bind]. rewrite fraction_returns. reflexivity.
  - intros act Hact. cbn [iloc nth_error bind]. rewrite Hact. cbn [bind].
    rewrite T, E. cbn [bind]. rewrite fraction_returns. reflexivity.
Qed.

(** The punch block copies the clock-in and the lunch clock-out, and
    counts as present every row whose clock-in is not [None]. *)
Lemma reconcile_done_basic s e p act :
  Engine.reconcile_punch utc_offset ts_ok td_ok s e p = Done act ->
  a_in act = PunchRow.in1 p /\
  a_out1 act = PunchRow.out1 p /\
  a_present act = is_not_none (PunchRow.in1 p).
Proof.
  unfold Engine.reconcile_punch.
  destruct (is_not_none (PunchRow.in1 p) && is_not_none (PunchRow.out2 p)).
  - intro H.
    apply bind_done in H as (o & _ & H).
    apply bind_done in H as (i2 & _ & H).
    apply bind_done in H as (lm & _ & H).
    apply bind_done in H as (td & _ & H).
    injection H as <-. repeat split; reflexivity.
  - intro H. injection H as <-. repeat split; reflexivity.
Qed.

(** The clock-out of the punch block when the row holds a clock-in and a
    clock-out. *)
Lemma reconcile_done_out s e p act t_in t_out :
  PunchRow.in1 p = Stamp t_in ->
  PunchRow.out2 p = Stamp t_out ->
  Engine.reconcile_punch utc_offset ts_ok td_ok s e p = Done act ->
  a_out act
  = Stamp (if (date_at utc_offset s <? date_at utc_offset e)
              && (time_at utc_offset t_out <? time_at utc_offset t_in)
           then t_out + days 1 else t_out).
Proof.
  intros Hin Hout. unfold Engine.reconcile_punch. rewrite Hin, Hout.
  cbn [is_not_none andb]. intro H.
  apply bind_done in H as (o & Eo & H).
  apply bind_done in H as (i2 & _ & H).
  apply bind_done in H as (lm & _ & H).
  apply bind_done in H as (td & _ & H).
  injection H as <-. cbn [a_out].
  destruct (date_at utc_offset s <? date_at utc_offset e); cbn [andb].
  - cbn [cell_time bind] in Eo.
    destruct (time_at utc_offset t_out <? time_at utc_offset t_in).
    + cbn [cell_add] in Eo. apply bind_done in Eo as (t' & Et & Eo).
      unfold ts_add in Et. destruct (_ && _) in Et; [|discriminate].
      injection Et as <-. injection Eo as <-. reflexivity.
    + injection Eo as <-. reflexivity.
  - injection Eo as <-. reflexivity.
Qed.

(** On a shift that ends on the date on which it starts, the punch block
    returns whatever the cells of the row hold, [NaT] included, as long as
    no difference of two timestamps is out of range. *)
Lemma reconcile_returns_within_a_day s e p :
  (date_at utc_offset s <? date_at utc_offset e) = false ->
  spans_in_range td_ok p ->
  exists act, Engine.reconcile_punch utc_offset ts_ok td_ok s e p = Done act.
Proof.
  intros Hx Hs. unfold Engine.reconcile_punch. rewrite Hx.
  unfold spans_in_range, stamps in Hs.
  destruct (PunchRow.in1 p) as [| |a1], (PunchRow.out2 p) as [| |a2],
           (PunchRow.out1 p) as [| |a3], (PunchRow.in2 p) as [| |a4];
    cbn [is_not_none truthy andb bind cell_diff]; unfold ts_diff;
    repeat match goal with
           | |- context [td_ok (?a - ?b)] =>
               rewrite (Hs a b) by (simpl; tauto); cbn [bind]
           end;
    eexists; reflexivity.
Qed.

End Zone.
End EngineFacts.

(** ** [calculate_summary] over any floats *)

Module EngineSummaryFacts.
Import Pandas Engine EngineSpec PyFacts ComputeFacts.

Lemma len_pos {A : Type} (x : A) (l : list A) : 0 < Py.len (x :: l).
Proof. unfold Py.len. cbn [List.length]. rewrite Nat2Z.inj_succ. lia. Qed.

Lemma ltb_not_zero {F : Type} `{Float.ops F} (a : F) :
  Float.ltb (Float.of_int 0) a = true -> Float.is_zero a = false.
Proof.
  unfold Float.ltb, Float.is_zero.
  destruct (Float.compare (Float.of_int 0) a); (discriminate || reflexivity).
Qed.

(** [calculate_summary] returns, whatever the floats are. *)
Lemma calculate_summary_returns {F : Type} `{Float.ops F} (l : list (DayRecord.t F)) :
  calculate_summary l = Done (summary_of l).
Proof.
  destruct l as [|r l]; [reflexivity|].
  unfold calculate_summary, summary_of, pct_shifts_of, pct_hours_of, hours_of.
  pose proof (len_pos r l) as Hn.
  rewrite (proj2 (Z.ltb_lt _ _) Hn).
  replace (Py.len (r :: l) =? 0) with false by (symmetry; apply Z.eqb_neq; lia).
  cbn [bind].
  destruct (Float.ltb _ _) eqn:E.
  - rewrite (ltb_not_zero _ E). reflexivity.
  - reflexivity.
Qed.

Lemma compare_exact_comp (a a' b b' : Q) :
  (a == a')%Q -> (b == b')%Q -> Float.compare_exact a b = Float.compare_exact a' b'.
Proof.
  intros Ha Hb. unfold Float.compare_exact. rewrite Ha, Hb. reflexivity.
Qed.

Lemma hours_exact_perm (f : DayRecord.t Py.float -> Py.float) (l l' : list (DayRecord.t Py.float)) :
  Permutation l l' -> (hours_of f l == hours_of f l')%Q.
Proof.
  intro H. unfold hours_of. cbn [Float.div Float.exact Float.of_int].
  assert (E : (Float.sum (map f l) == Float.sum (map f l'))%Q).
  { apply (sum_perm (map f l) (map f l')). apply Permutation_map. exact H. }
  rewrite E. reflexivity.
Qed.

Lemma pct_hours_exact_perm (l l' : list (DayRecord.t Py.float)) :
  Permutation l l' -> (pct_hours_of l == pct_hours_of l')%Q.
Proof.
  intro H. unfold pct_hours_of, Float.ltb.
  cbn [Float.compare Float.exact Float.mul Float.div Float.of_int].
  pose proof (hours_exact_perm DayRecord.sched_minutes _ _ H) as Es.
  pose proof (hours_exact_perm DayRecord.worked_minutes_clipped _ _ H) as Ew.
  rewrite (compare_exact_comp _ (inject_Z 0) _ _ (Qeq_refl _) Es).
  destruct (Float.compare_exact _ _); try reflexivity.
  rewrite Es, Ew. reflexivity.
Qed.

Lemma summary_exact_perm (l l' : list (DayRecord.t Py.float)) :
  Permutation l l' -> summary_of l = summary_of l'.
Proof.
  intro H. destruct l as [|r l].
  - apply Permutation_nil in H. subst l'. reflexivity.
  - destruct l' as [|r' l'].
    + apply Permutation_sym, Permutation_nil in H. discriminate H.
    + unfold summary_of.
      rewrite (len_perm _ _ H), !(count_perm _ _ _ H).
      cbn [Float.round2 Float.exact].
      rewrite (round2_comp _ _ (hours_exact_perm DayRecord.sched_minutes _ _ H)).
      rewrite (round2_comp _ _ (hours_exact_perm DayRecord.worked_minutes_clipped _ _ H)).
      rewrite (round2_comp _ _ (pct_hours_exact_perm _ _ H)).
      reflexivity.
Qed.

End EngineSummaryFacts.

(** ** Exceptions, runs and rows *)

Module EngineRunFacts.
Import DateTime Pandas Engine EngineSpec PyFacts EngineFacts.

Section Zone.

Variable utc_offset : datetime -> Z.
Variable ts_ok : datetime -> bool.
Variable td_ok : timedelta -> bool.

(** On a shift across midnight the punch block raises on a row with a
    missing punch. *)
Lemma reconcile_raises s e p act :
  date_at utc_offset s < date_at utc_offset e ->
  missing_punch p ->
  Engine.reconcile_punch utc_offset ts_ok td_ok s e p <> Done act.
Proof.
  intros Hx (Hin & Hout & Hnat) H. unfold Engine.reconcile_punch in H.
  rewrite Hin, Hout, (proj2 (Z.ltb_lt _ _) Hx) in H. cbn [andb] in H.
  apply bind_done in H as (o & Eo & H).
  apply bind_done in H as (i2 & Ei & _).
  destruct Hnat as [E | [E | (T1 & T2 & E)]].
  - rewrite E in Eo. destruct (PunchRow.out2 p); discriminate.
  - rewrite E in Eo. discriminate.
  - rewrite T1, T2 in Ei. cbn [andb] in Ei.
    destruct E as [E | E]; rewrite E in Ei.
    + destruct (PunchRow.in2 p); discriminate.
    + discriminate.
Qed.

Lemma process_shift_raises punch_df config row ws p r :
  first_match punch_df (ScheduleRow.date row) p ->
  crosses_midnight utc_offset row ->
  missing_punch p ->
  Engine.process_shift utc_offset ts_ok td_ok punch_df config row ws <> Done r.
Proof.
  intros Hm Hx Hp H. destruct r as [rec ws'].
  apply process_shift_done in H as [_ H].
  destruct (frame_matches_first _ _ _ Hm) as [rest Er]. rewrite Er in H.
  destruct H as (act & Hact & _).
  exact (reconcile_raises _ _ _ _ Hx Hp Hact).
Qed.

(** What the loop has done when it returns. *)
Lemma process_rows_done punch_df config rows : forall recs0 ws0 recs ws,
  Engine.process_rows utc_offset ts_ok td_ok punch_df config rows recs0 ws0
  = Done (recs, ws) ->
  exists new,
    recs = recs0 ++ new /\
    Forall2 (fun row rec =>
               exists w w',
                 Engine.process_shift utc_offset ts_ok td_ok punch_df config row w
                 = Done (rec, w'))
            rows new.
Proof.
  induction rows as [|row rows IH]; intros recs0 ws0 recs ws H.
  - injection H as <- <-. exists []. split; [symmetry; apply app_nil_r|constructor].
  - cbn [Engine.process_rows] in H.
    apply bind_done in H as ([rec w'] & E & H).
    apply IH in H as (new & -> & F).
    exists (rec :: new). split.
    + rewrite <- app_assoc. reflexivity.
    + constructor; [|exact F]. exists ws0, w'. exact E.
Qed.

Lemma build_attendance_done punch_df schedule_df config recs summary ws :
  Engine.build_attendance utc_offset ts_ok td_ok punch_df schedule_df config
  = Done (recs, summary, ws) ->
  Forall2 (fun row rec =>
             exists w w',
               Engine.process_shift utc_offset ts_ok td_ok punch_df config row w
               = Done (rec, w'))
          schedule_df recs.
Proof.
  unfold Engine.build_attendance. intro H.
  apply bind_done in H as ([recs' ws'] & E & H).
  apply bind_done in H as (summary' & _ & H). injection H as <- _ _.
  apply process_rows_done in E as (new & -> & F). exact F.
Qed.

Lemma record_of_key config row act :
  shift_key (record_of config row act) = Closed.row_key row.
Proof. reflexivity. Qed.

Lemma process_shift_key punch_df config row w rec w' :
  Engine.process_shift utc_offset ts_ok td_ok punch_df config row w = Done (rec, w') ->
  shift_key rec = Closed.row_key row.
Proof.
  intro H. apply process_shift_done in H as [_ H].
  destruct (matches punch_df (ScheduleRow.date row)).
  - destruct H as [-> _]. apply record_of_key.
  - destruct H as (act & _ & -> & _). apply record_of_key.
Qed.

Lemma frame_matches_app_first pre p post d :
  (forall q, In q pre -> PunchRow.date q <> d) ->
  PunchRow.date p = d ->
  matches (pre ++ p :: post) d = p :: matches post d.
Proof.
  intros Hpre Hp. unfold matches. rewrite filter_app.
  fold (matches pre d). rewrite (frame_matches_none _ _ Hpre).
  simpl. rewrite (proj2 (Z.eqb_eq _ _) Hp). reflexivity.
Qed.

Lemma frame_matches_In q l d :
  In q l -> PunchRow.date q = d -> In q (matches l d).
Proof.
  intros Hq Hd. unfold matches. apply filter_In. split; [exact Hq|].
  apply Z.eqb_eq, Hd.
Qed.

(** The record of a turn, or the exception that it raises, depends on the
    first row of the shift's date only. *)
Lemma process_shift_first_row pre p post config row ws ws0 :
  (forall q, In q pre -> PunchRow.date q <> ScheduleRow.date row) ->
  PunchRow.date p = ScheduleRow.date row ->
  record_part (Engine.process_shift utc_offset ts_ok td_ok (pre ++ p :: post) config row ws)
  = record_part (Engine.process_shift utc_offset ts_ok td_ok [p] config row ws0).
Proof.
  intros Hpre Hp. unfold record_part, Engine.process_shift.
  fold (matches (pre ++ p :: post) (ScheduleRow.date row)).
  fold (matches [p] (ScheduleRow.date row)).
  rewrite (frame_matches_app_first _ _ _ _ Hpre Hp).
  replace (matches [p] (ScheduleRow.date row)) with [p]
    by (unfold matches; simpl; rewrite (proj2 (Z.eqb_eq _ _) Hp); reflexivity).
  destruct (ts_diff td_ok _ _); [|reflexivity].
  cbn [bind iloc nth_error].
  destruct (Engine.reconcile_punch utc_offset ts_ok td_ok _ _ p) as [act|]; [|reflexivity].
  cbn [bind].
  repeat match goal with
         | |- context [bind ?m _] => destruct m; cbn [bind]; [|reflexivity]
         end.
  reflexivity.
Qed.

Lemma warned_duplicates p post d ws :
  (exists q, In q post /\ PunchRow.date q = d) ->
  warned (p :: matches post d) d ws = ws ++ [MultiplePunchRecords d].
Proof.
  intros (q & Hq & Hd). unfold warned.
  pose proof (frame_matches_In _ _ _ Hq Hd) as Hin.
  destruct (matches post d) as [|q' l]; [destruct Hin|].
  replace (1 <? Py.len (p :: q' :: l)) with true; [reflexivity|].
  symmetry. apply Z.ltb_lt. unfold Py.len. cbn [List.length].
  rewrite !Nat2Z.inj_succ. lia.
Qed.

Lemma max0_num (c : bool) (a b : Q) :
  max0 (if c then num a else num b) = Py.max 0 (if c then a else b).
Proof. destruct c; reflexivity. Qed.

(** The minutes worked when the row holds a clock-in and a clock-out: the
    time from the clock-in to the clock-out of the record, less the lunch
    between the two lunch cells of the record. *)
Lemma reconcile_done_worked s e p act t_in t_out :
  PunchRow.in1 p = Stamp t_in ->
  PunchRow.out2 p = Stamp t_out ->
  Engine.reconcile_punch utc_offset ts_ok td_ok s e p = Done act ->
  exists t,
    a_out act = Stamp t /\
    a_worked act
    = Py.max 0 (DateTime.total_seconds (t - t_in)%Z / 60
                - lunch_of (a_out1 act) (a_in2 act))%Q.
Proof.
  intros Hin Hout H.
  pose proof (reconcile_done_out _ _ _ _ _ _ _ _ _ Hin Hout H) as Ho.
  revert H Ho. unfold Engine.reconcile_punch. rewrite Hin, Hout.
  cbn [is_not_none andb]. intros H Ho.
  apply bind_done in H as (o & Eo & H).
  apply bind_done in H as (i2 & Ei & H).
  apply bind_done in H as (lm & El & H).
  apply bind_done in H as (td & Et & H).
  injection H as <-. cbn [a_out a_worked a_out1 a_in2] in *. subst o.
  eexists. split; [reflexivity|].
  cbn [cell_diff] in Et. apply bind_done in Et as (d & Ed & Et).
  unfold ts_diff in Ed. destruct (td_ok _) in Ed; [|discriminate].
  injection Ed as <-. injection Et as <-.
  assert (L : lm = lunch_of (PunchRow.out1 p) i2).
  { destruct (PunchRow.out1 p) as [| |o1], i2 as [| |t2]; cbn [truthy andb] in El;
      try (injection El as <-; reflexivity);
      try (apply bind_done in El as (ld & E1 & El); injection E1 as <-;
           injection El as <-; reflexivity).
    apply bind_done in El as (ld & E1 & El).
    cbn [cell_diff] in E1. apply bind_done in E1 as (d & Ed & E1).
    unfold ts_diff in Ed. destruct (td_ok _) in Ed; [|discriminate].
    injection Ed as <-. injection E1 as <-. injection El as <-.
    cbn [total_seconds gt div lunch_of]. apply max0_num. }
  rewrite L. reflexivity.
Qed.

Lemma lunch_of_nonneg o1 i2 : (0 <= lunch_of o1 i2)%Q.
Proof.
  unfold lunch_of. destruct o1, i2; try apply Qle_refl. apply max_lub.
Qed.

Lemma lunch_of_nonpositive (o1 i2 : datetime) :
  i2 <= o1 -> lunch_of (Stamp o1) (Stamp i2) = 0%Q.
Proof.
  intro H. cbn [lunch_of].
  replace (Py.ltb 0 (DateTime.total_seconds (i2 - o1))) with false; [reflexivity|].
  symmetry. apply ltb_ge. unfold DateTime.total_seconds, Qle. simpl. lia.
Qed.

End Zone.
End EngineRunFacts.

Module EngineTurnFacts.
Import DateTime Pandas Engine EngineSpec PyFacts EngineFacts EngineRunFacts.

Lemma clamp_of_zero (s : Q) : clamp 0%Q 0%Q s = 0%Q.
Proof.
  unfold clamp, Py.min, Py.max.
  destruct (Py.ltb s 0) eqn:E1.
  - apply ltb_lt in E1. rewrite (proj2 (ltb_ge _ _) (Qlt_le_weak _ _ E1)). reflexivity.
  - reflexivity.
Qed.

Section Zone.

Variable utc_offset : datetime -> Z.
Variable ts_ok : datetime -> bool.
Variable td_ok : timedelta -> bool.

(** Without a clock-out cell, or without a clock-in cell, the punch block
    returns the cells as they are. *)
Lemma reconcile_skipped s e p :
  PunchRow.in1 p = PyNone \/ PunchRow.out2 p = PyNone ->
  Engine.reconcile_punch utc_offset ts_ok td_ok s e p
  = Done {| a_in := PunchRow.in1 p; a_out := PunchRow.out2 p;
            a_out1 := PunchRow.out1 p; a_in2 := PunchRow.in2 p;
            a_worked := 0%Q; a_present := is_not_none (PunchRow.in1 p) |}.
Proof.
  intro H. unfold Engine.reconcile_punch.
  replace (is_not_none (PunchRow.in1 p) && is_not_none (PunchRow.out2 p)) with false;
    [reflexivity|].
  destruct H as [-> | ->]; [reflexivity|]. symmetry. apply andb_false_r.
Qed.

(** With [NaT] as clock-in or as clock-out, the punch block returns on no
    shift across midnight, and what it returns has no minutes worked and
    the clock-out cell as it is. *)
Lemma reconcile_done_nat s e p act :
  PunchRow.in1 p = NaT \/ PunchRow.out2 p = NaT ->
  Engine.reconcile_punch utc_offset ts_ok td_ok s e p = Done act ->
  a_worked act = 0%Q /\ a_out act = PunchRow.out2 p /\
  (is_not_none (PunchRow.in1 p) && is_not_none (PunchRow.out2 p) = true ->
   ~ date_at utc_offset s < date_at utc_offset e).
Proof.
  intros Hn H.
  destruct (is_not_none (PunchRow.in1 p) && is_not_none (PunchRow.out2 p)) eqn:B.
  - apply andb_true_iff in B as [B1 B2].
    assert (X : ~ date_at utc_offset s < date_at utc_offset e).
    { intro Hx. apply (reconcile_raises utc_offset ts_ok td_ok s e p act Hx); [|exact H].
      split; [exact B1|]. split; [exact B2|]. tauto. }
    unfold Engine.reconcile_punch in H. rewrite B1, B2 in H. cbn [andb] in H.
    replace (date_at utc_offset s <? date_at utc_offset e) with false in H
      by (symmetry; apply Z.ltb_ge; lia).
    cbn [andb bind] in H.
    apply bind_done in H as (lm & _ & H).
    apply bind_done in H as (td & Et & H). injection H as <-. cbn [a_worked a_out].
    assert (Etd : td = NaTDelta).
    { destruct Hn as [Hn|Hn]; rewrite Hn in Et.
      - destruct (PunchRow.out2 p); [discriminate| |]; injection Et as <-; reflexivity.
      - destruct (PunchRow.in1 p); [discriminate| |]; injection Et as <-; reflexivity. }
    rewrite Etd. split; [reflexivity|]. split; [reflexivity|]. intros _. exact X.
  - unfold Engine.reconcile_punch in H. rewrite B in H. injection H as <-.
    split; [reflexivity|]. split; [reflexivity|]. discriminate.
Qed.

Lemma process_shift_same_matches punch_df punch_df' config row ws :
  matches punch_df (ScheduleRow.date row) = matches punch_df' (ScheduleRow.date row) ->
  Engine.process_shift utc_offset ts_ok td_ok punch_df config row ws
  = Engine.process_shift utc_offset ts_ok td_ok punch_df' config row ws.
Proof.
  intro H. unfold Engine.process_shift.
  fold (matches punch_df (ScheduleRow.date row)).
  fold (matches punch_df' (ScheduleRow.date row)).
  rewrite H. reflexivity.
Qed.

Lemma process_rows_same_matches punch_df punch_df' config rows :
  (forall row, In row rows ->
               matches punch_df (ScheduleRow.date row)
               = matches punch_df' (ScheduleRow.date row)) ->
  forall recs ws,
    Engine.process_rows utc_offset ts_ok td_ok punch_df config rows recs ws
    = Engine.process_rows utc_offset ts_ok td_ok punch_df' config rows recs ws.
Proof.
  induction rows as [|row rows IH]; intros H recs ws; [reflexivity|].
  cbn [Engine.process_rows].
  rewrite (process_shift_same_matches punch_df punch_df') by (apply H; left; reflexivity).
  destruct (Engine.process_shift _ _ _ punch_df' config row ws) as [[rec w]|]; [|reflexivity].
  cbn [bind]. apply IH. intros r Hr. apply H. right. exact Hr.
Qed.

Lemma frame_matches_skip pre q post d :
  PunchRow.date q <> d -> matches (pre ++ q :: post) d = matches (pre ++ post) d.
Proof.
  intro H. unfold matches. rewrite !filter_app. simpl.
  rewrite (proj2 (Z.eqb_neq _ _) H). reflexivity.
Qed.

End Zone.
End EngineTurnFacts.

Module EngineLunchFacts.
Import DateTime Pandas Engine EngineSpec PyFacts EngineFacts EngineRunFacts EngineTurnFacts.

Section Zone.

Variable utc_offset : datetime -> Z.
Variable ts_ok : datetime -> bool.
Variable td_ok : timedelta -> bool.

(** The lunch clock-in of the punch block is the cell of the row, or that
    timestamp plus one day. *)
Lemma reconcile_done_in2 s e p act :
  Engine.reconcile_punch utc_offset ts_ok td_ok s e p = Done act ->
  a_in2 act = PunchRow.in2 p \/
  exists t, PunchRow.in2 p = Stamp t /\ a_in2 act = Stamp (t + days 1).
Proof.
  unfold Engine.reconcile_punch.
  destruct (is_not_none (PunchRow.in1 p) && is_not_none (PunchRow.out2 p)).
  - intro H.
    apply bind_done in H as (o & _ & H).
    apply bind_done in H as (i2 & Ei & H).
    apply bind_done in H as (lm & _ & H).
    apply bind_done in H as (td & _ & H).
    injection H as <-. cbn [a_in2].
    destruct (_ && truthy (PunchRow.in2 p)).
    + apply bind_done in Ei as (t2 & E2 & Ei).
      apply bind_done in Ei as (t1 & _ & Ei).
      destruct (t2 <? t1).
      * destruct (PunchRow.in2 p) as [| |t]; try discriminate.
        cbn [cell_add] in Ei. apply bind_done in Ei as (t' & Et & Ei).
        unfold ts_add in Et. destruct (_ && _) in Et; [|discriminate].
        injection Et as <-. injection Ei as <-. right. exists t. split; reflexivity.
      * injection Ei as <-. left. reflexivity.
    + injection Ei as <-. left. reflexivity.
  - intro H. injection H as <-. left. reflexivity.
Qed.

End Zone.
End EngineLunchFacts.

(** ** From [Compute] to [Engine] *)

Module LiftFacts.
Import DateTime Pandas PyFacts ComputeFacts EngineFacts EngineRunFacts.









End LiftFacts.

(** ** The claims on the frames of pandas *)

Import Pandas Engine EngineSpec.
Import EngineFacts EngineSummaryFacts EngineRunFacts EngineTurnFacts.
Import EngineLunchFacts LiftFacts.

Lemma reads_date utc_offset t d h m :
  0 <= h < 24 -> 0 <= m < 60 ->
  reads utc_offset t (at_hm d h m) -> date_at utc_offset t = d.
Proof.
  intros Hh Hm R. unfold date_at. rewrite R. unfold at_hm.
  apply date_of_combine, hm_range; assumption.
Qed.




(** C3 (the code falls short of the claim).  [build_attendance] does not
    return on every pair of frames that the parsers build.  On the frame
    that [pd.DataFrame] builds from a record of 2025-01-01 with clock-in
    15:58, clock-out 00:10 and no lunch punches and a record of 2025-01-02
    with a lunch pair, and the PM shift of 2025-01-01, it raises
    [ValueError]: the lunch cells of the first row are [NaT], they pass the
    test of line 85, and line 86 calls [.time()] on them.  The run raises
    whenever a schedule row crosses midnight and the first punch row of its
    date has a missing punch.  Whenever [build_attendance] returns, its
    records are as many as the schedule rows and carry, position by
    position, the date, shift type, scheduled start and scheduled end of
    the rows. *)
Theorem build_attendance_raises_on_a_missing_punch :
  Samples.build_attendance (DataFrame [Samples.pm_record; Samples.lunch_record])
                           [Samples.pm_shift] PolicyConfig.default
  = Raised ValueError
  /\
  (forall utc_offset ts_ok td_ok punch_df schedule_df config row p result,
      In row schedule_df ->
      first_match punch_df (ScheduleRow.date row) p ->
      crosses_midnight utc_offset row ->
      missing_punch p ->
      Engine.build_attendance utc_offset ts_ok td_ok punch_df schedule_df config
      <> Done result)
  /\
  (forall utc_offset ts_ok td_ok punch_df schedule_df config day_records summary warnings,
      Engine.build_attendance utc_offset ts_ok td_ok punch_df schedule_df config
      = Done (day_records, summary, warnings) ->
      List.length day_records = List.length schedule_df /\
      map shift_key day_records = map Closed.row_key schedule_df).
Proof.
  split; [vm_compute; reflexivity|]. split.
  - intros utc_offset ts_ok td_ok punch_df schedule_df config row p [[recs summary] ws]
           Hrow Hm Hx Hp H.
    apply build_attendance_done in H.
    assert (G : exists rec w w',
               Engine.process_shift utc_offset ts_ok td_ok punch_df config row w
               = Done (rec, w')).
    { clear Hm Hx Hp. induction H as [|r rec rows recs' Hr _ IH]; [destruct Hrow|].
      destruct Hrow as [<- | Hrow].
      - destruct Hr as (w & w' & Hr). exists rec, w, w'. exact Hr.
      - apply IH, Hrow. }
    destruct G as (rec & w & w' & G).
    exact (process_shift_raises _ _ _ _ _ _ _ _ _ Hm Hx Hp G).
  - intros utc_offset ts_ok td_ok punch_df schedule_df config day_records summary warnings H.
    apply build_attendance_done in H.
    induction H as [|row rec rows recs (w & w' & Hr) _ [IH1 IH2]].
    + split; reflexivity.
    + split.
      * cbn [List.length]. f_equal. exact IH1.
      * cbn [map]. rewrite IH2, (process_shift_key _ _ _ _ _ _ _ _ _ Hr). reflexivity.
Qed.

Lemma build_attendance_raises_on_a_missing_punch_witness :
  (forall result,
      Samples.build_attendance (DataFrame [Samples.pm_record; Samples.lunch_record])
                               [Samples.pm_shift] PolicyConfig.default
      <> Done result)
  /\
  (exists day_records summary warnings,
      Samples.build_attendance
        (DataFrame [Samples.earlier_record; Samples.am_record; Samples.am_record_again])
        [Samples.am_shift; Samples.next_day_shift] PolicyConfig.default
      = Done (day_records, summary, warnings) /\
      List.length day_records = 2%nat /\
      map shift_key day_records
      = map Closed.row_key [Samples.am_shift; Samples.next_day_shift] /\
      warnings = [MultiplePunchRecords Samples.day]).
Proof.
  split.
  - intro result.
    apply (proj1 (proj2 build_attendance_raises_on_a_missing_punch)
             Samples.new_york Samples.ts_int64 Samples.td_int64
             (DataFrame [Samples.pm_record; Samples.lunch_record])
             [Samples.pm_shift] PolicyConfig.default Samples.pm_shift
             (PunchRow.mk Samples.day "Worker, A"
                (Stamp (Samples.est Samples.day 15 58)) NaT NaT
                (Stamp (Samples.est Samples.day 0 10)) None)
             result).
    + left. reflexivity.
    + eapply (frame_first_match_head _ _ Samples.day). reflexivity.
    + vm_compute. reflexivity.
    + split; [reflexivity|]. split; [reflexivity|]. right. right.
      split; [reflexivity|]. split; [reflexivity|]. left. reflexivity.
  - assert (E : exists day_records summary,
               Samples.build_attendance
                 (DataFrame [Samples.earlier_record; Samples.am_record;
                             Samples.am_record_again])
                 [Samples.am_shift; Samples.next_day_shift] PolicyConfig.default
               = Done (day_records, summary, [MultiplePunchRecords Samples.day])).
    { eexists. eexists. vm_compute. reflexivity. }
    destruct E as (day_records & summary & E).
    destruct (proj2 (proj2 build_attendance_raises_on_a_missing_punch)
                Samples.new_york Samples.ts_int64 Samples.td_int64 _ _ _ _ _ _ E)
      as [A B].
    exists day_records, summary, [MultiplePunchRecords Samples.day].
    split; [exact E|]. split; [exact A|]. split; [exact B|reflexivity].
Defined.

(** C4.  In a turn of the loop where the first punch row of the shift's
    date holds a clock-in, every record that the turn returns has tardy
    true exactly when the clock-in is strictly later than the scheduled
    start plus tardy_minutes.  In particular, for an AM shift scheduled
    09:45 to 16:30 with tardy_minutes = 5 and a clock-in at 09:50, in a zone
    whose offset is the same at 09:45 and at 09:50 and with nothing out of
    range, the turn returns whatever the other cells of the row hold, [NaT]
    included; the clock-in is the scheduled start plus the threshold, and
    tardy is false. *)
Theorem tardy_iff_strictly_after_threshold
    (utc_offset : datetime -> Z) (ts_ok : datetime -> bool) (td_ok : timedelta -> bool) :
  (forall punch_df config row warnings p t_in rec warnings',
      first_match punch_df (ScheduleRow.date row) p ->
      PunchRow.in1 p = Stamp t_in ->
      Engine.process_shift utc_offset ts_ok td_ok punch_df config row warnings
      = Done (rec, warnings') ->
      (DayRecord.tardy rec = true <->
       ScheduleRow.sched_start_dt row + minutes (PolicyConfig.tardy_minutes config) < t_in))
  /\
  (forall punch_df config warnings d p start_dt end_dt t_in,
      PolicyConfig.tardy_minutes config = 5 ->
      first_match punch_df d p ->
      PunchRow.in1 p = Stamp t_in ->
      reads utc_offset start_dt (at_hm d 9 45) ->
      reads utc_offset end_dt (at_hm d 16 30) ->
      reads utc_offset t_in (at_hm d 9 50) ->
      utc_offset t_in = utc_offset start_dt ->
      in_range ts_ok td_ok config (ScheduleRow.mk d AM start_dt end_dt) ->
      spans_in_range td_ok p ->
      exists rec warnings',
        Engine.process_shift utc_offset ts_ok td_ok punch_df config
          (ScheduleRow.mk d AM start_dt end_dt) warnings
        = Done (rec, warnings') /\
        t_in = start_dt + minutes 5 /\
        DayRecord.tardy rec = false).
Proof.
  assert (G : forall config row act t_in,
             a_in act = Stamp t_in -> a_present act = true ->
             DayRecord.tardy (record_of config row act)
             = (ScheduleRow.sched_start_dt row
                + minutes (PolicyConfig.tardy_minutes config) <? t_in)).
  { intros config row act t_in Hin Hp. cbn [record_of DayRecord.tardy].
    rewrite Hin, Hp. reflexivity. }
  split.
  - intros punch_df config row warnings p t_in rec warnings' Hm Hin H.
    apply process_shift_done in H as [_ H].
    destruct (frame_matches_first _ _ _ Hm) as [rest Er]. rewrite Er in H.
    destruct H as (act & Hact & -> & _).
    destruct (reconcile_done_basic _ _ _ _ _ _ _ Hact) as (Ha & _ & Hp).
    rewrite Hin in Ha, Hp. rewrite (G _ _ _ t_in Ha Hp). apply Z.ltb_lt.
  - intros punch_df config warnings d p start_dt end_dt t_in
           Hc Hm Hin Rs Re Rin Eoff Hrange Hspans.
    set (row := ScheduleRow.mk d AM start_dt end_dt).
    assert (X : (date_at utc_offset start_dt <? date_at utc_offset end_dt) = false).
    { apply Z.ltb_ge.
      rewrite (reads_date _ start_dt d 9 45), (reads_date _ end_dt d 16 30) by (lia || assumption).
      lia. }
    destruct (reconcile_returns_within_a_day utc_offset ts_ok td_ok _ _ p X Hspans)
      as [act Hact].
    destruct (frame_matches_first _ _ _ Hm) as [rest Er].
    pose proof (process_shift_returns utc_offset ts_ok td_ok punch_df config row warnings Hrange)
      as R.
    cbn [row ScheduleRow.date ScheduleRow.sched_start_dt ScheduleRow.sched_end_dt] in R.
    rewrite Er in R. specialize (R _ Hact).
    assert (E : t_in = start_dt + minutes 5).
    { unfold reads, wall in Rs, Rin. rewrite Eoff in Rin.
      unfold at_hm, combine, mk_time in Rs, Rin.
      unfold minutes, us_per_minute, us_per_second in *. lia. }
    eexists. eexists. split; [exact R|]. split; [exact E|].
    destruct (reconcile_done_basic _ _ _ _ _ _ _ Hact) as (Ha & _ & Hp).
    rewrite Hin in Ha, Hp. rewrite (G _ _ _ t_in Ha Hp).
    cbn [row ScheduleRow.sched_start_dt]. rewrite Hc. apply Z.ltb_ge. lia.
Qed.

Lemma tardy_iff_strictly_after_threshold_witness :
  (exists rec warnings',
     Samples.process_shift (DataFrame [Samples.am_record_again; Samples.lunch_record])
                           PolicyConfig.default Samples.am_shift []
     = Done (rec, warnings') /\
     (DayRecord.tardy rec = true <->
      Samples.est Samples.day 9 45 + minutes 5 < Samples.est Samples.day 10 30))
  /\
  (exists rec warnings',
     Samples.process_shift (DataFrame [Samples.am_record; Samples.lunch_record])
                           PolicyConfig.default Samples.am_shift []
     = Done (rec, warnings') /\
     Samples.est Samples.day 9 50 = Samples.est Samples.day 9 45 + minutes 5 /\
     DayRecord.tardy rec = false).
Proof.
  split.
  - eexists. eexists. split; [vm_compute; reflexivity|].
    apply (proj1 (tardy_iff_strictly_after_threshold
                    Samples.new_york Samples.ts_int64 Samples.td_int64)
             (DataFrame [Samples.am_record_again; Samples.lunch_record])
             PolicyConfig.default Samples.am_shift []
             (PunchRow.mk Samples.day "Worker, A"
                (Stamp (Samples.est Samples.day 10 30)) NaT NaT
                (Stamp (Samples.est Samples.day 12 0)) None)
             (Samples.est Samples.day 10 30) _ []).
    + eapply (frame_first_match_head _ _ Samples.day). reflexivity.
    + reflexivity.
    + vm_compute. reflexivity.
  - apply (proj2 (tardy_iff_strictly_after_threshold
                    Samples.new_york Samples.ts_int64 Samples.td_int64)
             (DataFrame [Samples.am_record; Samples.lunch_record])
             PolicyConfig.default [] Samples.day
             (PunchRow.mk Samples.day "Worker, A"
                (Stamp (Samples.est Samples.day 9 50)) NaT NaT
                (Stamp (Samples.est Samples.day 16 30)) None)
             (Samples.est Samples.day 9 45) (Samples.est Samples.day 16 30)
             (Samples.est Samples.day 9 50)).
    + reflexivity.
    + eapply (frame_first_match_head _ _ Samples.day). reflexivity.
    + reflexivity.
    + vm_compute. reflexivity.
    + vm_compute. reflexivity.
    + vm_compute. reflexivity.
    + vm_compute. reflexivity.
    + split; [vm_compute; reflexivity|]. split; eexists; vm_compute; reflexivity.
    + intros a b Ha Hb. simpl in Ha, Hb.
      destruct Ha as [<-|[<-|[]]], Hb as [<-|[<-|[]]]; vm_compute; reflexivity.
Defined.

(** C6 (the code falls short of the claim).  With more than one punch row
    of the shift's date the run can raise: on the frame built from two
    records of 2025-01-01, the first with clock-in 15:58, clock-out 00:10
    and no lunch punches, the second with a lunch pair, and the PM shift of
    that day, [build_attendance] raises [ValueError] on the [NaT] lunch
    cells of the first row, as in C3.  What holds of every frame: in a turn
    of the loop on a shift whose date is the date of a row [p], of no row
    before [p] and of at least one row after [p], the record of the turn,
    or the exception that it raises, is the one of the turn on the frame
    that holds [p] alone, whatever the rows after [p]; and a turn that
    returns has appended the warning for that date, and its record carries
    the punches of [p]: present tells whether the clock-in cell of [p] is
    not [None], actual_in and actual_out1 are the cells of [p], and when
    [p] holds a clock-in and a clock-out, actual_out is that clock-out or
    that clock-out plus one day, and worked_minutes is the time from the
    clock-in to actual_out less the lunch between the lunch cells of the
    record, floored at 0. *)
Theorem duplicate_punches_use_first :
  Samples.build_attendance
    (DataFrame [Samples.pm_record; Samples.lunch_record_same_day])
    [Samples.pm_shift] PolicyConfig.default
  = Raised ValueError
  /\
  (forall utc_offset ts_ok td_ok pre p post config row warnings,
      (forall q, In q pre -> PunchRow.date q <> ScheduleRow.date row) ->
      PunchRow.date p = ScheduleRow.date row ->
      (exists q, In q post /\ PunchRow.date q = ScheduleRow.date row) ->
      record_part (Engine.process_shift utc_offset ts_ok td_ok (pre ++ p :: post)
                                        config row warnings)
      = record_part (Engine.process_shift utc_offset ts_ok td_ok [p] config row warnings)
      /\
      forall rec warnings',
        Engine.process_shift utc_offset ts_ok td_ok (pre ++ p :: post) config row warnings
        = Done (rec, warnings') ->
        warnings' = warnings ++ [MultiplePunchRecords (ScheduleRow.date row)] /\
        DayRecord.present rec = is_not_none (PunchRow.in1 p) /\
        DayRecord.actual_in rec = PunchRow.in1 p /\
        DayRecord.actual_out1 rec = PunchRow.out1 p /\
        forall t_in t_out,
          PunchRow.in1 p = Stamp t_in ->
          PunchRow.out2 p = Stamp t_out ->
          exists t,
            DayRecord.actual_out rec = Stamp t /\
            (t = t_out \/ t = t_out + days 1) /\
            DayRecord.worked_minutes rec
            = Py.max 0 (DateTime.total_seconds (t - t_in)%Z / 60
                        - lunch_of (DayRecord.actual_out1 rec)
                                   (DayRecord.actual_in2 rec))%Q).
Proof.
  split; [vm_compute; reflexivity|].
  intros utc_offset ts_ok td_ok pre p post config row warnings Hpre Hp Hpost.
  split; [apply process_shift_first_row; assumption|].
  intros rec warnings' H.
  apply process_shift_done in H as [_ H].
  rewrite (frame_matches_app_first _ _ _ _ Hpre Hp) in H.
  destruct H as (act & Hact & -> & ->).
  split; [apply warned_duplicates, Hpost|].
  destruct (reconcile_done_basic _ _ _ _ _ _ _ Hact) as (Ha & Ho1 & Hpr).
  cbn [record_of DayRecord.present DayRecord.actual_in DayRecord.actual_out1
       DayRecord.actual_in2 DayRecord.actual_out DayRecord.worked_minutes].
  split; [exact Hpr|]. split; [exact Ha|]. split; [exact Ho1|].
  intros t_in t_out Hin Hout.
  destruct (reconcile_done_worked _ _ _ _ _ _ _ _ _ Hin Hout Hact) as (t & Eo & Ew).
  exists t. split; [exact Eo|]. split; [|exact Ew].
  rewrite (reconcile_done_out _ _ _ _ _ _ _ _ _ Hin Hout Hact) in Eo.
  injection Eo as <-. destruct (_ && _); [right|left]; reflexivity.
Qed.

Lemma duplicate_punches_use_first_witness :
  record_part
    (Samples.process_shift
       (DataFrame [Samples.earlier_record; Samples.am_record; Samples.am_record_again])
       PolicyConfig.default Samples.am_shift [])
  = record_part
      (Samples.process_shift (DataFrame [Samples.am_record])
                             PolicyConfig.default Samples.am_shift [])
  /\
  exists rec,
    Samples.process_shift
      (DataFrame [Samples.earlier_record; Samples.am_record; Samples.am_record_again])
      PolicyConfig.default Samples.am_shift []
    = Done (rec, [MultiplePunchRecords Samples.day]) /\
    DayRecord.present rec = true /\
    DayRecord.actual_in rec = Stamp (Samples.est Samples.day 9 50) /\
    DayRecord.actual_out rec = Stamp (Samples.est Samples.day 16 30) /\
    (DayRecord.worked_minutes rec == 400)%Q.
Proof.
  pose (r1 := PunchRow.mk (Samples.day - 1) "Worker, A"
                (Stamp (Samples.est (Samples.day - 1) 9 40)) PyNone PyNone
                (Stamp (Samples.est (Samples.day - 1) 16 35)) None).
  pose (r2 := PunchRow.mk Samples.day "Worker, A"
                (Stamp (Samples.est Samples.day 9 50)) PyNone PyNone
                (Stamp (Samples.est Samples.day 16 30)) None).
  pose (r3 := PunchRow.mk Samples.day "Worker, A"
                (Stamp (Samples.est Samples.day 10 30)) PyNone PyNone
                (Stamp (Samples.est Samples.day 12 0)) None).
  assert (H1 : forall q, In q [r1] -> PunchRow.date q <> ScheduleRow.date Samples.am_shift).
  { intros q [<- | []]. vm_compute. discriminate. }
  assert (H3 : exists q, In q [r3] /\ PunchRow.date q = ScheduleRow.date Samples.am_shift).
  { exists r3. split; [left; reflexivity|reflexivity]. }
  destruct (proj2 duplicate_punches_use_first
              Samples.new_york Samples.ts_int64 Samples.td_int64
              [r1] r2 [r3] PolicyConfig.default Samples.am_shift [] H1 eq_refl H3)
    as [E G].
  split; [exact E|].
  eexists. split; [vm_compute; reflexivity|].
  repeat split; vm_compute; reflexivity.
Defined.

(** C7, as stated, over binary64 floats: three records whose clipped
    minutes are 17130 / 60, 4623 / 60 and 17901 / 60 give worked_hours =
    11.02 in this order and 11.01 with the last two exchanged, the sum of
    the minutes being 660.9000000000001 in one order and 660.9 in the
    other. *)
Lemma summary_depends_on_the_order_of_the_records :
  Permutation [Samples.first_day; Samples.second_day; Samples.third_day]
              [Samples.first_day; Samples.third_day; Samples.second_day] /\
  exists s s',
    calculate_summary [Samples.first_day; Samples.second_day; Samples.third_day] = Done s /\
    calculate_summary [Samples.first_day; Samples.third_day; Samples.second_day] = Done s' /\
    Summary.worked_hours s = PrimFloat.div (B64.of_int 1102) (B64.of_int 100) /\
    Summary.worked_hours s' = PrimFloat.div (B64.of_int 1101) (B64.of_int 100) /\
    s <> s'.
Proof.
  split; [apply perm_skip, perm_swap|].
  exists (summary_of [Samples.first_day; Samples.second_day; Samples.third_day]),
         (summary_of [Samples.first_day; Samples.third_day; Samples.second_day]).
  split; [apply calculate_summary_returns|]. split; [apply calculate_summary_returns|].
  split; [vm_compute; reflexivity|]. split; [vm_compute; reflexivity|].
  intro E.
  apply (f_equal (fun s => PrimFloat.eqb (Summary.worked_hours s)
                                         (PrimFloat.div (B64.of_int 1102) (B64.of_int 100))))
    in E.
  vm_compute in E. discriminate E.
Qed.

(** C7 (as amended).  Over any floats, [calculate_summary] returns on a
    list of records and on any permutation of it, and the two summaries
    have the same scheduled_shifts, shifts_worked, tardy_count,
    early_dismissal_count and attendance_pct_shifts.  Where the sums of the
    minutes are exact, as over the rationals, the two summaries are equal
    in every field. *)
Theorem calculate_summary_permutation :
  (forall (F : Type) (arith : Float.ops F) (l l' : list (DayRecord.t F)),
      Permutation l l' ->
      exists s s',
        calculate_summary l = Done s /\
        calculate_summary l' = Done s' /\
        Summary.scheduled_shifts s = Summary.scheduled_shifts s' /\
        Summary.shifts_worked s = Summary.shifts_worked s' /\
        Summary.tardy_count s = Summary.tardy_count s' /\
        Summary.early_dismissal_count s = Summary.early_dismissal_count s' /\
        Summary.attendance_pct_shifts s = Summary.attendance_pct_shifts s')
  /\
  (forall l l' : list (DayRecord.t Py.float),
      Permutation l l' ->
      exists s, calculate_summary l = Done s /\ calculate_summary l' = Done s).
Proof.
  split.
  - intros F arith l l' H.
    exists (summary_of l), (summary_of l').
    split; [apply calculate_summary_returns|]. split; [apply calculate_summary_returns|].
    destruct l as [|r l].
    + apply Permutation_nil in H. subst l'. repeat split; reflexivity.
    + destruct l' as [|r' l'].
      * apply Permutation_sym, Permutation_nil in H. discriminate H.
      * cbn [summary_of Summary.scheduled_shifts Summary.shifts_worked Summary.tardy_count
             Summary.early_dismissal_count Summary.attendance_pct_shifts].
        rewrite (len_perm _ _ H), !(count_perm _ _ _ H). repeat split; reflexivity.
  - intros l l' H. exists (summary_of l). split; [apply calculate_summary_returns|].
    rewrite (summary_exact_perm _ _ H). apply calculate_summary_returns.
Qed.

Lemma calculate_summary_permutation_witness :
  (exists s s',
     calculate_summary [Samples.first_day; Samples.second_day; Samples.third_day] = Done s /\
     calculate_summary [Samples.first_day; Samples.third_day; Samples.second_day] = Done s' /\
     Summary.scheduled_shifts s = Summary.scheduled_shifts s' /\
     Summary.shifts_worked s = Summary.shifts_worked s' /\
     Summary.tardy_count s = Summary.tardy_count s' /\
     Summary.early_dismissal_count s = Summary.early_dismissal_count s' /\
     Summary.attendance_pct_shifts s = Summary.attendance_pct_shifts s')
  /\
  (exists s,
     calculate_summary [Samples.worked_record; Samples.absent_record] = Done s /\
     calculate_summary [Samples.absent_record; Samples.worked_record] = Done s).
Proof.
  split.
  - apply (proj1 calculate_summary_permutation B64.float B64.binary64).
    apply perm_skip, perm_swap.
  - apply (proj2 calculate_summary_permutation). apply perm_swap.
Defined.

(** ** Further properties on the frames of pandas *)

(** X4.  In a turn of the loop where the first punch row of the shift's
    date holds a clock-in and a clock-out, every record that the turn
    returns has early_dismissal judged on the clock-out after the
    cross-midnight adjustment: actual_out is out2, or out2 plus one day
    when the shift crosses midnight and the time of day of out2 is earlier
    than that of in1, and early_dismissal is true exactly when that
    actual_out is strictly earlier than the scheduled end minus
    early_minutes. *)
Theorem early_dismissal_iff_strictly_before_threshold
    (utc_offset : datetime -> Z) (ts_ok : datetime -> bool) (td_ok : timedelta -> bool)
    punch_df config row warnings p t_in t_out rec warnings' :
  first_match punch_df (ScheduleRow.date row) p ->
  PunchRow.in1 p = Stamp t_in ->
  PunchRow.out2 p = Stamp t_out ->
  Engine.process_shift utc_offset ts_ok td_ok punch_df config row warnings
  = Done (rec, warnings') ->
  let clock_out :=
    if (date_at utc_offset (ScheduleRow.sched_start_dt row)
        <? date_at utc_offset (ScheduleRow.sched_end_dt row))
       && (time_at utc_offset t_out <? time_at utc_offset t_in)
    then t_out + days 1 else t_out in
  DayRecord.actual_out rec = Stamp clock_out /\
  (DayRecord.early_dismissal rec = true <->
   clock_out < ScheduleRow.sched_end_dt row - minutes (PolicyConfig.early_minutes config)).
Proof.
  intros Hm Hin Hout H.
  apply process_shift_done in H as [_ H].
  destruct (frame_matches_first _ _ _ Hm) as [rest Er]. rewrite Er in H.
  destruct H as (act & Hact & -> & _).
  destruct (reconcile_done_basic _ _ _ _ _ _ _ Hact) as (_ & _ & Hp).
  pose proof (reconcile_done_out _ _ _ _ _ _ _ _ _ Hin Hout Hact) as Ho.
  cbn [record_of DayRecord.actual_out DayRecord.early_dismissal]. cbn zeta.
  rewrite Ho, Hp, Hin. cbn [is_not_none andb]. split; [reflexivity|]. apply Z.ltb_lt.
Qed.

Lemma early_dismissal_iff_strictly_before_threshold_witness :
  exists rec warnings',
    Samples.process_shift (DataFrame [Samples.pm_record]) PolicyConfig.default
                          Samples.pm_shift []
    = Done (rec, warnings') /\
    DayRecord.actual_out rec = Stamp (Samples.est Samples.day 0 10 + days 1) /\
    (DayRecord.early_dismissal rec = true <->
     Samples.est Samples.day 0 10 + days 1
     < Samples.est (Samples.day + 1) 0 15 - minutes 15).
Proof.
  eexists. eexists. split; [vm_compute; reflexivity|].
  apply (early_dismissal_iff_strictly_before_threshold
           Samples.new_york Samples.ts_int64 Samples.td_int64
           (DataFrame [Samples.pm_record]) PolicyConfig.default Samples.pm_shift []
           (PunchRow.mk Samples.day "Worker, A"
              (Stamp (Samples.est Samples.day 15 58)) PyNone PyNone
              (Stamp (Samples.est Samples.day 0 10)) None)
           (Samples.est Samples.day 15 58) (Samples.est Samples.day 0 10) _ []).
  - eapply (frame_first_match_head _ _ Samples.day). reflexivity.
  - reflexivity.
  - reflexivity.
  - vm_compute. reflexivity.
Defined.

(** X5.  A punch row with a clock-in and without a clock-out.  When the
    clock-out cell is [None] (no row of the frame has a clock-out) and
    nothing is out of range, the turn returns a record that is present
    with worked_minutes = 0, worked_minutes_clipped = 0, no actual_out and
    early_dismissal false; tardy is judged on the clock-in.  When the
    clock-out cell is [NaT] (another row of the frame has a clock-out), a
    turn that returns gives the same but for actual_out, which is [NaT],
    and its shift does not cross midnight: on a shift that crosses
    midnight the turn raises. *)
Theorem clock_in_without_clock_out
    (utc_offset : datetime -> Z) (ts_ok : datetime -> bool) (td_ok : timedelta -> bool) :
  (forall punch_df config row warnings p t_in,
      first_match punch_df (ScheduleRow.date row) p ->
      PunchRow.in1 p = Stamp t_in ->
      PunchRow.out2 p = PyNone ->
      in_range ts_ok td_ok config row ->
      exists rec warnings',
        Engine.process_shift utc_offset ts_ok td_ok punch_df config row warnings
        = Done (rec, warnings') /\
        DayRecord.present rec = true /\
        DayRecord.actual_in rec = Stamp t_in /\
        DayRecord.actual_out rec = PyNone /\
        DayRecord.worked_minutes rec = 0%Q /\
        DayRecord.worked_minutes_clipped rec = 0%Q /\
        DayRecord.early_dismissal rec = false /\
        (DayRecord.tardy rec = true <->
         ScheduleRow.sched_start_dt row + minutes (PolicyConfig.tardy_minutes config)
         < t_in))
  /\
  (forall punch_df config row warnings p t_in rec warnings',
      first_match punch_df (ScheduleRow.date row) p ->
      PunchRow.in1 p = Stamp t_in ->
      PunchRow.out2 p = NaT ->
      Engine.process_shift utc_offset ts_ok td_ok punch_df config row warnings
      = Done (rec, warnings') ->
      ~ crosses_midnight utc_offset row /\
      DayRecord.present rec = true /\
      DayRecord.actual_in rec = Stamp t_in /\
      DayRecord.actual_out rec = NaT /\
      DayRecord.worked_minutes rec = 0%Q /\
      DayRecord.worked_minutes_clipped rec = 0%Q /\
      DayRecord.early_dismissal rec = false /\
      (DayRecord.tardy rec = true <->
       ScheduleRow.sched_start_dt row + minutes (PolicyConfig.tardy_minutes config)
       < t_in))
  /\
  (forall punch_df config row warnings p t_in result,
      first_match punch_df (ScheduleRow.date row) p ->
      PunchRow.in1 p = Stamp t_in ->
      PunchRow.out2 p = NaT ->
      crosses_midnight utc_offset row ->
      Engine.process_shift utc_offset ts_ok td_ok punch_df config row warnings
      <> Done result).
Proof.
  split; [|split].
  - intros punch_df config row warnings p t_in Hm Hin Hout Hrange.
    destruct (frame_matches_first _ _ _ Hm) as [rest Er].
    pose proof (process_shift_returns utc_offset ts_ok td_ok punch_df config row warnings Hrange)
      as R.
    rewrite Er in R.
    specialize (R _ (reconcile_skipped utc_offset ts_ok td_ok _ _ p (or_intror Hout))).
    eexists. eexists. split; [exact R|].
    cbn [record_of DayRecord.present DayRecord.actual_in DayRecord.actual_out
         DayRecord.worked_minutes DayRecord.worked_minutes_clipped
         DayRecord.early_dismissal DayRecord.tardy a_present a_in a_out a_worked].
    rewrite Hin, Hout. cbn [is_not_none andb].
    repeat split; try reflexivity; try apply clamp_of_zero; apply Z.ltb_lt.
  - intros punch_df config row warnings p t_in rec warnings' Hm Hin Hout H.
    apply process_shift_done in H as [_ H].
    destruct (frame_matches_first _ _ _ Hm) as [rest Er]. rewrite Er in H.
    destruct H as (act & Hact & -> & _).
    destruct (reconcile_done_basic _ _ _ _ _ _ _ Hact) as (Ha & _ & Hp).
    destruct (reconcile_done_nat _ _ _ _ _ _ _ (or_intror Hout) Hact) as (Hw & Ho & Hx).
    cbn [record_of DayRecord.present DayRecord.actual_in DayRecord.actual_out
         DayRecord.worked_minutes DayRecord.worked_minutes_clipped
         DayRecord.early_dismissal DayRecord.tardy].
    rewrite Ha, Hp, Ho, Hw, Hin, Hout. cbn [is_not_none andb].
    split; [apply Hx; rewrite Hin, Hout; reflexivity|].
    repeat split; try reflexivity; try apply clamp_of_zero; apply Z.ltb_lt.
  - intros punch_df config row warnings p t_in result Hm Hin Hout Hx.
    apply (process_shift_raises utc_offset ts_ok td_ok _ _ _ _ p result Hm Hx).
    split; [rewrite Hin; reflexivity|]. split; [rewrite Hout; reflexivity|].
    right. left. exact Hout.
Qed.

Lemma clock_in_without_clock_out_witness :
  (exists rec warnings',
     Samples.process_shift (DataFrame [Samples.in_only_record]) PolicyConfig.default
                           Samples.am_shift []
     = Done (rec, warnings') /\
     DayRecord.present rec = true /\
     DayRecord.actual_in rec = Stamp (Samples.est Samples.day 9 52) /\
     DayRecord.actual_out rec = PyNone /\
     DayRecord.worked_minutes rec = 0%Q /\
     DayRecord.worked_minutes_clipped rec = 0%Q /\
     DayRecord.early_dismissal rec = false /\
     (DayRecord.tardy rec = true <->
      Samples.est Samples.day 9 45 + minutes 5 < Samples.est Samples.day 9 52))
  /\
  (exists rec warnings',
     Samples.process_shift (DataFrame [Samples.in_only_record; Samples.lunch_record])
                           PolicyConfig.default Samples.am_shift []
     = Done (rec, warnings') /\
     ~ crosses_midnight Samples.new_york Samples.am_shift /\
     DayRecord.present rec = true /\
     DayRecord.actual_in rec = Stamp (Samples.est Samples.day 9 52) /\
     DayRecord.actual_out rec = NaT /\
     DayRecord.worked_minutes rec = 0%Q /\
     DayRecord.worked_minutes_clipped rec = 0%Q /\
     DayRecord.early_dismissal rec = false /\
     (DayRecord.tardy rec = true <->
      Samples.est Samples.day 9 45 + minutes 5 < Samples.est Samples.day 9 52))
  /\
  (forall result,
      Samples.process_shift (DataFrame [Samples.in_only_record; Samples.lunch_record])
                            PolicyConfig.default Samples.pm_shift []
      <> Done result).
Proof.
  split; [|split].
  - apply (proj1 (clock_in_without_clock_out
                    Samples.new_york Samples.ts_int64 Samples.td_int64)
             (DataFrame [Samples.in_only_record]) PolicyConfig.default Samples.am_shift []
             (PunchRow.mk Samples.day "Worker, A"
                (Stamp (Samples.est Samples.day 9 52)) PyNone PyNone PyNone None)
             (Samples.est Samples.day 9 52)).
    + eapply (frame_first_match_head _ _ Samples.day). reflexivity.
    + reflexivity.
    + reflexivity.
    + split; [vm_compute; reflexivity|]. split; eexists; vm_compute; reflexivity.
  - eexists. eexists. split; [vm_compute; reflexivity|].
    apply (proj1 (proj2 (clock_in_without_clock_out
                           Samples.new_york Samples.ts_int64 Samples.td_int64))
             (DataFrame [Samples.in_only_record; Samples.lunch_record])
             PolicyConfig.default Samples.am_shift []
             (PunchRow.mk Samples.day "Worker, A"
                (Stamp (Samples.est Samples.day 9 52)) NaT NaT NaT None)
             (Samples.est Samples.day 9 52) _ []).
    + eapply (frame_first_match_head _ _ Samples.day). reflexivity.
    + reflexivity.
    + reflexivity.
    + vm_compute. reflexivity.
  - intro result.
    apply (proj2 (proj2 (clock_in_without_clock_out
                           Samples.new_york Samples.ts_int64 Samples.td_int64))
             (DataFrame [Samples.in_only_record; Samples.lunch_record])
             PolicyConfig.default Samples.pm_shift []
             (PunchRow.mk Samples.day "Worker, A"
                (Stamp (Samples.est Samples.day 9 52)) NaT NaT NaT None)
             (Samples.est Samples.day 9 52) result).
    + eapply (frame_first_match_head _ _ Samples.day). reflexivity.
    + reflexivity.
    + reflexivity.
    + vm_compute. reflexivity.
Defined.

(** X6.  A punch row without a clock-in.  When the clock-in cell is [None]
    (no row of the frame has a clock-in) and nothing is out of range, the
    turn returns an absent record: present, tardy and early_dismissal are
    false and worked_minutes is 0, while actual_out, actual_out1 and
    actual_in2 carry the cells of the row.  When the clock-in cell is [NaT]
    (another row of the frame has a clock-in), every record that the turn
    returns is present, with actual_in [NaT], tardy false and
    worked_minutes 0. *)
Theorem row_without_a_clock_in
    (utc_offset : datetime -> Z) (ts_ok : datetime -> bool) (td_ok : timedelta -> bool) :
  (forall punch_df config row warnings p,
      first_match punch_df (ScheduleRow.date row) p ->
      PunchRow.in1 p = PyNone ->
      in_range ts_ok td_ok config row ->
      exists rec warnings',
        Engine.process_shift utc_offset ts_ok td_ok punch_df config row warnings
        = Done (rec, warnings') /\
        DayRecord.present rec = false /\
        DayRecord.tardy rec = false /\
        DayRecord.early_dismissal rec = false /\
        DayRecord.worked_minutes rec = 0%Q /\
        DayRecord.actual_in rec = PyNone /\
        DayRecord.actual_out rec = PunchRow.out2 p /\
        DayRecord.actual_out1 rec = PunchRow.out1 p /\
        DayRecord.actual_in2 rec = PunchRow.in2 p)
  /\
  (forall punch_df config row warnings p rec warnings',
      first_match punch_df (ScheduleRow.date row) p ->
      PunchRow.in1 p = NaT ->
      Engine.process_shift utc_offset ts_ok td_ok punch_df config row warnings
      = Done (rec, warnings') ->
      DayRecord.present rec = true /\
      DayRecord.actual_in rec = NaT /\
      DayRecord.tardy rec = false /\
      DayRecord.worked_minutes rec = 0%Q /\
      DayRecord.actual_out rec = PunchRow.out2 p).
Proof.
  split.
  - intros punch_df config row warnings p Hm Hin Hrange.
    destruct (frame_matches_first _ _ _ Hm) as [rest Er].
    pose proof (process_shift_returns utc_offset ts_ok td_ok punch_df config row warnings Hrange)
      as R.
    rewrite Er in R.
    specialize (R _ (reconcile_skipped utc_offset ts_ok td_ok _ _ p (or_introl Hin))).
    eexists. eexists. split; [exact R|].
    cbn [record_of DayRecord.present DayRecord.actual_in DayRecord.actual_out
         DayRecord.actual_out1 DayRecord.actual_in2 DayRecord.worked_minutes
         DayRecord.early_dismissal DayRecord.tardy
         a_present a_in a_out a_out1 a_in2 a_worked].
    rewrite Hin. cbn [is_not_none andb]. repeat split; reflexivity.
  - intros punch_df config row warnings p rec warnings' Hm Hin H.
    apply process_shift_done in H as [_ H].
    destruct (frame_matches_first _ _ _ Hm) as [rest Er]. rewrite Er in H.
    destruct H as (act & Hact & -> & _).
    destruct (reconcile_done_basic _ _ _ _ _ _ _ Hact) as (Ha & _ & Hp).
    destruct (reconcile_done_nat _ _ _ _ _ _ _ (or_introl Hin) Hact) as (Hw & Ho & _).
    cbn [record_of DayRecord.present DayRecord.actual_in DayRecord.actual_out
         DayRecord.worked_minutes DayRecord.tardy].
    rewrite Ha, Hp, Ho, Hw, Hin. cbn [is_not_none andb]. repeat split; reflexivity.
Qed.

Lemma row_without_a_clock_in_witness :
  (exists rec warnings',
     Samples.process_shift (DataFrame [Samples.out_only_record]) PolicyConfig.default
                           Samples.am_shift []
     = Done (rec, warnings') /\
     DayRecord.present rec = false /\
     DayRecord.tardy rec = false /\
     DayRecord.early_dismissal rec = false /\
     DayRecord.worked_minutes rec = 0%Q /\
     DayRecord.actual_in rec = PyNone /\
     DayRecord.actual_out rec = Stamp (Samples.est Samples.day 16 30) /\
     DayRecord.actual_out1 rec = PyNone /\
     DayRecord.actual_in2 rec = PyNone)
  /\
  (exists rec warnings',
     Samples.process_shift (DataFrame [Samples.out_only_record; Samples.lunch_record])
                           PolicyConfig.default Samples.am_shift []
     = Done (rec, warnings') /\
     DayRecord.present rec = true /\
     DayRecord.actual_in rec = NaT /\
     DayRecord.tardy rec = false /\
     DayRecord.worked_minutes rec = 0%Q /\
     DayRecord.actual_out rec = Stamp (Samples.est Samples.day 16 30)).
Proof.
  split.
  - apply (proj1 (row_without_a_clock_in Samples.new_york Samples.ts_int64 Samples.td_int64)
             (DataFrame [Samples.out_only_record]) PolicyConfig.default Samples.am_shift []
             (PunchRow.mk Samples.day "Worker, A" PyNone PyNone PyNone
                (Stamp (Samples.est Samples.day 16 30)) None)).
    + eapply (frame_first_match_head _ _ Samples.day). reflexivity.
    + reflexivity.
    + split; [vm_compute; reflexivity|]. split; eexists; vm_compute; reflexivity.
  - eexists. eexists. split; [vm_compute; reflexivity|].
    apply (proj2 (row_without_a_clock_in Samples.new_york Samples.ts_int64 Samples.td_int64)
             (DataFrame [Samples.out_only_record; Samples.lunch_record])
             PolicyConfig.default Samples.am_shift []
             (PunchRow.mk Samples.day "Worker, A" NaT NaT NaT
                (Stamp (Samples.est Samples.day 16 30)) None) _ []).
    + eapply (frame_first_match_head _ _ Samples.day). reflexivity.
    + reflexivity.
    + vm_compute. reflexivity.
Defined.

(** X8.  In a turn of the loop where the first punch row of the shift's
    date holds a clock-in and a clock-out, every record that the turn
    returns has worked_minutes at most the minutes from actual_in to
    actual_out, floored at 0; equal to them when a lunch cell of the row is
    [None] or [NaT], and when the lunch clock-in of the record is not after
    its lunch clock-out; and equal to them less the minutes of the lunch,
    floored at 0, when the lunch clock-in of the record is after its lunch
    clock-out. *)
Theorem lunch_never_adds_time
    (utc_offset : datetime -> Z) (ts_ok : datetime -> bool) (td_ok : timedelta -> bool)
    punch_df config row warnings p t_in t_out rec warnings' :
  first_match punch_df (ScheduleRow.date row) p ->
  PunchRow.in1 p = Stamp t_in ->
  PunchRow.out2 p = Stamp t_out ->
  Engine.process_shift utc_offset ts_ok td_ok punch_df config row warnings
  = Done (rec, warnings') ->
  exists clock_out,
    DayRecord.actual_out rec = Stamp clock_out /\
    let span := Py.max 0 (DateTime.total_seconds (clock_out - t_in)%Z / 60)%Q in
    (DayRecord.worked_minutes rec <= span)%Q /\
    (PunchRow.out1 p = PyNone \/ PunchRow.in2 p = PyNone \/
     PunchRow.out1 p = NaT \/ PunchRow.in2 p = NaT ->
     (DayRecord.worked_minutes rec == span)%Q) /\
    (forall o1 i2,
        DayRecord.actual_out1 rec = Stamp o1 ->
        DayRecord.actual_in2 rec = Stamp i2 ->
        i2 <= o1 ->
        (DayRecord.worked_minutes rec == span)%Q) /\
    (forall o1 i2,
        DayRecord.actual_out1 rec = Stamp o1 ->
        DayRecord.actual_in2 rec = Stamp i2 ->
        o1 < i2 ->
        (DayRecord.worked_minutes rec
         == Py.max 0 (DateTime.total_seconds (clock_out - t_in)%Z / 60
                      - DateTime.total_seconds (i2 - o1)%Z / 60))%Q).
Proof.
  intros Hm Hin Hout H.
  apply process_shift_done in H as [_ H].
  destruct (frame_matches_first _ _ _ Hm) as [rest Er]. rewrite Er in H.
  destruct H as (act & Hact & -> & _).
  destruct (reconcile_done_worked _ _ _ _ _ _ _ _ _ Hin Hout Hact) as (t & Eo & Ew).
  destruct (reconcile_done_basic _ _ _ _ _ _ _ Hact) as (_ & Ho1 & _).
  exists t.
  cbn [record_of DayRecord.actual_out DayRecord.worked_minutes DayRecord.actual_out1
       DayRecord.actual_in2]. cbn zeta.
  split; [exact Eo|]. rewrite Ew.
  pose proof (lunch_of_nonneg (a_out1 act) (a_in2 act)) as L.
  split; [apply max_mono; lra|]. split; [|split].
  - intro Hc. apply max_comp.
    assert (Z0 : lunch_of (a_out1 act) (a_in2 act) = 0%Q).
    { rewrite Ho1.
      destruct (reconcile_done_in2 _ _ _ _ _ _ _ Hact) as [E | (t2 & E & _)].
      - rewrite E. destruct Hc as [Hc | [Hc | [Hc | Hc]]]; rewrite Hc;
          try reflexivity; destruct (PunchRow.out1 p); reflexivity.
      - destruct Hc as [Hc | [Hc | [Hc | Hc]]]; try congruence; rewrite Hc; reflexivity. }
    rewrite Z0. lra.
  - intros o1 i2 E1 E2 Hle. apply max_comp.
    rewrite E1, E2, (lunch_of_nonpositive _ _ Hle). lra.
  - intros o1 i2 E1 E2 Hlt. apply max_comp. rewrite E1, E2. cbn [lunch_of].
    assert (P : (0 < DateTime.total_seconds (i2 - o1)%Z)%Q).
    { unfold DateTime.total_seconds, Qlt. simpl. lia. }
    rewrite (proj2 (ltb_lt _ _) P).
    assert (P' : (0 < DateTime.total_seconds (i2 - o1)%Z / 60)%Q).
    { apply Qlt_shift_div_l; [reflexivity|]. lra. }
    unfold Py.max. rewrite (proj2 (ltb_lt _ _) P'). lra.
Qed.

Lemma lunch_never_adds_time_witness :
  (exists rec warnings',
     Samples.process_shift (DataFrame [Samples.half_lunch_record; Samples.lunch_record])
                           PolicyConfig.default Samples.am_shift []
     = Done (rec, warnings') /\
     DayRecord.actual_out1 rec = Stamp (Samples.est Samples.day 12 0) /\
     DayRecord.actual_in2 rec = NaT /\
     (DayRecord.worked_minutes rec
      == Py.max 0 (DateTime.total_seconds
                     (Samples.est Samples.day 16 30 - Samples.est Samples.day 9 50)%Z
                   / 60))%Q /\
     (DayRecord.worked_minutes rec == 400)%Q)
  /\
  (exists rec warnings',
     Samples.process_shift (DataFrame [Samples.backwards_lunch_record])
                           PolicyConfig.default Samples.am_shift []
     = Done (rec, warnings') /\
     DayRecord.actual_out1 rec = Stamp (Samples.est Samples.day 12 30) /\
     DayRecord.actual_in2 rec = Stamp (Samples.est Samples.day 12 0) /\
     (DayRecord.worked_minutes rec
      == Py.max 0 (DateTime.total_seconds
                     (Samples.est Samples.day 16 30 - Samples.est Samples.day 9 50)%Z
                   / 60))%Q /\
     (DayRecord.worked_minutes rec == 400)%Q)
  /\
  (exists rec warnings',
     Samples.process_shift (DataFrame [Samples.lunch_record_same_day])
                           PolicyConfig.default Samples.am_shift []
     = Done (rec, warnings') /\
     (DayRecord.worked_minutes rec
      == Py.max 0 (DateTime.total_seconds
                     (Samples.est Samples.day 16 30 - Samples.est Samples.day 9 45)%Z / 60
                   - DateTime.total_seconds
                       (Samples.est Samples.day 12 30 - Samples.est Samples.day 12 0)%Z / 60))%Q /\
     (DayRecord.worked_minutes rec == 375)%Q).
Proof.
  split; [|split].
  - eexists. eexists. split; [vm_compute; reflexivity|].
    split; [reflexivity|]. split; [reflexivity|]. split; [|vm_compute; reflexivity].
    assert (Hm : first_match (DataFrame [Samples.half_lunch_record; Samples.lunch_record])
                  (ScheduleRow.date Samples.am_shift)
                  (PunchRow.mk Samples.day "Worker, A"
                   (Stamp (Samples.est Samples.day 9 50))
                   (Stamp (Samples.est Samples.day 12 0)) NaT
                   (Stamp (Samples.est Samples.day 16 30)) None)).
    { eapply (frame_first_match_head _ _ Samples.day). reflexivity. }
    destruct (lunch_never_adds_time
                Samples.new_york Samples.ts_int64 Samples.td_int64
                (DataFrame [Samples.half_lunch_record; Samples.lunch_record])
                PolicyConfig.default Samples.am_shift []
                _
                (Samples.est Samples.day 9 50) (Samples.est Samples.day 16 30) _ []
                Hm eq_refl eq_refl eq_refl)
      as (clock_out & Eo & _ & Hinc & _).
    injection Eo as <-.
    apply Hinc. right. right. right. reflexivity.
  - eexists. eexists. split; [vm_compute; reflexivity|].
    split; [reflexivity|]. split; [reflexivity|]. split; [|vm_compute; reflexivity].
    assert (Hm : first_match (DataFrame [Samples.backwards_lunch_record])
                  (ScheduleRow.date Samples.am_shift)
                  (PunchRow.mk Samples.day "Worker, A"
                   (Stamp (Samples.est Samples.day 9 50))
                   (Stamp (Samples.est Samples.day 12 30))
                   (Stamp (Samples.est Samples.day 12 0))
                   (Stamp (Samples.est Samples.day 16 30)) None)).
    { eapply (frame_first_match_head _ _ Samples.day). reflexivity. }
    destruct (lunch_never_adds_time
                Samples.new_york Samples.ts_int64 Samples.td_int64
                (DataFrame [Samples.backwards_lunch_record])
                PolicyConfig.default Samples.am_shift []
                _
                (Samples.est Samples.day 9 50) (Samples.est Samples.day 16 30) _ []
                Hm eq_refl eq_refl eq_refl)
      as (clock_out & Eo & _ & _ & Hneg & _).
    injection Eo as <-.
    apply (Hneg (Samples.est Samples.day 12 30) (Samples.est Samples.day 12 0));
      [reflexivity|reflexivity|vm_compute; discriminate].
  - eexists. eexists. split; [vm_compute; reflexivity|].
    split; [|vm_compute; reflexivity].
    assert (Hm : first_match (DataFrame [Samples.lunch_record_same_day])
                  (ScheduleRow.date Samples.am_shift)
                  (PunchRow.mk Samples.day "Worker, A"
                   (Stamp (Samples.est Samples.day 9 45))
                   (Stamp (Samples.est Samples.day 12 0))
                   (Stamp (Samples.est Samples.day 12 30))
                   (Stamp (Samples.est Samples.day 16 30)) None)).
    { eapply (frame_first_match_head _ _ Samples.day). reflexivity. }
    destruct (lunch_never_adds_time
                Samples.new_york Samples.ts_int64 Samples.td_int64
                (DataFrame [Samples.lunch_record_same_day])
                PolicyConfig.default Samples.am_shift []
                _
                (Samples.est Samples.day 9 45) (Samples.est Samples.day 16 30) _ []
                Hm eq_refl eq_refl eq_refl)
      as (clock_out & Eo & _ & _ & _ & Hpos).
    injection Eo as <-.
    apply (Hpos (Samples.est Samples.day 12 0) (Samples.est Samples.day 12 30));
      [reflexivity|reflexivity|vm_compute; reflexivity].
Defined.

(** X14.  Once the punch frame is built, a row whose date is the date of
    no schedule row has no effect: [build_attendance] returns the same
    result, or raises the same exception, with and without it.  This is
    not so for the records from which [pd.DataFrame] builds the frame: a
    record of a date that is not scheduled can turn a column of [None]
    into a datetime column, and a row without clock-in then counts as
    present. *)
Theorem punch_of_an_unscheduled_date_is_ignored :
  (forall utc_offset ts_ok td_ok pre q post schedule_df config,
      (forall row, In row schedule_df -> ScheduleRow.date row <> PunchRow.date q) ->
      Engine.build_attendance utc_offset ts_ok td_ok (pre ++ q :: post) schedule_df config
      = Engine.build_attendance utc_offset ts_ok td_ok (pre ++ post) schedule_df config)
  /\
  (exists rec rec' summary summary',
      Samples.build_attendance (DataFrame [Samples.out_only_record; Samples.lunch_record])
                               [Samples.am_shift] PolicyConfig.default
      = Done ([rec], summary, []) /\
      Samples.build_attendance (DataFrame [Samples.out_only_record])
                               [Samples.am_shift] PolicyConfig.default
      = Done ([rec'], summary', []) /\
      DayRecord.present rec = true /\ DayRecord.actual_in rec = NaT /\
      DayRecord.present rec' = false /\ DayRecord.actual_in rec' = PyNone).
Proof.
  split.
  - intros utc_offset ts_ok td_ok pre q post schedule_df config H.
    unfold Engine.build_attendance.
    rewrite (process_rows_same_matches utc_offset ts_ok td_ok
               (pre ++ q :: post) (pre ++ post)); [reflexivity|].
    intros row Hrow. apply frame_matches_skip. intro E. apply (H row Hrow). symmetry. exact E.
  - eexists. eexists. eexists. eexists.
    split; [vm_compute; reflexivity|]. split; [vm_compute; reflexivity|].
    repeat split; reflexivity.
Qed.

Lemma punch_of_an_unscheduled_date_is_ignored_witness :
  Samples.build_attendance
    (DataFrame [Samples.earlier_record; Samples.lunch_record; Samples.am_record])
    [Samples.am_shift] PolicyConfig.default
  = Samples.build_attendance
      (DataFrame [Samples.lunch_record; Samples.am_record])
      [Samples.am_shift] PolicyConfig.default
  /\
  exists rec summary,
    Samples.build_attendance
      (DataFrame [Samples.earlier_record; Samples.lunch_record; Samples.am_record])
      [Samples.am_shift] PolicyConfig.default
    = Done ([rec], summary, []) /\
    DayRecord.present rec = true /\
    (DayRecord.worked_minutes rec == 400)%Q.
Proof.
  split.
  - apply (proj1 punch_of_an_unscheduled_date_is_ignored
             Samples.new_york Samples.ts_int64 Samples.td_int64
             []
             (PunchRow.mk (Samples.day - 1) "Worker, A"
                (Stamp (Samples.est (Samples.day - 1) 9 40)) NaT NaT
                (Stamp (Samples.est (Samples.day - 1) 16 35)) None)
             (DataFrame [Samples.lunch_record; Samples.am_record])
             [Samples.am_shift] PolicyConfig.default).
    intros row [<- | []]. vm_compute. discriminate.
  - eexists. eexists. split; [vm_compute; reflexivity|].
    split; [reflexivity|vm_compute; reflexivity].
Defined.

(** X26.  The clock-out of a shift across midnight is advanced by 24 elapsed
    hours, not to the same time of the next date: the wall clock reads the
    recorded reading plus one day plus the change of the zone's offset
    over that day, and worked_minutes counts the elapsed time.  On
    2025-11-02 in New York, with clock-in 15:58 and clock-out 00:10, the
    clock-out of the record reads 23:10 of the same date, worked_minutes is
    432 and early_dismissal is true. *)
Theorem clock_change_during_an_overnight_shift :
  (forall utc_offset ts_ok td_ok punch_df config row warnings p t_in t_out rec warnings',
      first_match punch_df (ScheduleRow.date row) p ->
      PunchRow.in1 p = Stamp t_in ->
      PunchRow.out2 p = Stamp t_out ->
      crosses_midnight utc_offset row ->
      time_at utc_offset t_out < time_at utc_offset t_in ->
      Engine.process_shift utc_offset ts_ok td_ok punch_df config row warnings
      = Done (rec, warnings') ->
      DayRecord.actual_out rec = Stamp (t_out + days 1) /\
      reads utc_offset (t_out + days 1)
            (wall utc_offset t_out + days 1
             + (utc_offset (t_out + days 1) - utc_offset t_out)) /\
      DayRecord.worked_minutes rec
      = Py.max 0 (DateTime.total_seconds (t_out + days 1 - t_in)%Z / 60
                  - lunch_of (DayRecord.actual_out1 rec) (DayRecord.actual_in2 rec))%Q)
  /\
  (exists rec,
      Samples.process_shift (DataFrame [Samples.pm_record_november_2]) PolicyConfig.default
                            Samples.pm_shift_november_2 []
      = Done (rec, []) /\
      DayRecord.actual_out rec = Stamp (Samples.edt Samples.november_2 0 10 + days 1) /\
      reads Samples.new_york (Samples.edt Samples.november_2 0 10)
            (at_hm Samples.november_2 0 10) /\
      reads Samples.new_york (Samples.edt Samples.november_2 0 10 + days 1)
            (at_hm Samples.november_2 23 10) /\
      (DayRecord.worked_minutes rec == 432)%Q /\
      DayRecord.early_dismissal rec = true).
Proof.
  split.
  - intros utc_offset ts_ok td_ok punch_df config row warnings p t_in t_out rec warnings'
           Hm Hin Hout Hx Ht H.
    apply process_shift_done in H as [_ H].
    destruct (frame_matches_first _ _ _ Hm) as [rest Er]. rewrite Er in H.
    destruct H as (act & Hact & -> & _).
    destruct (reconcile_done_worked _ _ _ _ _ _ _ _ _ Hin Hout Hact) as (t & Eo & Ew).
    rewrite (reconcile_done_out _ _ _ _ _ _ _ _ _ Hin Hout Hact) in Eo.
    unfold crosses_midnight in Hx.
    rewrite (proj2 (Z.ltb_lt _ _) Hx), (proj2 (Z.ltb_lt _ _) Ht) in Eo.
    cbn [andb] in Eo. injection Eo as <-.
    cbn [record_of DayRecord.actual_out DayRecord.worked_minutes DayRecord.actual_out1
         DayRecord.actual_in2].
    split.
    + rewrite (reconcile_done_out _ _ _ _ _ _ _ _ _ Hin Hout Hact).
      rewrite (proj2 (Z.ltb_lt _ _) Hx), (proj2 (Z.ltb_lt _ _) Ht). reflexivity.
    + split; [unfold reads, wall; lia|exact Ew].
  - eexists. split; [vm_compute; reflexivity|].
    repeat split; vm_compute; reflexivity.
Qed.

Lemma clock_change_during_an_overnight_shift_witness :
  exists rec warnings',
    Samples.process_shift (DataFrame [Samples.pm_record_november_2]) PolicyConfig.default
                          Samples.pm_shift_november_2 []
    = Done (rec, warnings') /\
    DayRecord.actual_out rec = Stamp (Samples.edt Samples.november_2 0 10 + days 1) /\
    reads Samples.new_york (Samples.edt Samples.november_2 0 10 + days 1)
          (wall Samples.new_york (Samples.edt Samples.november_2 0 10) + days 1
           + (Samples.new_york (Samples.edt Samples.november_2 0 10 + days 1)
              - Samples.new_york (Samples.edt Samples.november_2 0 10))) /\
    DayRecord.worked_minutes rec
    = Py.max 0 (DateTime.total_seconds
                  (Samples.edt Samples.november_2 0 10 + days 1
                   - Samples.est Samples.november_2 15 58)%Z / 60
                - lunch_of (DayRecord.actual_out1 rec) (DayRecord.actual_in2 rec))%Q.
Proof.
  eexists. eexists. split; [vm_compute; reflexivity|].
  apply (proj1 clock_change_during_an_overnight_shift
           Samples.new_york Samples.ts_int64 Samples.td_int64
           (DataFrame [Samples.pm_record_november_2]) PolicyConfig.default
           Samples.pm_shift_november_2 []
           (PunchRow.mk Samples.november_2 "Worker, A"
              (Stamp (Samples.est Samples.november_2 15 58)) PyNone PyNone
              (Stamp (Samples.edt Samples.november_2 0 10)) None)
           (Samples.est Samples.november_2 15 58) (Samples.edt Samples.november_2 0 10)
           _ []).
  - eapply (frame_first_match_head _ _ Samples.november_2). reflexivity.
  - reflexivity.
  - reflexivity.
  - vm_compute. reflexivity.
  - vm_compute. reflexivity.
  - vm_compute. reflexivity.
Defined.

(** X29.  A tardy threshold that [timedelta] cannot hold (more than
    999999999 whole days) is met only when a row with a clock-in is judged:
    line 110 then raises [OverflowError] and the turn yields no record.
    For a shift that no punch row matches, line 108 skips both checks, and
    the turn returns an absent record with the warnings unchanged, whatever
    the thresholds are. *)
Theorem threshold_beyond_timedelta
    (utc_offset : datetime -> Z) (ts_ok : datetime -> bool) (td_ok : timedelta -> bool) :
  (forall punch_df config row warnings p act,
      first_match punch_df (ScheduleRow.date row) p ->
      td_ok (ScheduleRow.sched_end_dt row - ScheduleRow.sched_start_dt row) = true ->
      Engine.reconcile_punch utc_offset ts_ok td_ok (ScheduleRow.sched_start_dt row)
                             (ScheduleRow.sched_end_dt row) p = Done act ->
      is_not_none (PunchRow.in1 p) = true ->
      ~ minutes_in_range (PolicyConfig.tardy_minutes config) ->
      Engine.process_shift utc_offset ts_ok td_ok punch_df config row warnings
      = Raised OverflowError)
  /\
  (forall punch_df config row warnings,
      (forall q, In q punch_df -> PunchRow.date q <> ScheduleRow.date row) ->
      td_ok (ScheduleRow.sched_end_dt row - ScheduleRow.sched_start_dt row) = true ->
      exists rec,
        Engine.process_shift utc_offset ts_ok td_ok punch_df config row warnings
        = Done (rec, warnings) /\
        DayRecord.present rec = false /\
        DayRecord.tardy rec = false /\
        DayRecord.early_dismissal rec = false).
Proof.
  split.
  - intros punch_df config row warnings p act Hm Htd Hact Hin Hn.
    destruct (frame_matches_first _ _ _ Hm) as [rest Er].
    destruct (reconcile_done_basic _ _ _ _ _ _ _ Hact) as (Ha & _ & Hp).
    unfold Engine.process_shift, ts_diff. rewrite Htd. cbn [bind].
    fold (matches punch_df (ScheduleRow.date row)). rewrite Er.
    cbn [iloc nth_error bind]. rewrite Hact. cbn [bind].
    rewrite Hp, Ha, Hin.
    replace (truthy (PunchRow.in1 p)) with true by (symmetry; exact Hin).
    cbn [andb]. unfold timedelta_minutes.
    replace ((-999999999 <=? PolicyConfig.tardy_minutes config / 1440)
             && (PolicyConfig.tardy_minutes config / 1440 <=? 999999999)) with false;
      [reflexivity|].
    symmetry. apply not_true_iff_false. intro B. apply Hn.
    apply andb_true_iff in B as [B1 B2].
    apply Z.leb_le in B1. apply Z.leb_le in B2. split; assumption.
  - intros punch_df config row warnings Hnone Htd.
    unfold Engine.process_shift, ts_diff. rewrite Htd. cbn [bind].
    fold (matches punch_df (ScheduleRow.date row)).
    rewrite (frame_matches_none _ _ Hnone).
    cbn [bind defaults a_present a_in a_out andb].
    rewrite fraction_returns. cbn [bind].
    eexists. split; [reflexivity|]. repeat split; reflexivity.
Qed.

Lemma threshold_beyond_timedelta_witness :
  Samples.process_shift (DataFrame [Samples.am_record]) Samples.patient_policy
                        Samples.am_shift []
  = Raised OverflowError
  /\
  exists rec,
    Samples.process_shift (DataFrame [Samples.am_record]) Samples.patient_policy
                          Samples.next_day_shift []
    = Done (rec, []) /\
    DayRecord.present rec = false /\
    DayRecord.tardy rec = false /\
    DayRecord.early_dismissal rec = false.
Proof.
  split.
  - eapply (proj1 (threshold_beyond_timedelta
                     Samples.new_york Samples.ts_int64 Samples.td_int64)
              (DataFrame [Samples.am_record]) Samples.patient_policy Samples.am_shift []
              (PunchRow.mk Samples.day "Worker, A"
                 (Stamp (Samples.est Samples.day 9 50)) PyNone PyNone
                 (Stamp (Samples.est Samples.day 16 30)) None)).
    + eapply (frame_first_match_head _ _ Samples.day). reflexivity.
    + vm_compute. reflexivity.
    + vm_compute. reflexivity.
    + reflexivity.
    + unfold minutes_in_range. vm_compute. intros [_ H]. apply H. reflexivity.
  - apply (proj2 (threshold_beyond_timedelta
                    Samples.new_york Samples.ts_int64 Samples.td_int64)).
    + intros q [<- | []]. vm_compute. discriminate.
    + vm_compute. reflexivity.
Defined.


